(** * The TPC-H workshop dashboard: fetch, normalize and refresh

    A shallow embedding of the dashboard's data pipeline:
    - [CubeApiService] (services/cubeApi.ts): configuration check, [query]
      and its mapping of Axios failures to thrown errors;
    - the six [process...Data] normalizers of [Dashboard.tsx];
    - [updateFilters] of [FilterBar.tsx];
    - [loadDashboardData] of [Dashboard.tsx] as a transition system over the
      component state, the [loadingRef] guard and the pending [Promise.all];
    - the options of the filter bar, the styling of the chart components and
      the KPI cards;
    - signing in: the handler of [server.js], [LoginForm.tsx] and the auth
      context.

    JavaScript numbers are IEEE-754 doubles (Rocq's primitive floats),
    strings are byte strings (UTF-8), and a plain object used as a map is
    the list of its own properties in creation order, with the members of
    Object.prototype behind it. *)

From Stdlib Require Import ZArith List String Ascii Bool Lia Floats Uint63 Permutation Sorted.
Import ListNotations.
Local Open Scope string_scope.

(** ** JavaScript runtime: truthiness, [parseFloat], property keys *)

Module Js.

(** ToBoolean on numbers and strings: NaN, +0, -0 and the empty string are falsy. *)
Definition truthy_number (x : float) : bool :=
  negb (PrimFloat.is_nan x || PrimFloat.is_zero x).

Definition truthy_string (s : string) : bool :=
  negb (s =? "").

(** [a || b] on numbers. *)
Definition or_number (a b : float) : float :=
  if truthy_number a then a else b.

(** [a || b] where [a] is a string or [undefined]. *)
Definition or_string (a : option string) (b : string) : string :=
  match a with
  | Some s => if truthy_string s then s else b
  | None => b
  end.

(** [s.startsWith(p)] *)
Fixpoint startsWith (p s : string) : bool :=
  match p, s with
  | EmptyString, _ => true
  | String a p', String b s' => (a =? b)%char && startsWith p' s'
  | String _ _, EmptyString => false
  end.

(** *** StrWhiteSpaceChar, on UTF-8 bytes *)

Definition code (c : ascii) : N := N_of_ascii c.

Definition ws1 (c : ascii) : bool :=
  let n := code c in
  ((9 <=? n) && (n <=? 13) || (n =? 32))%N.

(** U+00A0 *)
Definition ws2 (c1 c2 : ascii) : bool :=
  ((code c1 =? 194) && (code c2 =? 160))%N.

(** U+1680, U+2000..U+200A, U+2028, U+2029, U+202F, U+205F, U+3000, U+FEFF *)
Definition ws3 (c1 c2 c3 : ascii) : bool :=
  let a := code c1 in
  let b := code c2 in
  let c := code c3 in
  ((a =? 225) && (b =? 154) && (c =? 128)
   || (a =? 226) && (b =? 128)
      && ((128 <=? c) && (c <=? 138) || (c =? 168) || (c =? 169) || (c =? 175))
   || (a =? 226) && (b =? 129) && (c =? 159)
   || (a =? 227) && (b =? 128) && (c =? 128)
   || (a =? 239) && (b =? 187) && (c =? 191))%N.

Fixpoint trimStart (s : string) : string :=
  match s with
  | String c1 r1 =>
      if ws1 c1 then trimStart r1
      else
        match r1 with
        | String c2 r2 =>
            if ws2 c1 c2 then trimStart r2
            else
              match r2 with
              | String c3 r3 => if ws3 c1 c2 c3 then trimStart r3 else s
              | EmptyString => s
              end
        | EmptyString => s
        end
  | EmptyString => s
  end.

(** *** Decimal literals *)

Definition digit_of (c : ascii) : option Z :=
  let n := Z.of_N (code c) in
  if ((48 <=? n) && (n <=? 57))%Z then Some (n - 48)%Z else None.

(** Reads the longest run of decimal digits: the accumulated value, the
    number of digits read, and the rest of the string. *)
Fixpoint read_digits (s : string) (acc count : Z) : Z * Z * string :=
  match s with
  | String c r =>
      match digit_of c with
      | Some d => read_digits r (10 * acc + d)%Z (count + 1)%Z
      | None => (acc, count, s)
      end
  | EmptyString => (acc, count, s)
  end.

Definition read_sign (s : string) : bool * string :=
  match s with
  | String "-" r => (true, r)
  | String "+" r => (false, r)
  | _ => (false, s)
  end.

(** ExponentPart: [e] or [E], an optional sign and at least one digit;
    anything else leaves the exponent at 0 (the literal ends before it). *)
Definition read_exponent (s : string) : Z :=
  match s with
  | String c r =>
      if (c =? "e")%char || (c =? "E")%char then
        let '(neg, r') := read_sign r in
        let '(e, n, _) := read_digits r' 0%Z 0%Z in
        if (n =? 0)%Z then 0%Z else if neg then (- e)%Z else e
      else 0%Z
  | EmptyString => 0%Z
  end.

(** *** Decimal to binary64, round to nearest, ties to even *)

(** The double nearest to [n / d], for [n > 0] and [d > 0]. *)
Definition round_ratio (n d : Z) : float :=
  let l := (Z.log2 n - Z.log2 d)%Z in
  let scaled (t : Z) : Z * Z :=
    (* numerator and denominator of (n / d) / 2^t *)
    if (t <? 0)%Z then (n * 2 ^ (- t), d)%Z else (n, d * 2 ^ t)%Z in
  let t0 := (l - 53)%Z in
  let '(n0, d0) := scaled t0 in
  let t1 := if (2 ^ 53 <=? n0 / d0)%Z then (t0 + 1)%Z else t0 in
  let t := Z.max t1 (-1074) in
  let '(nt, dt) := scaled t in
  let q := (nt / dt)%Z in
  let r := (nt mod dt)%Z in
  let up := ((dt <? 2 * r) || ((2 * r =? dt) && Z.odd q))%Z in
  let m := if up then (q + 1)%Z else q in
  Z.ldexp (PrimFloat.of_uint63 (Uint63.of_Z m)) t.

(** The Number value of [m * 10^e], with the sign applied. *)
Definition number_of_decimal (neg : bool) (m e : Z) : float :=
  let x :=
    if (m =? 0)%Z then PrimFloat.zero
    else if (e <? 0)%Z then round_ratio m (10 ^ (- e))
    else round_ratio (m * 10 ^ e) 1 in
  if neg then PrimFloat.opp x else x.

(** [parseFloat] on a string: leading white space is skipped, the longest
    prefix that is a StrDecimalLiteral is converted, and NaN is returned when
    there is none. *)
Definition parseFloat (s : string) : float :=
  let '(neg, r) := read_sign (trimStart s) in
  if startsWith "Infinity" r then
    if neg then PrimFloat.neg_infinity else PrimFloat.infinity
  else
    let '(ip, ni, r1) := read_digits r 0%Z 0%Z in
    let '(m, nf, r2) :=
      match r1 with
      | String "." r1' => read_digits r1' ip 0%Z
      | _ => (ip, 0%Z, r1)
      end in
    if ((ni =? 0) && (nf =? 0))%Z then PrimFloat.nan
    else number_of_decimal neg m (read_exponent r2 - nf).

End Js.

(** ** Values, rows and objects used as maps *)

(** A row field is a string, a number or null (types/cube.ts, [CubeDataRow]);
    reading a key the row does not have gives [undefined]. *)
Inductive JsValue : Type :=
| VString (s : string)
| VNumber (x : float)
| VNull
| VUndefined.

(** What the embedding takes from the JavaScript engine without modelling it:
    Number::toString, the formatting of a month label,
    [new Date(v).toLocaleDateString('en-US', { month: 'short', year: 'numeric' })],
    and the source text that [String(f)] gives for the built-in function [f]
    found under a name in Object.prototype. *)
Record Runtime : Type := {
  Number_toString : float -> string;
  toLocaleDateString_month_year : JsValue -> string;
  Function_toString : string -> string
}.

(** ToString, as applied by [String(v)], by [parseFloat(v)] and by a
    property access [o[v]]. *)
Definition ToString (rt : Runtime) (v : JsValue) : string :=
  match v with
  | VString s => s
  | VNumber x => Number_toString rt x
  | VNull => "null"
  | VUndefined => "undefined"
  end.

(** A plain object created by [{}], as [regionTotals] in
    [processSalesByRegionData]: its own properties in creation order, which
    hold numbers or strings, and Object.prototype behind it. *)
Module JsObject.

Definition t : Type := list (string * JsValue).

(** The functions a plain object inherits from Object.prototype, those of
    Annex B included, as in every browser. *)
Definition prototype_methods : list string :=
  ["constructor"; "hasOwnProperty"; "isPrototypeOf"; "propertyIsEnumerable";
   "toLocaleString"; "toString"; "valueOf";
   "__defineGetter__"; "__defineSetter__"; "__lookupGetter__"; "__lookupSetter__"].

Definition is_method (k : string) : bool := existsb (String.eqb k) prototype_methods.

(** What [o[k]] finds: an own property, a function inherited from
    Object.prototype, the accessor [__proto__] (whose getter gives
    Object.prototype itself), or nothing, which reads as [undefined]. *)
Inductive Property : Type :=
| Own (v : JsValue)
| Method (name : string)
| Proto
| Missing.

Fixpoint own (o : t) (k : string) : option JsValue :=
  match o with
  | (k', v) :: rest => if k' =? k then Some v else own rest k
  | [] => None
  end.

(** [o[k]] *)
Definition get (o : t) (k : string) : Property :=
  match own o k with
  | Some v => Own v
  | None =>
      if k =? "__proto__" then Proto
      else if is_method k then Method k
      else Missing
  end.

(** The truthiness of what [o[k]] found; functions and objects are truthy. *)
Definition truthy (p : Property) : bool :=
  match p with
  | Own (VString s) => Js.truthy_string s
  | Own (VNumber x) => Js.truthy_number x
  | Own VNull => false
  | Own VUndefined => false
  | Method _ => true
  | Proto => true
  | Missing => false
  end.

(** [p + amount] for what [o[k]] found and a number: numbers are added; a
    string is continued with the string form of the number; a function or
    an object is first turned into a string, its source text or
    ["[object Object]"]. *)
Definition plus (rt : Runtime) (p : Property) (amount : float) : JsValue :=
  match p with
  | Own (VNumber x) => VNumber (x + amount)
  | Own (VString s) => VString (s ++ Number_toString rt amount)
  | Own VNull => VNumber (0 + amount)
  | Own VUndefined => VNumber (PrimFloat.nan + amount)
  | Method name => VString (Function_toString rt name ++ Number_toString rt amount)
  | Proto => VString ("[object Object]" ++ Number_toString rt amount)
  | Missing => VNumber (PrimFloat.nan + amount)
  end.

(** Writing an own property: an existing one keeps its place, a new one
    goes last. *)
Fixpoint put (o : t) (k : string) (v : JsValue) : t :=
  match o with
  | (k', v') :: rest => if k' =? k then (k', v) :: rest else (k', v') :: put rest k v
  | [] => [(k, v)]
  end.

(** [o[k] = v] for a number or a string [v]. The functions of
    Object.prototype are writable data properties, so the assignment
    creates an own property over them; [__proto__] is an accessor whose
    setter ignores a value that is neither an object nor null, so nothing
    is written. *)
Definition set (o : t) (k : string) (v : JsValue) : t :=
  if k =? "__proto__" then o else put o k v.

(** A property key that is an array index: the canonical decimal form of an
    integer below 2^32 - 1. *)
Definition array_index (k : string) : option Z :=
  let '(v, n, rest) := Js.read_digits k 0%Z 0%Z in
  let canonical :=
    match k with
    | String "0" r => r =? ""
    | _ => true
    end in
  if (rest =? "") && (0 <? n)%Z && canonical && (v <=? 4294967294)%Z
  then Some v else None.

Fixpoint insert_index (e : Z * (string * JsValue)) (l : list (Z * (string * JsValue)))
  : list (Z * (string * JsValue)) :=
  match l with
  | e' :: rest => if (fst e <=? fst e')%Z then e :: l else e' :: insert_index e rest
  | [] => [e]
  end.

Fixpoint index_entries (o : t) : list (Z * (string * JsValue)) :=
  match o with
  | e :: rest =>
      match array_index (fst e) with
      | Some i => insert_index (i, e) (index_entries rest)
      | None => index_entries rest
      end
  | [] => []
  end.

Definition is_name (e : string * JsValue) : bool :=
  match array_index (fst e) with
  | Some _ => false
  | None => true
  end.

(** OrdinaryOwnPropertyKeys: array indices in ascending order, then the other
    string keys in creation order. *)
Definition own_entries (o : t) : list (string * JsValue) :=
  map snd (index_entries o) ++ filter is_name o.

(** [Object.keys(o)] and [Object.values(o)] *)
Definition keys (o : t) : list string := map fst (own_entries o).
Definition values (o : t) : list JsValue := map snd (own_entries o).

End JsObject.

(** ** Types of the dashboard (types/cube.ts) *)

Module Cube.

Record CubeFilter : Type := {
  member : string;
  operator : string;
  values : list string
}.

Inductive DateRange : Type :=
| RelativeRange (name : string)
| ExplicitRange (bounds : list string).

Record CubeTimeDimension : Type := {
  dimension : string;
  granularity : option string;
  dateRange : option DateRange
}.

Record CubeQuery : Type := {
  measures : option (list string);
  dimensions : option (list string);
  timeDimensions : option (list CubeTimeDimension);
  filters : option (list CubeFilter);
  order : option (list (string * bool));
  limit : option Z;
  offset : option Z
}.

(** [{ [key: string]: string | number | null }] *)
Definition CubeDataRow : Type := list (string * JsValue).

(** [row[key]] *)
Fixpoint row_get (row : CubeDataRow) (key : string) : JsValue :=
  match row with
  | (k, v) :: rest => if k =? key then v else row_get rest key
  | [] => VUndefined
  end.

(** The response body. [data] is optional because the normalizers test
    [!response.data]; the annotation is read by none of the functions here. *)
Record CubeQueryResponse : Type := {
  query : CubeQuery;
  data : option (list CubeDataRow)
}.

Inductive Colors : Type :=
| Color (c : string)
| ColorList (cs : list string).

Record Dataset : Type := {
  label : string;
  series : list JsValue;                (* the field [data] of a dataset *)
  backgroundColor : option Colors;
  borderColor : option string;
  borderWidth : option float
}.

(** [labels] is typed [string[]], and holds whatever the [as string] casts
    let through. *)
Record ChartData : Type := {
  labels : list JsValue;
  datasets : list Dataset
}.

End Cube.


(** ** The Cube API client (services/cubeApi.ts) *)

Module CubeApi.
Import Cube.

(** A thrown value as a catch clause sees it: an instance of Error with its
    message, or some other value. *)
Inductive JsThrown : Type :=
| ErrorObject (message : string)
| OtherValue (v : JsValue).

Inductive Completion (A : Type) : Type :=
| Return (a : A)
| Throw (e : JsThrown).

Arguments Return {A} a.
Arguments Throw {A} e.

(** The response carried by an AxiosError. [data_json] is
    [JSON.stringify(error.response.data)], [None] when that is [undefined]. *)
Record AxiosResponse : Type := {
  status : Z;
  statusText : string;
  data_json : option string
}.

(** An error for which [axios.isAxiosError] holds; [response] is absent when
    no response was received (network error, timeout). *)
Record AxiosError : Type := {
  message : string;
  response : option AxiosResponse
}.

(** How the promise of [axios.get] settles. *)
Inductive AxiosOutcome : Type :=
| Fulfilled (status : Z) (body : CubeQueryResponse)
| RejectedAxios (error : AxiosError)
| RejectedOther (error : JsThrown).

(** The GET request of [query]: [url] is [`${apiUrl}/load`]; the parameter
    [query=encodeURIComponent(JSON.stringify(query))] is kept as the query
    it encodes. *)
Record AxiosRequest : Type := {
  url : string;
  query_param : CubeQuery;
  Authorization : string
}.

Definition CUBE_API_URL (env : option string) : string :=
  Js.or_string env "YOUR_CUBE_ENDPOINT_HERE".

Definition CUBE_API_TOKEN (env : option string) : string :=
  Js.or_string env "YOUR_BEARER_TOKEN_HERE".

Record CubeApiService : Type := {
  apiUrl : string;
  token : string
}.

(** [env_url] and [env_token] are [process.env.REACT_APP_CUBE_API_URL] and
    [process.env.REACT_APP_CUBE_API_TOKEN]. *)
Definition constructor (env_url env_token : option string) : CubeApiService :=
  {| apiUrl := CUBE_API_URL env_url; token := CUBE_API_TOKEN env_token |}.

Definition updateConfig (_ : CubeApiService) (apiUrl token : string) : CubeApiService :=
  {| apiUrl := apiUrl; token := token |}.

Definition setToken (this : CubeApiService) (token : string) : CubeApiService :=
  {| apiUrl := apiUrl this; token := token |}.

Definition isConfigured (this : CubeApiService) : bool :=
  negb (apiUrl this =? "YOUR_CUBE_ENDPOINT_HERE")
  && negb (token this =? "YOUR_BEARER_TOKEN_HERE")
  && (0 <? String.length (apiUrl this))%nat
  && (0 <? String.length (token this))%nat.

Definition not_configured : JsThrown :=
  ErrorObject "Cube API not configured. Please set your endpoint and token.".

Definition request_of (this : CubeApiService) (query : CubeQuery) : AxiosRequest :=
  {| url := apiUrl this ++ "/load";
     query_param := query;
     Authorization := token this |}.

Definition status_is (error : AxiosError) (code : Z) : bool :=
  match response error with
  | Some r => (status r =? code)%Z
  | None => false
  end.

(** [JSON.stringify(error.response?.data) || error.response?.statusText || error.message] *)
Definition detail (error : AxiosError) : string :=
  Js.or_string
    (match response error with Some r => data_json r | None => None end)
    (Js.or_string (option_map statusText (response error)) (message error)).

(** The catch clause of [query], for an error that is an AxiosError. *)
Definition axios_error_thrown (error : AxiosError) : JsThrown :=
  if status_is error 401 then
    ErrorObject "Authentication failed. Please check your Bearer token."
  else if status_is error 403 then
    ErrorObject "Access denied. Please check your permissions."
  else if status_is error 400 then
    ErrorObject ("Bad Request: " ++ detail error)
  else if status_is error 500 then
    ErrorObject ("Server Error: " ++ detail error)
  else
    ErrorObject
      ("API Error: "
         ++ Js.or_string (option_map statusText (response error)) (message error)).

(** What [query] does once the promise of [axios.get] has settled. *)
Definition settle (outcome : AxiosOutcome) : Completion CubeQueryResponse :=
  match outcome with
  | Fulfilled _ body => Return body
  | RejectedAxios error => Throw (axios_error_thrown error)
  | RejectedOther error => Throw error
  end.

(** [query]: the completion of the returned promise, and the requests sent.
    [net] is the network: how each request's promise settles. *)
Definition query (this : CubeApiService) (net : AxiosRequest -> AxiosOutcome)
    (query : CubeQuery) : Completion CubeQueryResponse * list AxiosRequest :=
  if negb (isConfigured this) then (Throw not_configured, [])
  else
    let request := request_of this query in
    (settle (net request), [request]).

Definition last_12_months (granularity : option string) : CubeTimeDimension :=
  {| dimension := "customer_behavior.order_date";
     granularity := granularity;
     dateRange := Some (RelativeRange "last 12 months") |}.

Definition salesOverTimeQuery (filters : list CubeFilter) (dateRange : string) : CubeQuery :=
  {| measures := Some ["customer_behavior.total_revenue"];
     dimensions := None;
     timeDimensions :=
       Some [ {| dimension := "customer_behavior.order_date";
                 granularity := Some "month";
                 dateRange := Some (RelativeRange dateRange) |} ];
     filters := Some filters;
     order := None; limit := None; offset := None |}.

Definition salesByRegionQuery (filters : list CubeFilter) : CubeQuery :=
  {| measures := Some ["customer_behavior.total_revenue"];
     dimensions := Some ["customer_behavior.region"];
     timeDimensions := Some [last_12_months (Some "month")];
     filters := Some filters;
     order := None; limit := None; offset := None |}.

Definition customerSegmentRevenueQuery (filters : list CubeFilter) : CubeQuery :=
  {| measures := Some ["customer_behavior.total_revenue"];
     dimensions := Some ["customer_behavior.customers_segment"];
     timeDimensions := None;
     filters := Some filters;
     order := None; limit := None; offset := None |}.

Definition orderSizeDistributionQuery (filters : list CubeFilter) : CubeQuery :=
  {| measures := Some ["customer_behavior.count"; "customer_behavior.total_revenue"];
     dimensions := Some ["customer_behavior.order_size_category"];
     timeDimensions := None;
     filters := Some filters;
     order := None; limit := None; offset := None |}.

Definition topBrandsQuery (filters : list CubeFilter) (limit : Z) : CubeQuery :=
  {| measures := Some ["sales.total_sales_amount"];
     dimensions := Some ["sales.parts_brand"];
     timeDimensions := None;
     filters := Some filters;
     order := None; limit := Some limit; offset := None |}.

Definition orderStatusBreakdownQuery (filters : list CubeFilter) : CubeQuery :=
  {| measures := Some ["customer_behavior.count"; "customer_behavior.total_revenue"];
     dimensions := Some ["customer_behavior.status"];
     timeDimensions := None;
     filters := Some filters;
     order := None; limit := None; offset := None |}.

Section Getters.

Variable this : CubeApiService.
Variable net : AxiosRequest -> AxiosOutcome.

Definition getSalesOverTime (filters : list CubeFilter) (dateRange : string) :=
  query this net (salesOverTimeQuery filters dateRange).

Definition getSalesByRegion (filters : list CubeFilter) :=
  query this net (salesByRegionQuery filters).

Definition getCustomerSegmentRevenue (filters : list CubeFilter) :=
  query this net (customerSegmentRevenueQuery filters).

Definition getOrderSizeDistribution (filters : list CubeFilter) :=
  query this net (orderSizeDistributionQuery filters).

Definition getTopBrands (filters : list CubeFilter) (limit : Z) :=
  query this net (topBrandsQuery filters limit).

Definition getOrderStatusBreakdown (filters : list CubeFilter) :=
  query this net (orderStatusBreakdownQuery filters).

End Getters.

End CubeApi.

(** ** The filter bar (components/FilterBar.tsx) *)

Module FilterBar.
Import Cube.

(** *** [JSON.stringify] on a list of filters *)

Definition dquote : string := String (ascii_of_nat 34) "".
Definition backslash : string := String (ascii_of_nat 92) "".

Definition hex_digit (n : N) : ascii :=
  if (n <? 10)%N then ascii_of_N (48 + n) else ascii_of_N (87 + n).

(** QuoteJSONString, one character. *)
Definition escape_char (c : ascii) : string :=
  let n := Js.code c in
  if (n =? 8)%N then backslash ++ "b"
  else if (n =? 9)%N then backslash ++ "t"
  else if (n =? 10)%N then backslash ++ "n"
  else if (n =? 12)%N then backslash ++ "f"
  else if (n =? 13)%N then backslash ++ "r"
  else if (n =? 34)%N then backslash ++ dquote
  else if (n =? 92)%N then backslash ++ backslash
  else if (n <? 32)%N then
    backslash ++ "u00" ++ String (hex_digit (n / 16)) (String (hex_digit (n mod 16)) "")
  else String c "".

Fixpoint escape (s : string) : string :=
  match s with
  | String c r => escape_char c ++ escape r
  | EmptyString => ""
  end.

Definition quote (s : string) : string := dquote ++ escape s ++ dquote.

Fixpoint join (items : list string) : string :=
  match items with
  | [] => ""
  | [x] => x
  | x :: rest => x ++ "," ++ join rest
  end.

Definition stringify_array (items : list string) : string :=
  "[" ++ join items ++ "]".

Definition stringify_filter (f : CubeFilter) : string :=
  "{" ++ quote "member" ++ ":" ++ quote (member f)
      ++ "," ++ quote "operator" ++ ":" ++ quote (operator f)
      ++ "," ++ quote "values" ++ ":" ++ stringify_array (map quote (values f))
      ++ "}".

Definition JSON_stringify (filters : list CubeFilter) : string :=
  stringify_array (map stringify_filter filters).

(** *** Component state *)

Record State : Type := {
  selectedRegions : list string;
  selectedSegments : list string;
  prevFiltersRef : string
}.

Definition initial : State :=
  {| selectedRegions := []; selectedSegments := []; prevFiltersRef := "" |}.

(** The filter list [updateFilters] builds from the selections. *)
Definition build_filters (selectedRegions selectedSegments : list string) : list CubeFilter :=
  (if (0 <? List.length selectedRegions)%nat then
     [ {| member := "customer_behavior.region";
          operator := "equals";
          values := selectedRegions |} ]
   else [])
  ++
  (if (0 <? List.length selectedSegments)%nat then
     [ {| member := "customer_behavior.customers_segment";
          operator := "equals";
          values := selectedSegments |} ]
   else []).

(** [updateFilters]: the state after it, and the argument of the call to
    [onFiltersChange] when there is one. *)
Definition updateFilters (st : State) : State * option (list CubeFilter) :=
  let filters := build_filters (selectedRegions st) (selectedSegments st) in
  let filtersString := JSON_stringify filters in
  if negb (filtersString =? prevFiltersRef st) then
    ({| selectedRegions := selectedRegions st;
        selectedSegments := selectedSegments st;
        prevFiltersRef := filtersString |},
     Some filters)
  else (st, None).

(** The value of a change event of a multiple select: an array, or a string
    that the handlers split at commas. *)
Inductive SelectValue : Type :=
| AsArray (value : list string)
| AsString (value : string).

Fixpoint split_commas (s : string) (current : string) : list string :=
  match s with
  | String c r =>
      if (c =? ",")%char then current :: split_commas r ""
      else split_commas r (current ++ String c "")
  | EmptyString => [current]
  end.

Definition new_value (value : SelectValue) : list string :=
  match value with
  | AsArray l => l
  | AsString s => split_commas s ""
  end.

(** The selection set by [handleRegionChange] and [handleSegmentChange]. *)
Definition selection_of (value : SelectValue) : list string :=
  let newValue := new_value value in
  if existsb (String.eqb "") newValue then [] else newValue.

(** A change of either select, followed by the effect on
    [[selectedRegions, selectedSegments]], which runs [updateFilters]. *)
Definition handleRegionChange (value : SelectValue) (st : State)
  : State * option (list CubeFilter) :=
  updateFilters
    {| selectedRegions := selection_of value;
       selectedSegments := selectedSegments st;
       prevFiltersRef := prevFiltersRef st |}.

Definition handleSegmentChange (value : SelectValue) (st : State)
  : State * option (list CubeFilter) :=
  updateFilters
    {| selectedRegions := selectedRegions st;
       selectedSegments := selection_of value;
       prevFiltersRef := prevFiltersRef st |}.

End FilterBar.

(** ** The dashboard (components/Dashboard.tsx) *)

Module Dashboard.
Import Cube.

(** *** The response normalizers (lines 115-295) *)

Section Normalizers.

Variable rt : Runtime.

(** [!response.data || !response.data.length] *)
Definition no_rows (response : CubeQueryResponse) : bool :=
  match data response with
  | None => true
  | Some rows => (List.length rows =? 0)%nat
  end.

Definition rows_of (response : CubeQueryResponse) : list CubeDataRow :=
  match data response with
  | None => []
  | Some rows => rows
  end.

Definition palette5 : Colors :=
  ColorList ["#FF6384"; "#36A2EB"; "#FFCE56"; "#4BC0C0"; "#9966FF"].

Definition processSalesOverTimeData (response : CubeQueryResponse) : ChartData :=
  if no_rows response then
    {| labels := [];
       datasets := [ {| label := "Revenue";
                        series := [];
                        borderColor := Some "#1976d2";
                        backgroundColor := Some (Color "rgba(25, 118, 210, 0.1)");
                        borderWidth := Some 2%float |} ] |}
  else
    let labels :=
      map (fun row =>
             let dateStr := row_get row "customer_behavior.order_date.month" in
             VString (toLocaleDateString_month_year rt dateStr))
          (rows_of response) in
    let data :=
      map (fun row =>
             VNumber
               (Js.or_number
                  (Js.parseFloat (ToString rt (row_get row "customer_behavior.total_revenue")))
                  0))
          (rows_of response) in
    {| labels := labels;
       datasets := [ {| label := "Revenue";
                        series := data;
                        borderColor := Some "#1976d2";
                        backgroundColor := Some (Color "rgba(25, 118, 210, 0.1)");
                        borderWidth := Some 2%float |} ] |}.

(** One turn of the [forEach] that fills [regionTotals]:
    [if (regionTotals[region]) regionTotals[region] += amount;
     else regionTotals[region] = amount]. *)
Definition add_region (regionTotals : JsObject.t) (row : CubeDataRow) : JsObject.t :=
  let region := ToString rt (row_get row "customer_behavior.region") in
  let amount :=
    Js.or_number
      (Js.parseFloat (ToString rt (row_get row "customer_behavior.total_revenue")))
      0 in
  let total := JsObject.get regionTotals region in
  if JsObject.truthy total
  then JsObject.set regionTotals region (JsObject.plus rt total amount)
  else JsObject.set regionTotals region (VNumber amount).

Definition processSalesByRegionData (response : CubeQueryResponse) : ChartData :=
  if no_rows response then
    {| labels := [];
       datasets := [ {| label := "Revenue by Region (LTM)";
                        series := [];
                        backgroundColor := Some palette5;
                        borderColor := None;
                        borderWidth := None |} ] |}
  else
    let regionTotals := fold_left add_region (rows_of response) [] in
    let labels := JsObject.keys regionTotals in
    let data := JsObject.values regionTotals in
    {| labels := map VString labels;
       datasets := [ {| label := "Revenue by Region (LTM)";
                        series := data;
                        backgroundColor := Some palette5;
                        borderColor := None;
                        borderWidth := None |} ] |}.

Definition processCustomerSegmentsData (response : CubeQueryResponse) : ChartData :=
  if no_rows response then
    {| labels := [];
       datasets := [ {| label := "Revenue by Segment";
                        series := [];
                        backgroundColor := Some palette5;
                        borderColor := None;
                        borderWidth := None |} ] |}
  else
    let labels :=
      map (fun row => row_get row "customer_behavior.customers_segment") (rows_of response) in
    let data :=
      map (fun row =>
             VNumber
               (Js.or_number
                  (Js.parseFloat (ToString rt (row_get row "customer_behavior.total_revenue")))
                  0))
          (rows_of response) in
    {| labels := labels;
       datasets := [ {| label := "Revenue by Segment";
                        series := data;
                        backgroundColor := Some palette5;
                        borderColor := None;
                        borderWidth := None |} ] |}.

Definition processOrderSizeData (response : CubeQueryResponse) : ChartData :=
  if no_rows response then
    {| labels := [];
       datasets := [ {| label := "Order Count";
                        series := [];
                        backgroundColor := Some (Color "#36A2EB");
                        borderColor := None;
                        borderWidth := None |} ] |}
  else
    let labels :=
      map (fun row => row_get row "customer_behavior.order_size_category") (rows_of response) in
    let orderData :=
      map (fun row =>
             VNumber
               (Js.or_number
                  (Js.parseFloat (ToString rt (row_get row "customer_behavior.count")))
                  0))
          (rows_of response) in
    {| labels := labels;
       datasets := [ {| label := "Order Count";
                        series := orderData;
                        backgroundColor := Some (Color "#36A2EB");
                        borderColor := None;
                        borderWidth := None |} ] |}.

(** Here [parseFloat] is given the field itself; it applies ToString to it. *)
Definition processTopBrandsData (response : CubeQueryResponse) : ChartData :=
  if no_rows response then
    {| labels := [];
       datasets := [ {| label := "Revenue by Brand";
                        series := [];
                        backgroundColor := Some (Color "#4BC0C0");
                        borderColor := None;
                        borderWidth := None |} ] |}
  else
    let labels := map (fun row => row_get row "sales.parts_brand") (rows_of response) in
    let data :=
      map (fun row =>
             VNumber
               (Js.or_number
                  (Js.parseFloat (ToString rt (row_get row "sales.total_sales_amount")))
                  0))
          (rows_of response) in
    {| labels := labels;
       datasets := [ {| label := "Revenue by Brand";
                        series := data;
                        backgroundColor := Some (Color "#4BC0C0");
                        borderColor := None;
                        borderWidth := None |} ] |}.

Definition processOrderStatusData (response : CubeQueryResponse) : ChartData :=
  if no_rows response then
    {| labels := [];
       datasets := [ {| label := "Orders by Status";
                        series := [];
                        backgroundColor := Some (ColorList ["#FF6384"; "#36A2EB"; "#FFCE56"]);
                        borderColor := None;
                        borderWidth := None |} ] |}
  else
    let labels := map (fun row => row_get row "customer_behavior.status") (rows_of response) in
    let data :=
      map (fun row =>
             VNumber
               (Js.or_number
                  (Js.parseFloat (ToString rt (row_get row "customer_behavior.count")))
                  0))
          (rows_of response) in
    {| labels := labels;
       datasets := [ {| label := "Orders by Status";
                        series := data;
                        backgroundColor := Some (ColorList ["#FF6384"; "#36A2EB"; "#FFCE56"]);
                        borderColor := None;
                        borderWidth := None |} ] |}.

End Normalizers.

(** *** The chart components (SalesChart.tsx, RegionChart.tsx) *)

(** What a chart component shows for its [data] and [isLoading] props. *)
Inductive ChartView : Type :=
| Skeleton
| NoDataAvailable
| Chart (data : ChartData).

Definition chart_view (data : option ChartData) (isLoading : bool) : ChartView :=
  if isLoading then Skeleton
  else
    match data with
    | None => NoDataAvailable
    | Some d =>
        if (List.length (datasets d) =? 0)%nat then NoDataAvailable else Chart d
    end.

(** *** Component state and the pending [Promise.all] *)

(** The six fetches of a refresh, in the order of the array given to
    [Promise.all]. *)
Inductive Widget : Type :=
| SalesOverTime
| SalesByRegion
| CustomerSegments
| OrderSize
| TopBrands
| OrderStatus.

Definition widgets : list Widget :=
  [SalesOverTime; SalesByRegion; CustomerSegments; OrderSize; TopBrands; OrderStatus].

Definition widget_eqb (a b : Widget) : bool :=
  match a, b with
  | SalesOverTime, SalesOverTime
  | SalesByRegion, SalesByRegion
  | CustomerSegments, CustomerSegments
  | OrderSize, OrderSize
  | TopBrands, TopBrands
  | OrderStatus, OrderStatus => true
  | _, _ => false
  end.

(** The query each fetch sends for the filters of the render it runs in. *)
Definition fetch_query (w : Widget) (filters : list CubeFilter) : CubeQuery :=
  match w with
  | SalesOverTime => CubeApi.salesOverTimeQuery filters "last 12 months"
  | SalesByRegion => CubeApi.salesByRegionQuery filters
  | CustomerSegments => CubeApi.customerSegmentRevenueQuery filters
  | OrderSize => CubeApi.orderSizeDistributionQuery filters
  | TopBrands => CubeApi.topBrandsQuery filters 10
  | OrderStatus => CubeApi.orderStatusBreakdownQuery filters
  end.

(** The [Promise.all] a running [loadDashboardData] awaits: [id] tells it
    from those of other calls, [fulfilled] holds the responses that have
    arrived. *)
Record Cycle : Type := {
  id : nat;
  fulfilled : list (Widget * CubeQueryResponse)
}.

Fixpoint value_of (l : list (Widget * CubeQueryResponse)) (w : Widget)
  : option CubeQueryResponse :=
  match l with
  | (w', r) :: rest => if widget_eqb w' w then Some r else value_of rest w
  | [] => None
  end.

Record Responses : Type := {
  salesOverTimeResponse : CubeQueryResponse;
  salesByRegionResponse : CubeQueryResponse;
  customerSegmentsResponse : CubeQueryResponse;
  orderSizeResponse : CubeQueryResponse;
  topBrandsResponse : CubeQueryResponse;
  orderStatusResponse : CubeQueryResponse
}.

(** The array [Promise.all] resolves with, once all six have arrived. *)
Definition all_values (l : list (Widget * CubeQueryResponse)) : option Responses :=
  match value_of l SalesOverTime, value_of l SalesByRegion, value_of l CustomerSegments,
        value_of l OrderSize, value_of l TopBrands, value_of l OrderStatus with
  | Some a, Some b, Some c, Some d, Some e, Some f =>
      Some {| salesOverTimeResponse := a;
              salesByRegionResponse := b;
              customerSegmentsResponse := c;
              orderSizeResponse := d;
              topBrandsResponse := e;
              orderStatusResponse := f |}
  | _, _, _, _, _, _ => None
  end.

(** The [useState] and [useRef] cells of the component ([tabValue] apart),
    the pending [Promise.all], and the number of refreshes started. *)
Record State : Type := {
  loading : bool;
  error : option string;
  filters : list CubeFilter;
  salesOverTime : option ChartData;
  salesByRegion : option ChartData;
  customerSegments : option ChartData;
  orderSizeDistribution : option ChartData;
  topBrands : option ChartData;
  orderStatus : option ChartData;
  loadingRef : bool;
  pending : option Cycle;
  started : nat
}.

Definition initial : State :=
  {| loading := true;
     error := None;
     filters := [];
     salesOverTime := None;
     salesByRegion := None;
     customerSegments := None;
     orderSizeDistribution := None;
     topBrands := None;
     orderStatus := None;
     loadingRef := false;
     pending := None;
     started := 0 |}.

(** [setFilters(newFilters)] *)
Definition setFilters (newFilters : list CubeFilter) (st : State) : State :=
  {| loading := loading st;
     error := error st;
     filters := newFilters;
     salesOverTime := salesOverTime st;
     salesByRegion := salesByRegion st;
     customerSegments := customerSegments st;
     orderSizeDistribution := orderSizeDistribution st;
     topBrands := topBrands st;
     orderStatus := orderStatus st;
     loadingRef := loadingRef st;
     pending := pending st;
     started := started st |}.

(** The cells written around the [try] block: [loading], [error],
    [loadingRef], and the promise awaited. *)
Definition with_progress (loading' : bool) (error' : option string) (loadingRef' : bool)
    (pending' : option Cycle) (started' : nat) (st : State) : State :=
  {| loading := loading';
     error := error';
     filters := filters st;
     salesOverTime := salesOverTime st;
     salesByRegion := salesByRegion st;
     customerSegments := customerSegments st;
     orderSizeDistribution := orderSizeDistribution st;
     topBrands := topBrands st;
     orderStatus := orderStatus st;
     loadingRef := loadingRef';
     pending := pending';
     started := started' |}.

(** [loadDashboardData] up to its [await]: the state, and the requests sent.
    Each of the six calls goes through [CubeApi.query], whose own test of
    [isConfigured] repeats the one made here. *)
Definition loadDashboardData (api : CubeApi.CubeApiService) (st : State)
  : State * list CubeApi.AxiosRequest :=
  if loadingRef st then (st, [])
  else if negb (CubeApi.isConfigured api) then
    (with_progress false
       (Some "Please configure your Cube API endpoint and token in the .env file.")
       (loadingRef st) (pending st) (started st) st,
     [])
  else
    (with_progress true None true
       (Some {| id := started st; fulfilled := [] |}) (S (started st)) st,
     map (fun w => CubeApi.request_of api (fetch_query w (filters st))) widgets).

Section Resume.

Variable rt : Runtime.

(** After the [await], all six fulfilled: the six setters, then [finally]. *)
Definition apply_responses (r : Responses) (st : State) : State :=
  {| loading := false;
     error := error st;
     filters := filters st;
     salesOverTime := Some (processSalesOverTimeData rt (salesOverTimeResponse r));
     salesByRegion := Some (processSalesByRegionData rt (salesByRegionResponse r));
     customerSegments := Some (processCustomerSegmentsData rt (customerSegmentsResponse r));
     orderSizeDistribution := Some (processOrderSizeData rt (orderSizeResponse r));
     topBrands := Some (processTopBrandsData rt (topBrandsResponse r));
     orderStatus := Some (processOrderStatusData rt (orderStatusResponse r));
     loadingRef := false;
     pending := None;
     started := started st |}.

(** After the [await], rejected: [catch], then [finally]. *)
Definition catch_error (err : CubeApi.JsThrown) (st : State) : State :=
  with_progress false
    (Some match err with
          | CubeApi.ErrorObject message => message
          | CubeApi.OtherValue _ => "Failed to load dashboard data"
          end)
    false None (started st) st.

(** The promise of fetch [w] of refresh [cycle] settles. [Promise.all]
    rejects with the first rejection and resolves with the sixth value; a
    settlement of a promise it no longer waits for changes nothing. *)
Definition fetch_settled (cycle : nat) (w : Widget) (outcome : CubeApi.AxiosOutcome)
    (st : State) : State :=
  match pending st with
  | Some p =>
      if negb (id p =? cycle)%nat then st
      else
        match value_of (fulfilled p) w with
        | Some _ => st
        | None =>
            match CubeApi.settle outcome with
            | CubeApi.Throw err => catch_error err st
            | CubeApi.Return response =>
                let arrived := (w, response) :: fulfilled p in
                match all_values arrived with
                | Some r => apply_responses r st
                | None =>
                    with_progress (loading st) (error st) (loadingRef st)
                      (Some {| id := id p; fulfilled := arrived |}) (started st) st
                end
            end
        end
  | None => st
  end.

(** What happens to the component. *)
Inductive Event : Type :=
| Mounted                                        (* first run of the effect on [[filters]] *)
| FiltersChange (newFilters : list CubeFilter)   (* [handleFiltersChange], then the effect *)
| RefreshClick                                   (* [onClick={loadDashboardData}] *)
| FetchSettled (cycle : nat) (w : Widget) (outcome : CubeApi.AxiosOutcome).

Definition step (api : CubeApi.CubeApiService) (e : Event) (st : State)
  : State * list CubeApi.AxiosRequest :=
  match e with
  | Mounted => loadDashboardData api st
  | FiltersChange newFilters => loadDashboardData api (setFilters newFilters st)
  | RefreshClick => loadDashboardData api st
  | FetchSettled cycle w outcome => (fetch_settled cycle w outcome st, [])
  end.

(** A sequence of events: the final state and all requests sent, in order. *)
Fixpoint run (api : CubeApi.CubeApiService) (events : list Event) (st : State)
  : State * list CubeApi.AxiosRequest :=
  match events with
  | [] => (st, [])
  | e :: rest =>
      let '(st1, sent1) := step api e st in
      let '(st2, sent2) := run api rest st1 in
      (st2, (sent1 ++ sent2)%list)
  end.

End Resume.

(** *** Rendering *)

Record Panels : Type := {
  controlsDisabled : bool;          (* the Refresh button and the filter bar *)
  revenueOverTime : ChartView;
  revenueByRegion : ChartView;
  orderSizes : ChartView;
  topBrandsByRevenue : ChartView;
  segments : ChartView;
  ordersByStatus : ChartView
}.

Inductive View : Type :=
| ErrorAlert (error : string)
| Tabs (panels : Panels).

Definition render (st : State) : View :=
  let panels :=
    Tabs {| controlsDisabled := loading st;
            revenueOverTime := chart_view (salesOverTime st) (loading st);
            revenueByRegion := chart_view (salesByRegion st) (loading st);
            orderSizes := chart_view (orderSizeDistribution st) (loading st);
            topBrandsByRevenue := chart_view (topBrands st) (loading st);
            segments := chart_view (customerSegments st) (loading st);
            ordersByStatus := chart_view (orderStatus st) (loading st) |} in
  match error st with
  | Some e => if Js.truthy_string e then ErrorAlert e else panels
  | None => panels
  end.

End Dashboard.

(** ** More of the JavaScript runtime: truthiness of values, [Set], [parseInt] *)

Module JsLib.

(** [Boolean(v)]: the truthiness of a value, as in [v || d] and
    [filter(Boolean)]. *)
Definition truthy (v : JsValue) : bool :=
  match v with
  | VString s => Js.truthy_string s
  | VNumber x => Js.truthy_number x
  | VNull => false
  | VUndefined => false
  end.

(** [v || d] *)
Definition or_value (v d : JsValue) : JsValue :=
  if truthy v then v else d.

(** SameValueZero, the equality of the members of a [Set]. *)
Definition same_value_zero (a b : JsValue) : bool :=
  match a, b with
  | VString s, VString t => s =? t
  | VNumber x, VNumber y =>
      PrimFloat.eqb x y || (PrimFloat.is_nan x && PrimFloat.is_nan y)
  | VNull, VNull => true
  | VUndefined, VUndefined => true
  | _, _ => false
  end.

Definition hex_digit_of (c : ascii) : option Z :=
  let n := Z.of_N (Js.code c) in
  if ((48 <=? n) && (n <=? 57))%Z then Some (n - 48)%Z
  else if ((97 <=? n) && (n <=? 102))%Z then Some (n - 87)%Z
  else if ((65 <=? n) && (n <=? 70))%Z then Some (n - 55)%Z
  else None.

Fixpoint read_hex_digits (s : string) (acc count : Z) : Z * Z :=
  match s with
  | String c r =>
      match hex_digit_of c with
      | Some d => read_hex_digits r (16 * acc + d)%Z (count + 1)%Z
      | None => (acc, count)
      end
  | EmptyString => (acc, count)
  end.

(** [parseInt(s)] without a radix: leading white space and a sign are
    skipped, [0x] or [0X] announces hexadecimal digits, and the longest run
    of digits is converted; NaN when there is none. (Beyond twenty decimal
    digits an engine may round the digits it reads; here it never does.) *)
Definition parseInt (s : string) : float :=
  let '(neg, r) := Js.read_sign (Js.trimStart s) in
  let '(m, n) :=
    if Js.startsWith "0x" r || Js.startsWith "0X" r
    then read_hex_digits (substring 2 (String.length r - 2) r) 0%Z 0%Z
    else let '(v, k, _) := Js.read_digits r 0%Z 0%Z in (v, k) in
  if (n =? 0)%Z then PrimFloat.nan
  else
    let x := if (m =? 0)%Z then PrimFloat.zero else Js.round_ratio m 1 in
    if neg then PrimFloat.opp x else x.

End JsLib.

(** ** The options of the filter bar (components/FilterBar.tsx, lines 63-86) *)

Module FilterOptions.
Import Cube JsLib.

(** [Array.from(new Set(l))]: the first occurrence of each value, in order.
    [seen] holds the members the set has so far. *)
Fixpoint unique (l seen : list JsValue) : list JsValue :=
  match l with
  | [] => []
  | v :: rest =>
      if existsb (same_value_zero v) seen then unique rest seen
      else v :: unique rest (v :: seen)
  end.

Definition regionsQuery : CubeQuery :=
  {| measures := None;
     dimensions := Some ["sales.region"];
     timeDimensions := None;
     filters := None;
     order := None; limit := None; offset := None |}.

Definition customerSegmentsQuery : CubeQuery :=
  {| measures := None;
     dimensions := Some ["customer_behavior.customers_segment"];
     timeDimensions := None;
     filters := None;
     order := None; limit := None; offset := None |}.

Record State : Type := {
  availableRegions : list JsValue;
  availableSegments : list JsValue;
  loading : bool
}.

Definition initial : State :=
  {| availableRegions := []; availableSegments := []; loading := true |}.

Section Load.

Variable rt : Runtime.

(** [before s t]: [s] sorts strictly before [t] in the order of UTF-16 code
    units, the order of [sort()] without a comparator. *)
Variable before : string -> string -> bool.

(** SortCompare says [a] goes before [b]: [undefined] goes last, other
    values go by their string forms. *)
Definition sorts_before (a b : JsValue) : bool :=
  match a, b with
  | VUndefined, _ => false
  | _, VUndefined => true
  | _, _ => before (ToString rt a) (ToString rt b)
  end.

(** [sort()] is stable: a value goes in front of the first one that does
    not sort before it. *)
Fixpoint insert (v : JsValue) (sorted : list JsValue) : list JsValue :=
  match sorted with
  | [] => [v]
  | y :: rest => if sorts_before y v then y :: insert v rest else v :: y :: rest
  end.

Fixpoint sort (l : list JsValue) : list JsValue :=
  match l with
  | [] => []
  | v :: rest => insert v (sort rest)
  end.

(** [response.data.map(row => row[key] as string).filter(Boolean)];
    [None] when [data] is missing and [map] throws. *)
Definition column (key : string) (response : CubeQueryResponse) : option (list JsValue) :=
  match data response with
  | Some rows => Some (filter truthy (map (fun row => row_get row key) rows))
  | None => None
  end.

(** The options made of a column. *)
Definition options (values : list JsValue) : list JsValue :=
  sort (unique values []).

(** [loadFilterOptions], given how the two queries complete: the lists are
    set when both have been answered and read, and left alone otherwise;
    [finally] turns [loading] off. *)
Definition loaded (regionsResponse segmentsResponse : CubeApi.Completion CubeQueryResponse)
    (st : State) : State :=
  match regionsResponse, segmentsResponse with
  | CubeApi.Return r, CubeApi.Return s =>
      match column "sales.region" r, column "customer_behavior.customers_segment" s with
      | Some regions, Some segments =>
          {| availableRegions := options regions;
             availableSegments := options segments;
             loading := false |}
      | _, _ =>
          {| availableRegions := availableRegions st;
             availableSegments := availableSegments st;
             loading := false |}
      end
  | _, _ =>
      {| availableRegions := availableRegions st;
         availableSegments := availableSegments st;
         loading := false |}
  end.

Definition loadFilterOptions (api : CubeApi.CubeApiService)
    (net : CubeApi.AxiosRequest -> CubeApi.AxiosOutcome) (st : State)
  : State * list CubeApi.AxiosRequest :=
  let '(regionsResponse, sent1) := CubeApi.query api net regionsQuery in
  let '(segmentsResponse, sent2) := CubeApi.query api net customerSegmentsQuery in
  (loaded regionsResponse segmentsResponse st, (sent1 ++ sent2)%list).

End Load.

End FilterOptions.

(** ** The styling of the chart components (RegionChart.tsx, SalesChart.tsx) *)

Module Charts.

(** A dataset as a chart component hands it to Chart.js: the dataset of the
    normalizer, spread, with the component's own properties. An absent
    property is [None]. *)
Record Styled : Type := {
  label : string;
  data : list JsValue;
  backgroundColor : option Cube.Colors;
  borderColor : option string;
  borderWidth : option float;
  hoverBorderWidth : option float;
  fill : option bool;
  tension : option float
}.

Record Enhanced : Type := {
  labels : list JsValue;
  datasets : list Styled
}.

(** The truthiness of a dataset's [backgroundColor]: an array is truthy, a
    string when it is not empty. *)
Definition truthy_colors (c : option Cube.Colors) : bool :=
  match c with
  | Some (Cube.Color s) => Js.truthy_string s
  | Some (Cube.ColorList _) => true
  | None => false
  end.

Module RegionChart.

Definition regionColors : list string :=
  ["#FF6384"; "#36A2EB"; "#FFCE56"; "#4BC0C0"; "#9966FF"; "#FF9F40"; "#FF6B6B"; "#4ECDC4"].

Definition enhancedData (data : option Cube.ChartData) : option Enhanced :=
  match data with
  | Some d =>
      Some {| labels := Cube.labels d;
              datasets :=
                map (fun dataset =>
                       {| label := Cube.label dataset;
                          data := Cube.series dataset;
                          backgroundColor :=
                            Some (Cube.ColorList
                                    (firstn (List.length (Cube.labels d)) regionColors));
                          borderColor := Some "#ffffff";
                          borderWidth := Some 2%float;
                          hoverBorderWidth := Some 3%float;
                          fill := None;
                          tension := None |})
                    (Cube.datasets d) |}
  | None => None
  end.

End RegionChart.

Module SalesChart.

Inductive ChartType : Type :=
| line
| bar.

(** [Object.values(chartColors)]: primary, secondary, success, warning, info
    and gradient. *)
Definition primary : string := "#1976d2".
Definition gradient : string := "rgba(25, 118, 210, 0.1)".

Definition chartColors_values : list string :=
  [primary; "#dc004e"; "#388e3c"; "#f57c00"; "#0288d1"; gradient].

(** [dataset.data.map((_, i) => Object.values(chartColors)[i % 6])] *)
Definition cycled (n : nat) : list string :=
  map (fun i => nth (i mod List.length chartColors_values) chartColors_values "")
      (seq 0 n).

Definition enhancedData (type : ChartType) (data : option Cube.ChartData) : option Enhanced :=
  match data with
  | Some d =>
      Some {| labels := Cube.labels d;
              datasets :=
                map (fun dataset =>
                       {| label := Cube.label dataset;
                          data := Cube.series dataset;
                          backgroundColor :=
                            if truthy_colors (Cube.backgroundColor dataset)
                            then Cube.backgroundColor dataset
                            else
                              match type with
                              | line => Some (Cube.Color gradient)
                              | bar =>
                                  Some (Cube.ColorList
                                          (cycled (List.length (Cube.series dataset))))
                              end;
                          borderColor :=
                            Some (Js.or_string (Cube.borderColor dataset) primary);
                          borderWidth :=
                            Some (let d := match type with line => 2%float | bar => 1%float end in
                                  match Cube.borderWidth dataset with
                                  | Some w => Js.or_number w d
                                  | None => d
                                  end);
                          hoverBorderWidth := None;
                          fill := Some (match type with line => true | bar => false end);
                          tension :=
                            match type with
                            | line => Some 0x1.999999999999ap-2%float   (* 0.4 *)
                            | bar => None
                            end |})
                    (Cube.datasets d) |}
  | None => None
  end.

End SalesChart.

End Charts.

(** ** The KPI cards (components/KPICards.tsx, components/MetricsCard.tsx) *)

Module MetricsCard.

(** [MetricCardData] of types/cube.ts; [value] is a string or a number. *)
Record MetricCardData : Type := {
  title : string;
  value : JsValue;
  format : option string;
  change : option float;
  isLoading : option bool
}.

Inductive TrendIcon : Type :=
| TrendingUp
| TrendingDown.

Definition getTrendIcon (change : option float) : option TrendIcon :=
  match change with
  | None => None
  | Some change =>
      if PrimFloat.ltb 0 change then Some TrendingUp
      else if PrimFloat.ltb change 0 then Some TrendingDown
      else None
  end.

Definition getTrendColor (change : option float) : string :=
  match change with
  | None => "default"
  | Some change =>
      if PrimFloat.ltb 0 change then "success"
      else if PrimFloat.ltb change 0 then "error"
      else "default"
  end.

(** The sign written before the change on the chip, [change > 0 ? '+' : '']. *)
Definition sign_prefix (change : float) : string :=
  if PrimFloat.ltb 0 change then "+" else "".

End MetricsCard.

Module KPICards.
Import Cube MetricsCard.

Record State : Type := {
  data : list MetricCardData;
  loading : bool;
  error : option string
}.

Definition initial : State :=
  {| data := []; loading := true; error := None |}.

Definition kpiQuery (filters : list CubeFilter) : CubeQuery :=
  {| measures := Some ["customer_behavior.count";
                       "customer_behavior.total_revenue";
                       "customer_behavior.average_order_value"];
     dimensions := None;
     timeDimensions := Some [CubeApi.last_12_months None];
     filters := Some filters;
     order := None;
     limit := None;
     offset := None |}.

Section Fetch.

Variable rt : Runtime.

(** [String(resultData[key] || '0')] *)
Definition field (resultData : CubeDataRow) (key : string) : string :=
  ToString rt (JsLib.or_value (row_get resultData key) (VString "0")).

Definition cards (resultData : CubeDataRow) : list MetricCardData :=
  [ {| title := "Order Count (LTM)";
       value := VNumber (JsLib.parseInt (field resultData "customer_behavior.count"));
       format := Some "number";
       change := None;
       isLoading := None |};
    {| title := "Revenue (LTM)";
       value := VNumber (Js.parseFloat (field resultData "customer_behavior.total_revenue"));
       format := Some "currency";
       change := None;
       isLoading := None |};
    {| title := "Avg Order Value (LTM)";
       value :=
         VNumber (Js.parseFloat (field resultData "customer_behavior.average_order_value"));
       format := Some "currency";
       change := None;
       isLoading := None |} ].

(** The catch clause followed by the finally clause. *)
Definition failed (st : State) : State :=
  {| data := data st; loading := false; error := Some "Failed to load KPIs" |}.

(** [fetchKPIs] up to the point where it waits for the network: the state
    and the requests sent. A client that is not configured rejects at once,
    and the call ends in its catch clause. *)
Definition fetchKPIs (api : CubeApi.CubeApiService) (filters : list CubeFilter) (st : State)
  : State * list CubeApi.AxiosRequest :=
  if negb (CubeApi.isConfigured api) then (failed st, [])
  else
    ({| data := data st; loading := true; error := error st |},
     [CubeApi.request_of api (kpiQuery filters)]).

(** [fetchKPIs] from the moment its request settles. [response.data[0]]
    throws a TypeError when the body has no [data]. *)
Definition resumed (outcome : CubeApi.AxiosOutcome) (st : State) : State :=
  match CubeApi.settle outcome with
  | CubeApi.Return response =>
      match Cube.data response with
      | Some rows =>
          let resultData := match rows with row :: _ => row | [] => [] end in
          {| data := cards resultData; loading := false; error := error st |}
      | None => failed st
      end
  | CubeApi.Throw _ => failed st
  end.

(** What happens to the mounted component: it is rendered with a new
    [filters] array (the first time at mount), or one of its requests
    settles. *)
Inductive Event : Type :=
| Filters (filters : list CubeFilter)
| Settled (outcome : CubeApi.AxiosOutcome).

Definition step (api : CubeApi.CubeApiService) (e : Event) (st : State) : State :=
  match e with
  | Filters filters => fst (fetchKPIs api filters st)
  | Settled outcome => resumed outcome st
  end.

Definition run (api : CubeApi.CubeApiService) (events : list Event) (st : State) : State :=
  fold_left (fun st e => step api e st) events st.

End Fetch.

Inductive View : Type :=
| ErrorText (error : string)
| Skeletons
| Cards (data : list MetricCardData).

Definition render (st : State) : View :=
  let body := if loading st then Skeletons else Cards (data st) in
  match error st with
  | Some e => if Js.truthy_string e then ErrorText e else body
  | None => body
  end.

End KPICards.

(** ** Signing in (server.js, components/LoginForm.tsx, contexts/AuthContext.tsx) *)

Module AuthServer.

Record WorkshopUser : Type := {
  email : string;
  name : string;
  role : string;
  password : string
}.

Definition WORKSHOP_USERS : list WorkshopUser :=
  [ {| email := "admin@tpch.com"; name := "Admin User";
       role := "global_admin"; password := "password" |};
    {| email := "director_na@tpch.com"; name := "North America Director";
       role := "regional_director"; password := "password" |};
    {| email := "director_eu@tpch.com"; name := "Europe Director";
       role := "regional_director"; password := "password" |};
    {| email := "sarah_jones@tpch.com"; name := "Sarah Jones";
       role := "sales_rep"; password := "password" |};
    {| email := "mike_chen@tpch.com"; name := "Mike Chen";
       role := "sales_rep"; password := "password" |} ].

(** [s === v] for a string [s]. *)
Definition strict_equal (s : string) (v : JsValue) : bool :=
  match v with
  | VString t => s =? t
  | _ => false
  end.

(** [WORKSHOP_USERS.find(u => u.email === username)] *)
Definition find_user (username : JsValue) : option WorkshopUser :=
  find (fun u => strict_equal (email u) username) WORKSHOP_USERS.

(** The body of a response, as JSON. *)
Inductive Body : Type :=
| ErrorBody (error : string)
| LoginBody (email name role : string) (token : string)
| OtherBody.

Record Response : Type := {
  status : Z;
  body : Body
}.

(** [req.body] when the handler runs, after [express.json()]: the parsed
    JSON object, of which the handler reads the properties [username] and
    [password] (a property that is absent reads as [undefined]), or
    [undefined] when no JSON body was parsed, as Express 5 leaves it. *)
Inductive RequestBody : Type :=
| Parsed (username password : JsValue)
| NotParsed.

Section Login.

(** [jwt.sign({ user_id }, secret, { expiresIn })] of the jsonwebtoken
    package: the token, or [None] when it throws. [secret] is
    [process.env.CUBEJS_API_SECRET]. *)
Variable jwt_sign : string -> option string -> string -> option string.
Variable CUBEJS_API_SECRET : option string.

(** The handler of [POST /api/login]. An exception of the handler is
    answered by the framework with status 500: the TypeError of
    [const { username, password } = req.body] when [req.body] is
    [undefined], and whatever [jwt.sign] throws. *)
Definition login (req_body : RequestBody) : Response :=
  match req_body with
  | NotParsed => {| status := 500; body := OtherBody |}
  | Parsed username password =>
      match find_user username with
      | Some user =>
          if negb (strict_equal (AuthServer.password user) password) then
            {| status := 401; body := ErrorBody "Invalid credentials" |}
          else
            match jwt_sign (email user) CUBEJS_API_SECRET "30d" with
            | Some token =>
                {| status := 200;
                   body := LoginBody (email user) (name user) (role user) token |}
            | None => {| status := 500; body := OtherBody |}
            end
      | None => {| status := 401; body := ErrorBody "Invalid credentials" |}
      end
  end.

End Login.

End AuthServer.

Module AuthContext.

Record User : Type := {
  email : string;
  name : string;
  role : string;
  token : string
}.

(** The item [workshop_user] of localStorage: the text [login] stored, which
    [JSON.parse] turns back into the user it was made from, or a text that
    [JSON.parse] rejects. (A text that parses to something else than a user
    is not part of the model.) *)
Inductive Item : Type :=
| Session (userData : User)
| Unparsable (text : string).

Definition truthy_item (i : Item) : bool :=
  match i with
  | Session _ => true
  | Unparsable text => Js.truthy_string text
  end.

Record State : Type := {
  user : option User;
  workshop_user : option Item;
  cubeApi : CubeApi.CubeApiService
}.

(** The effect run at mount. *)
Definition restore (st : State) : State :=
  match workshop_user st with
  | Some savedUser =>
      if truthy_item savedUser then
        match savedUser with
        | Session userData =>
            {| user := Some userData;
               workshop_user := workshop_user st;
               cubeApi :=
                 if Js.truthy_string (token userData)
                 then CubeApi.setToken (cubeApi st) (token userData)
                 else cubeApi st |}
        | Unparsable _ =>
            {| user := user st; workshop_user := None; cubeApi := cubeApi st |}
        end
      else st
  | None => st
  end.

Definition login (email name role token : string) (st : State) : State :=
  let userData := {| email := email; name := name; role := role; token := token |} in
  {| user := Some userData;
     workshop_user := Some (Session userData);
     cubeApi := CubeApi.setToken (cubeApi st) token |}.

Definition logout (st : State) : State :=
  {| user := None; workshop_user := None; cubeApi := cubeApi st |}.

(** [!!user] *)
Definition isAuthenticated (st : State) : bool :=
  match user st with
  | Some _ => true
  | None => false
  end.

(** Loading the page: the module of the client builds its instance from the
    environment, the provider starts without a user and runs its effect;
    localStorage is what earlier visits left. *)
Definition page_load (env_url env_token : option string) (storage : option Item) : State :=
  restore {| user := None;
             workshop_user := storage;
             cubeApi := CubeApi.constructor env_url env_token |}.

End AuthContext.

Module LoginForm.

Record State : Type := {
  username : string;
  password : string;
  error : string
}.

(** How the promise of [axios.post] settles: with the response of the
    server, or without one (network error). *)
Inductive PostOutcome : Type :=
| Answered (response : AuthServer.Response)
| NoResponse.

Definition set_error (message : string) (st : State) : State :=
  {| username := username st; password := password st; error := message |}.

(** [handleSubmit] once the request has settled, with [onLogin] bound to the
    [login] of the auth context as in App.tsx. axios rejects a status outside
    200..299; a fulfilled response whose body has no [user] makes
    [user.email] throw a TypeError, which has no [response]. *)
Definition handleSubmit (outcome : PostOutcome) (st : State) (auth : AuthContext.State)
  : State * AuthContext.State :=
  let st := set_error "" st in
  match outcome with
  | Answered response =>
      if ((200 <=? AuthServer.status response) && (AuthServer.status response <? 300))%Z then
        match AuthServer.body response with
        | AuthServer.LoginBody email name role token =>
            (st, AuthContext.login email name role token auth)
        | _ => (set_error "Login failed. Please try again." st, auth)
        end
      else if (AuthServer.status response =? 401)%Z then
        (set_error "Invalid username or password" st, auth)
      else (set_error "Login failed. Please try again." st, auth)
  | NoResponse => (set_error "Login failed. Please try again." st, auth)
  end.

(** Submitting the form to the auth server: axios posts the object
    [{ username, password }] as JSON, which [express.json()] parses. *)
Definition submit (jwt_sign : string -> option string -> string -> option string)
    (CUBEJS_API_SECRET : option string) (st : State) (auth : AuthContext.State)
  : State * AuthContext.State :=
  handleSubmit
    (Answered (AuthServer.login jwt_sign CUBEJS_API_SECRET
                 (AuthServer.Parsed (VString (username st)) (VString (password st)))))
    st auth.

End LoginForm.

(** ** Vocabulary of the properties *)

(** The label the by-region normalizer gives a row: the property key under
    which the row's amount is added to [regionTotals]. *)
Definition region_label (rt : Runtime) (row : Cube.CubeDataRow) : string :=
  ToString rt (Cube.row_get row "customer_behavior.region").

(** The normalizers that map rows to entries one to one, each with the field
    it reads its numbers from. *)
Definition row_by_row (rt : Runtime)
  : list ((Cube.CubeQueryResponse -> Cube.ChartData) * string) :=
  [ (Dashboard.processSalesOverTimeData rt, "customer_behavior.total_revenue");
    (Dashboard.processCustomerSegmentsData rt, "customer_behavior.total_revenue");
    (Dashboard.processOrderSizeData rt, "customer_behavior.count");
    (Dashboard.processTopBrandsData rt, "sales.total_sales_amount");
    (Dashboard.processOrderStatusData rt, "customer_behavior.count") ].

(** All six normalizers. *)
Definition normalizers (rt : Runtime) : list (Cube.CubeQueryResponse -> Cube.ChartData) :=
  Dashboard.processSalesByRegionData rt :: map fst (row_by_row rt).

(** Numeric parsing of a field, as every normalizer does it:
    [parseFloat] of the field's string form; it fails when that is NaN. *)
Definition parsed (rt : Runtime) (v : JsValue) : float :=
  Js.parseFloat (ToString rt v).

Definition fails_numeric_parsing (rt : Runtime) (v : JsValue) : bool :=
  PrimFloat.is_nan (parsed rt v).

(** A string that no numeric literal can start: empty after the leading
    white space, or beginning with a character that is neither a digit, a
    sign, a point nor the [I] of [Infinity]. *)
Definition starts_non_numeric (s : string) : bool :=
  match Js.trimStart s with
  | EmptyString => true
  | String c _ =>
      match Js.digit_of c with
      | Some _ => false
      | None => negb ((c =? "+")%char || (c =? "-")%char || (c =? ".")%char || (c =? "I")%char)
      end
  end.

(** The fields whose numeric parsing fails: null, an absent field, a string
    that starts no number, and whatever else [parseFloat] turns into NaN. *)
Inductive unparsable (rt : Runtime) : JsValue -> Prop :=
| unparsable_null : unparsable rt VNull
| unparsable_absent : unparsable rt VUndefined
| unparsable_string (s : string) :
    starts_non_numeric s = true -> unparsable rt (VString s)
| unparsable_nan (v : JsValue) :
    fails_numeric_parsing rt v = true -> unparsable rt v.

(** An engine to evaluate examples with. The examples hold no number, so
    Number::toString is never called on them, and no month field, for which
    [new Date(undefined)] formats as ["Invalid Date"]; the source text of a
    built-in function is written the way V8 prints it. *)
Definition example_runtime : Runtime :=
  {| Number_toString := fun _ => "NaN";
     toLocaleDateString_month_year := fun _ => "Invalid Date";
     Function_toString :=
       fun name =>
         "function " ++ (if name =? "constructor" then "Object" else name)
           ++ "() { [native code] }" |}.

Definition example_response (rows : list Cube.CubeDataRow) : Cube.CubeQueryResponse :=
  {| Cube.query := CubeApi.salesByRegionQuery [];
     Cube.data := Some rows |}.

(** The scenario of three rows, two of them for AMERICA: the query it names,
    and the rows under given keys for the region and the amount. *)
Definition scenario_query : Cube.CubeQuery :=
  {| Cube.measures := Some ["sales.total_sales_amount"];
     Cube.dimensions := Some ["sales.region"];
     Cube.timeDimensions := None;
     Cube.filters := None;
     Cube.order := None; Cube.limit := None; Cube.offset := None |}.

Definition scenario_rows (region_key amount_key : string) : list Cube.CubeDataRow :=
  [ [(region_key, VString "AMERICA"); (amount_key, VString "100.50")];
    [(region_key, VString "EUROPE"); (amount_key, VString "200.25")];
    [(region_key, VString "AMERICA"); (amount_key, VString "50.00")] ].

(** The five failure conditions of a query. The client throws plain [Error]
    objects, so a caller can tell the conditions apart by the message only:
    [condition_of] reads the condition off a thrown value, one condition
    for each message that [query] composes; the error for a missing
    configuration counts as [Unauthenticated]. *)
Inductive Failure : Type :=
| Unauthenticated
| Forbidden
| MalformedRequest
| RemoteFault
| TransportFailure.

Definition condition_of (e : CubeApi.JsThrown) : option Failure :=
  match e with
  | CubeApi.ErrorObject m =>
      if m =? "Cube API not configured. Please set your endpoint and token."
      then Some Unauthenticated
      else if m =? "Authentication failed. Please check your Bearer token."
      then Some Unauthenticated
      else if m =? "Access denied. Please check your permissions."
      then Some Forbidden
      else if Js.startsWith "Bad Request: " m then Some MalformedRequest
      else if Js.startsWith "Server Error: " m then Some RemoteFault
      else if Js.startsWith "API Error: " m then Some TransportFailure
      else None
  | CubeApi.OtherValue _ => None
  end.

(** A configured client, and a network on which every request settles the
    same way. *)
Definition example_api : CubeApi.CubeApiService :=
  {| CubeApi.apiUrl := "https://example.cubecloud.dev/cubejs-api/v1";
     CubeApi.token := "eyJhbGciOiJIUzI1NiJ9" |}.

Definition always (outcome : CubeApi.AxiosOutcome) : CubeApi.AxiosRequest -> CubeApi.AxiosOutcome :=
  fun _ => outcome.

(** The chart state of the dashboard: the six cells the widgets render. *)
Definition charts (st : Dashboard.State)
  : option Cube.ChartData * option Cube.ChartData * option Cube.ChartData
    * option Cube.ChartData * option Cube.ChartData * option Cube.ChartData :=
  (Dashboard.salesOverTime st, Dashboard.salesByRegion st, Dashboard.customerSegments st,
   Dashboard.orderSizeDistribution st, Dashboard.topBrands st, Dashboard.orderStatus st).

Definition chart_of (w : Dashboard.Widget) (st : Dashboard.State) : option Cube.ChartData :=
  match w with
  | Dashboard.SalesOverTime => Dashboard.salesOverTime st
  | Dashboard.SalesByRegion => Dashboard.salesByRegion st
  | Dashboard.CustomerSegments => Dashboard.customerSegments st
  | Dashboard.OrderSize => Dashboard.orderSizeDistribution st
  | Dashboard.TopBrands => Dashboard.topBrands st
  | Dashboard.OrderStatus => Dashboard.orderStatus st
  end.

(** The normalizer that [loadDashboardData] applies to the response of each fetch. *)
Definition normalizer_of (rt : Runtime) (w : Dashboard.Widget)
  : Cube.CubeQueryResponse -> Cube.ChartData :=
  match w with
  | Dashboard.SalesOverTime => Dashboard.processSalesOverTimeData rt
  | Dashboard.SalesByRegion => Dashboard.processSalesByRegionData rt
  | Dashboard.CustomerSegments => Dashboard.processCustomerSegmentsData rt
  | Dashboard.OrderSize => Dashboard.processOrderSizeData rt
  | Dashboard.TopBrands => Dashboard.processTopBrandsData rt
  | Dashboard.OrderStatus => Dashboard.processOrderStatusData rt
  end.

(** The six responses of a refresh, given the response to each fetch. *)
Definition responses_of (resp : Dashboard.Widget -> Cube.CubeQueryResponse)
  : Dashboard.Responses :=
  {| Dashboard.salesOverTimeResponse := resp Dashboard.SalesOverTime;
     Dashboard.salesByRegionResponse := resp Dashboard.SalesByRegion;
     Dashboard.customerSegmentsResponse := resp Dashboard.CustomerSegments;
     Dashboard.orderSizeResponse := resp Dashboard.OrderSize;
     Dashboard.topBrandsResponse := resp Dashboard.TopBrands;
     Dashboard.orderStatusResponse := resp Dashboard.OrderStatus |}.

(** The fetches of refresh [cycle] settle in the order [ws], each as [outcome] says. *)
Definition settlements (cycle : nat) (outcome : Dashboard.Widget -> CubeApi.AxiosOutcome)
    (ws : list Dashboard.Widget) : list Dashboard.Event :=
  map (fun w => Dashboard.FetchSettled cycle w (outcome w)) ws.

(** All fetches answered with status 200 and the given bodies. *)
Definition ok (resp : Dashboard.Widget -> Cube.CubeQueryResponse)
  : Dashboard.Widget -> CubeApi.AxiosOutcome :=
  fun w => CubeApi.Fulfilled 200 (resp w).

(** The message [catch] stores for a thrown value. *)
Definition error_message (err : CubeApi.JsThrown) : string :=
  match err with
  | CubeApi.ErrorObject message => message
  | CubeApi.OtherValue _ => "Failed to load dashboard data"
  end.

(** The filter bar as the dashboard mounts it, with [handleFiltersChange] as
    its [onFiltersChange]: a new selection runs [updateFilters], and a
    notification, when there is one, sets the dashboard's filters and runs
    the effect on them. *)
Definition select (regions segments : list string) (fb : FilterBar.State) : FilterBar.State :=
  {| FilterBar.selectedRegions := regions;
     FilterBar.selectedSegments := segments;
     FilterBar.prevFiltersRef := FilterBar.prevFiltersRef fb |}.

Definition selection_changed (rt : Runtime) (api : CubeApi.CubeApiService)
    (regions segments : list string) (app : FilterBar.State * Dashboard.State)
  : FilterBar.State * Dashboard.State * list CubeApi.AxiosRequest :=
  let '(fb, notification) := FilterBar.updateFilters (select regions segments (fst app)) in
  match notification with
  | Some newFilters =>
      let '(db, sent) := Dashboard.step rt api (Dashboard.FiltersChange newFilters) (snd app) in
      (fb, db, sent)
  | None => (fb, snd app, [])
  end.

(** The notifications the filter bar sends over a sequence of selections,
    each a pair of selected regions and selected segments. *)
Fixpoint notifications (fb : FilterBar.State) (selections : list (list string * list string))
  : list (list Cube.CubeFilter) :=
  match selections with
  | [] => []
  | (regions, segments) :: rest =>
      let '(fb1, notification) := FilterBar.updateFilters (select regions segments fb) in
      match notification with
      | Some newFilters => newFilters :: notifications fb1 rest
      | None => notifications fb1 rest
      end
  end.

(** No element of the list equals its successor. *)
Fixpoint adjacent_differ {A : Type} (l : list A) : Prop :=
  match l with
  | x :: (y :: _) as rest => x <> y /\ adjacent_differ rest
  | _ => True
  end.

(** Two selections, and the body every fetch of an example is answered with. *)
Definition filters_A : list Cube.CubeFilter := FilterBar.build_filters ["AMERICA"] [].
Definition filters_B : list Cube.CubeFilter := FilterBar.build_filters ["EUROPE"] [].

Definition example_body (w : Dashboard.Widget) : Cube.CubeQueryResponse :=
  example_response
    (scenario_rows "customer_behavior.region" "customer_behavior.total_revenue").

(** The bookkeeping of refreshes agrees with the guard: a [Promise.all] is
    awaited exactly while [loadingRef] is set, and it belongs to a refresh
    that was started. *)
Definition consistent (st : Dashboard.State) : Prop :=
  match Dashboard.pending st with
  | Some p => Dashboard.loadingRef st = true /\ Dashboard.id p < Dashboard.started st
  | None => Dashboard.loadingRef st = false
  end.

(** Refresh [cycle] is over: it was started, and it is not the one awaited. *)
Definition retired (cycle : nat) (st : Dashboard.State) : Prop :=
  cycle < Dashboard.started st
  /\ forall p, Dashboard.pending st = Some p -> Dashboard.id p <> cycle.

(** Every data series of a chart is as long as its label list. *)
Definition aligned (chart : Cube.ChartData) : Prop :=
  Forall (fun ds => List.length (Cube.series ds) = List.length (Cube.labels chart))
         (Cube.datasets chart).

(** No chart cell has been written yet. *)
Definition never_loaded (st : Dashboard.State) : Prop :=
  forall w, chart_of w st = None.

(** The response of the fetch of widget [w] among the six of a refresh. *)
Definition response_of (r : Dashboard.Responses) (w : Dashboard.Widget)
  : Cube.CubeQueryResponse :=
  match w with
  | Dashboard.SalesOverTime => Dashboard.salesOverTimeResponse r
  | Dashboard.SalesByRegion => Dashboard.salesByRegionResponse r
  | Dashboard.CustomerSegments => Dashboard.customerSegmentsResponse r
  | Dashboard.OrderSize => Dashboard.orderSizeResponse r
  | Dashboard.TopBrands => Dashboard.topBrandsResponse r
  | Dashboard.OrderStatus => Dashboard.orderStatusResponse r
  end.

(** The six chart cells hold the answers to one and the same refresh: there
    is a refresh [cycle] such that, for each of the six widgets, the events
    hold the fulfilment of that widget's fetch of refresh [cycle], and the
    widget's cell is the normalization of the response it brought. *)
Definition loaded_by_one_refresh (rt : Runtime) (events : list Dashboard.Event)
    (st : Dashboard.State) : Prop :=
  exists (cycle : nat) (resp : Dashboard.Widget -> Cube.CubeQueryResponse),
    forall w,
      chart_of w st = Some (normalizer_of rt w (resp w))
      /\ exists status,
           In (Dashboard.FetchSettled cycle w (CubeApi.Fulfilled status (resp w))) events.

(** The answers a pending [Promise.all] has collected are fulfilments of
    fetches of its own refresh that the events hold. *)
Definition collected_from (events : list Dashboard.Event) (st : Dashboard.State) : Prop :=
  forall p w r,
    Dashboard.pending st = Some p ->
    Dashboard.value_of (Dashboard.fulfilled p) w = Some r ->
    exists status,
      In (Dashboard.FetchSettled (Dashboard.id p) w (CubeApi.Fulfilled status r)) events.

(** The property keys a plain object answers without having them: the
    members of Object.prototype. *)
Definition inherited (k : string) : bool :=
  (k =? "__proto__") || JsObject.is_method k.

(** The labels of the rows that can become own properties of
    [regionTotals]: all but [__proto__]. *)
Definition region_keys (rt : Runtime) (rows : list Cube.CubeDataRow) : list string :=
  filter (fun k => negb (k =? "__proto__")) (map (region_label rt) rows).

(** The amount the by-region normalizer reads from a row. *)
Definition region_amount (rt : Runtime) (row : Cube.CubeDataRow) : float :=
  Js.or_number
    (Js.parseFloat (ToString rt (Cube.row_get row "customer_behavior.total_revenue")))
    0.

(** The total of a label once one more amount has come in: added to a total
    that is truthy, put in the place of one that is missing, 0 or NaN. *)
Definition add_amount (total : option float) (amount : float) : float :=
  match total with
  | Some t => if Js.truthy_number t then (t + amount)%float else amount
  | None => amount
  end.

(** The total of label [k] over the rows, taken in row order from [total]. *)
Fixpoint running_total (rt : Runtime) (k : string) (rows : list Cube.CubeDataRow)
    (total : option float) : option float :=
  match rows with
  | [] => total
  | row :: rest =>
      running_total rt k rest
        (if region_label rt row =? k
         then Some (add_amount total (region_amount rt row))
         else total)
  end.

(** Reading back the character at the head of what [FilterBar.escape_char]
    wrote: the character and the rest, or nothing at a closing quote or at
    text that is no escape. *)
Definition hex_value (c : ascii) : option N :=
  let n := Js.code c in
  if ((48 <=? n) && (n <=? 57))%N then Some (n - 48)%N
  else if ((97 <=? n) && (n <=? 102))%N then Some (n - 87)%N
  else None.

Definition unescape_head (s : string) : option (ascii * string) :=
  match s with
  | String c r =>
      if (Js.code c =? 34)%N then None
      else if (Js.code c =? 92)%N then
        match r with
        | String t r' =>
            let n := Js.code t in
            if (n =? 98)%N then Some (ascii_of_N 8, r')
            else if (n =? 116)%N then Some (ascii_of_N 9, r')
            else if (n =? 110)%N then Some (ascii_of_N 10, r')
            else if (n =? 102)%N then Some (ascii_of_N 12, r')
            else if (n =? 114)%N then Some (ascii_of_N 13, r')
            else if (n =? 34)%N then Some (ascii_of_N 34, r')
            else if (n =? 92)%N then Some (ascii_of_N 92, r')
            else if (n =? 117)%N then
              match r' with
              | String _ (String _ (String h1 (String h2 r''))) =>
                  match hex_value h1, hex_value h2 with
                  | Some a, Some b => Some (ascii_of_N (16 * a + b), r'')
                  | _, _ => None
                  end
              | _ => None
              end
            else None
        | EmptyString => None
        end
      else Some (c, r)
  | EmptyString => None
  end.

(** Changes of the two selects of the filter bar, and the notifications a
    sequence of them sends. *)
Inductive Change : Type :=
| RegionChange (value : FilterBar.SelectValue)
| SegmentChange (value : FilterBar.SelectValue).

Definition change (c : Change) (fb : FilterBar.State)
  : FilterBar.State * option (list Cube.CubeFilter) :=
  match c with
  | RegionChange value => FilterBar.handleRegionChange value fb
  | SegmentChange value => FilterBar.handleSegmentChange value fb
  end.

Fixpoint changes (fb : FilterBar.State) (cs : list Change) : list (list Cube.CubeFilter) :=
  match cs with
  | [] => []
  | c :: rest =>
      let '(fb1, notification) := change c fb in
      match notification with
      | Some newFilters => newFilters :: changes fb1 rest
      | None => changes fb1 rest
      end
  end.

(** A filter as the bar is meant to send it: on the region or the segment,
    with the operator [equals] and at least one value, none of them the
    empty string that stands for "All". *)
Definition selective (f : Cube.CubeFilter) : Prop :=
  (Cube.member f = "customer_behavior.region"
   \/ Cube.member f = "customer_behavior.customers_segment")
  /\ Cube.operator f = "equals"
  /\ Cube.values f <> []
  /\ ~ In "" (Cube.values f).

(** Byte strings compared byte by byte, an order to sort examples with. *)
Fixpoint bytes_before (s t : string) : bool :=
  match s, t with
  | _, EmptyString => false
  | EmptyString, String _ _ => true
  | String a s', String b t' =>
      match (Js.code a ?= Js.code b)%N with
      | Lt => true
      | Eq => bytes_before s' t'
      | Gt => false
      end
  end.

(** As the spec words it: the canonical filter list of a selection, "the
    deduplicated, order-normalized representation" of it. Here the values
    of each select are freed of repetitions and sorted byte by byte. *)
Fixpoint insert_in_order_of_bytes (v : string) (l : list string) : list string :=
  match l with
  | x :: rest =>
      if bytes_before x v then x :: insert_in_order_of_bytes v rest else v :: l
  | [] => [v]
  end.

Definition order_normalized (l : list string) : list string :=
  fold_right insert_in_order_of_bytes [] l.

Definition canonical_filter_list (regions segments : list string) : list Cube.CubeFilter :=
  FilterBar.build_filters
    (order_normalized (nodup string_dec regions))
    (order_normalized (nodup string_dec segments)).

(** No value of the list sorts before the one in front of it. *)
Definition in_order (rt : Runtime) (before : string -> string -> bool)
    (l : list JsValue) : Prop :=
  Sorted (fun a b => FilterOptions.sorts_before rt before b a = false) l.

(** What the options made of column [key] of the rows should be: no value
    twice, every option a truthy field of some row, and every truthy field
    of a row among the options (as the same member of a [Set]). *)
Definition options_of (key : string) (rows : list Cube.CubeDataRow) (l : list JsValue)
  : Prop :=
  NoDup l
  /\ (forall v, In v l ->
                JsLib.truthy v = true
                /\ exists row, In row rows /\ Cube.row_get row key = v)
  /\ (forall row, In row rows ->
                  JsLib.truthy (Cube.row_get row key) = true ->
                  exists u, In u l
                            /\ JsLib.same_value_zero (Cube.row_get row key) u = true).

(** The measures the KPI cards read, in the order of the cards. *)
Definition kpi_measures : list string :=
  ["customer_behavior.count";
   "customer_behavior.total_revenue";
   "customer_behavior.average_order_value"].

(** The events at which a fetch of the KPI cards fails: a fetch that starts
    on a client that is not configured, a request that is rejected, and an
    answer whose body has no [data]. *)
Inductive kpi_fetch_fails (api : CubeApi.CubeApiService) : KPICards.Event -> Prop :=
| kpi_not_configured (filters : list Cube.CubeFilter) :
    CubeApi.isConfigured api = false ->
    kpi_fetch_fails api (KPICards.Filters filters)
| kpi_rejected (outcome : CubeApi.AxiosOutcome) (err : CubeApi.JsThrown) :
    CubeApi.settle outcome = CubeApi.Throw err ->
    kpi_fetch_fails api (KPICards.Settled outcome)
| kpi_no_data (status : Z) (response : Cube.CubeQueryResponse) :
    Cube.data response = None ->
    kpi_fetch_fails api (KPICards.Settled (CubeApi.Fulfilled status response)).

(** The credentials the auth server knows. *)
Definition registered (username password : JsValue) (u : AuthServer.WorkshopUser) : Prop :=
  In u AuthServer.WORKSHOP_USERS
  /\ username = VString (AuthServer.email u)
  /\ password = VString "password".

(** The signed-in state of the application for a user of the server and a
    token. *)
Definition session_of (u : AuthServer.WorkshopUser) (token : string) : AuthContext.User :=
  {| AuthContext.email := AuthServer.email u;
     AuthContext.name := AuthServer.name u;
     AuthContext.role := AuthServer.role u;
     AuthContext.token := token |}.

(** A signing function to evaluate examples with: it throws without a
    secret, as jsonwebtoken does. *)
Definition example_sign (user_id : string) (secret : option string) (expiresIn : string)
  : option string :=
  match secret with
  | Some key =>
      if Js.truthy_string key then Some ("jwt:" ++ user_id ++ ":" ++ expiresIn) else None
  | None => None
  end.

Definition example_auth : AuthContext.State :=
  {| AuthContext.user := None;
     AuthContext.workshop_user := None;
     AuthContext.cubeApi := CubeApi.constructor None None |}.

(** The calls made to the auth context over time, and the token of the last
    sign-in among them. *)
Inductive AuthEvent : Type :=
| SignIn (email name role token : string)
| SignOut.

Definition auth_step (st : AuthContext.State) (e : AuthEvent) : AuthContext.State :=
  match e with
  | SignIn email name role token => AuthContext.login email name role token st
  | SignOut => AuthContext.logout st
  end.

Definition auth_run (events : list AuthEvent) (st : AuthContext.State) : AuthContext.State :=
  fold_left auth_step events st.

Definition last_token (events : list AuthEvent) (token : string) : string :=
  fold_left (fun t e => match e with SignIn _ _ _ t' => t' | SignOut => t end) events token.

(** Three rows with three distinct regions, one of them named [__proto__]. *)
Definition proto_rows : list Cube.CubeDataRow :=
  [ [("customer_behavior.region", VString "AMERICA");
     ("customer_behavior.total_revenue", VString "100.50")];
    [("customer_behavior.region", VString "__proto__");
     ("customer_behavior.total_revenue", VString "200.25")];
    [("customer_behavior.region", VString "EUROPE");
     ("customer_behavior.total_revenue", VString "50.00")] ].

(** The body [{ error: message }] of a failed request as [JSON.stringify]
    writes it, and the Axios error for a response with that body and a
    status outside 200..299; [digits] is the status in decimal. *)
Definition error_body (message : string) : string :=
  "{" ++ FilterBar.quote "error" ++ ":" ++ FilterBar.quote message ++ "}".

Definition rejected (code : Z) (digits statusText message : string) : CubeApi.AxiosError :=
  {| CubeApi.message := "Request failed with status code " ++ digits;
     CubeApi.response :=
       Some {| CubeApi.status := code;
               CubeApi.statusText := statusText;
               CubeApi.data_json := Some (error_body message) |} |}.

(** The condition under which an Axios error is to reach the caller: by the
    status of its response, and [TransportFailure] for every other status
    and for an error without a response. *)
Definition expected_condition (error : CubeApi.AxiosError) : Failure :=
  match CubeApi.response error with
  | Some r =>
      if (CubeApi.status r =? 401)%Z then Unauthenticated
      else if (CubeApi.status r =? 403)%Z then Forbidden
      else if (CubeApi.status r =? 400)%Z then MalformedRequest
      else if (CubeApi.status r =? 500)%Z then RemoteFault
      else TransportFailure
  | None => TransportFailure
  end.

(** * Properties *)

(** ** Objects used as maps *)

Section JsObjectFacts.

Import JsObject.

Lemma insert_index_length (e : Z * (string * JsValue)) (l : list (Z * (string * JsValue))) :
  List.length (insert_index e l) = S (List.length l).
Proof.
  induction l as [|e' l IH]; simpl; [reflexivity|].
  destruct (fst e <=? fst e')%Z; simpl; [reflexivity|].
  now rewrite IH.
Qed.

Lemma own_entries_length (o : t) : List.length (own_entries o) = List.length o.
Proof.
  unfold own_entries. rewrite length_app, length_map.
  induction o as [|e o IH]; simpl; [reflexivity|].
  unfold is_name at 1.
  destruct (array_index (fst e)); simpl.
  - rewrite insert_index_length. simpl. now rewrite IH.
  - rewrite Nat.add_succ_r. now rewrite IH.
Qed.

Lemma keys_length (o : t) : List.length (keys o) = List.length o.
Proof. unfold keys. now rewrite length_map, own_entries_length. Qed.

Lemma values_length (o : t) : List.length (values o) = List.length o.
Proof. unfold values. now rewrite length_map, own_entries_length. Qed.

Lemma put_In (o : t) (k : string) (v : JsValue) (k' : string) :
  In k' (map fst (put o k v)) <-> k' = k \/ In k' (map fst o).
Proof.
  induction o as [|[k0 v0] o IH]; simpl.
  - intuition.
  - destruct (String.eqb_spec k0 k) as [->|Hne]; simpl.
    + intuition.
    + rewrite IH. intuition.
Qed.

Lemma put_NoDup (o : t) (k : string) (v : JsValue) :
  NoDup (map fst o) -> NoDup (map fst (put o k v)).
Proof.
  induction o as [|[k0 v0] o IH]; simpl; intros Hnd.
  - constructor; [intros []|constructor].
  - inversion Hnd as [|? ? Hnotin Hnd']; subst.
    destruct (String.eqb_spec k0 k) as [->|Hne]; simpl.
    + now constructor.
    + constructor; [|now apply IH].
      rewrite put_In. intros [->|Hin]; [now apply Hne|now apply Hnotin].
Qed.

(** An assignment creates or keeps the property it names, unless it names
    [__proto__], and touches no other key. *)
Lemma set_In (o : t) (k : string) (v : JsValue) (k' : string) :
  In k' (map fst (set o k v))
  <-> (k' = k /\ k <> "__proto__") \/ In k' (map fst o).
Proof.
  unfold set. destruct (String.eqb_spec k "__proto__") as [->|Hne].
  - intuition.
  - rewrite put_In. intuition.
Qed.

Lemma set_NoDup (o : t) (k : string) (v : JsValue) :
  NoDup (map fst o) -> NoDup (map fst (set o k v)).
Proof.
  unfold set. destruct (k =? "__proto__"); [trivial|apply put_NoDup].
Qed.

End JsObjectFacts.

(** ** The response normalizers *)

Section NormalizerFacts.

Import Cube Dashboard.

Variable rt : Runtime.

Lemma no_rows_true (response : CubeQueryResponse) :
  no_rows response = true -> rows_of response = [].
Proof.
  unfold no_rows, rows_of. destruct (data response) as [[|row rows]|]; simpl;
    intros H; [reflexivity | discriminate | reflexivity].
Qed.

Lemma rows_of_nil (response : CubeQueryResponse) :
  rows_of response = [] -> no_rows response = true.
Proof.
  unfold no_rows, rows_of. destruct (data response) as [rows|]; [|reflexivity].
  now intros ->.
Qed.

(** Each turn of the [forEach] writes the property named by the row's label,
    and no other. *)
Lemma add_region_writes (o : JsObject.t) (row : CubeDataRow) :
  exists v, add_region rt o row = JsObject.set o (region_label rt row) v.
Proof.
  unfold add_region, region_label. cbv zeta.
  destruct (JsObject.truthy (JsObject.get o _)); eexists; reflexivity.
Qed.

Lemma regionTotals_In (rows : list CubeDataRow) (o : JsObject.t) (k : string) :
  In k (map fst (fold_left (add_region rt) rows o))
  <-> In k (map fst o) \/ In k (region_keys rt rows).
Proof.
  unfold region_keys.
  revert o. induction rows as [|row rows IH]; intros o; simpl.
  - intuition.
  - rewrite IH. destruct (add_region_writes o row) as [v ->].
    rewrite set_In.
    destruct (String.eqb_spec (region_label rt row) "__proto__") as [Heq|Hne]; simpl.
    + intuition.
    + intuition.
Qed.

Lemma regionTotals_NoDup (rows : list CubeDataRow) (o : JsObject.t) :
  NoDup (map fst o) -> NoDup (map fst (fold_left (add_region rt) rows o)).
Proof.
  revert o. induction rows as [|row rows IH]; intros o Hnd; simpl; [assumption|].
  apply IH. destruct (add_region_writes o row) as [v ->].
  now apply set_NoDup.
Qed.

(** [regionTotals] ends with one property per distinct label, [__proto__]
    left out. *)
Lemma regionTotals_size (rows : list CubeDataRow) :
  List.length (fold_left (add_region rt) rows [])
  = List.length (nodup string_dec (region_keys rt rows)).
Proof.
  rewrite <- (length_map fst).
  apply Permutation_length, NoDup_Permutation.
  - apply regionTotals_NoDup. constructor.
  - apply NoDup_nodup.
  - intros k. rewrite regionTotals_In, nodup_In. simpl. intuition.
Qed.

Lemma by_region_aligned (response : CubeQueryResponse) :
  aligned (processSalesByRegionData rt response).
Proof.
  unfold aligned, processSalesByRegionData.
  destruct (no_rows response); simpl; repeat constructor; simpl.
  now rewrite length_map, keys_length, values_length.
Qed.

(** A normalizer that maps rows one to one yields one series, and as many
    labels and entries as there are rows. *)
Lemma row_by_row_lengths (response : CubeQueryResponse) :
  Forall (fun nk =>
            List.length (labels (fst nk response)) = List.length (rows_of response)
            /\ map (fun ds => List.length (series ds)) (datasets (fst nk response))
               = [List.length (rows_of response)])
         (row_by_row rt).
Proof.
  unfold row_by_row.
  repeat constructor; simpl;
    unfold processSalesOverTimeData, processCustomerSegmentsData, processOrderSizeData,
      processTopBrandsData, processOrderStatusData;
    destruct (no_rows response) eqn:E; simpl;
    try (rewrite (no_rows_true _ E)); try reflexivity;
    now rewrite !length_map.
Qed.

(** Every chart a normalizer produces has data series as long as its label
    list; a normalizer that maps rows one to one yields, for N rows, N
    labels and one series of N entries; the by-region normalizer, which
    adds up the rows of a label, yields as many labels as the rows have
    distinct labels, a label [__proto__] not counted. *)
Lemma series_match_labels (response : CubeQueryResponse) :
  Forall (fun n => aligned (n response)) (normalizers rt)
  /\ Forall (fun nk =>
               List.length (labels (fst nk response)) = List.length (rows_of response)
               /\ map (fun ds => List.length (series ds)) (datasets (fst nk response))
                  = [List.length (rows_of response)])
            (row_by_row rt)
  /\ List.length (labels (processSalesByRegionData rt response))
     = List.length (nodup string_dec (region_keys rt (rows_of response))).
Proof.
  split; [|split].
  - unfold normalizers. constructor; [apply by_region_aligned|].
    apply Forall_map.
    eapply Forall_impl; [|apply (row_by_row_lengths response)].
    intros [n key]; simpl. intros [Hl Hs]. unfold aligned.
    destruct (datasets (n response)) as [|ds [|ds' rest]]; try discriminate.
    injection Hs as Hs. constructor; [congruence|constructor].
  - apply row_by_row_lengths.
  - unfold processSalesByRegionData.
    destruct (no_rows response) eqn:E; simpl.
    + now rewrite (no_rows_true _ E).
    + now rewrite length_map, keys_length, regionTotals_size.
Qed.

(** C6. For a response without rows every normalizer returns an empty label
    list and exactly one dataset, whose data series is the empty list. *)
Theorem empty_response_gives_empty_series (response : CubeQueryResponse)
    (Hempty : rows_of response = []) :
  Forall (fun n => labels (n response) = []
                   /\ map series (datasets (n response)) = [[]])
         (normalizers rt).
Proof.
  apply rows_of_nil in Hempty.
  unfold normalizers, row_by_row.
  repeat constructor; simpl;
    unfold processSalesByRegionData, processSalesOverTimeData, processCustomerSegmentsData,
      processOrderSizeData, processTopBrandsData, processOrderStatusData;
    rewrite Hempty; reflexivity.
Qed.

End NormalizerFacts.

(** ** Numeric parsing *)

Section ParsingFacts.

Import Cube Dashboard.

Variable rt : Runtime.

Lemma or_number_nan (x : float) :
  PrimFloat.is_nan x = true -> Js.or_number x 0 = 0%float.
Proof. unfold Js.or_number, Js.truthy_number. now intros ->. Qed.

Lemma parseFloat_non_numeric (s : string) :
  starts_non_numeric s = true -> Js.parseFloat s = PrimFloat.nan.
Proof.
  unfold starts_non_numeric, Js.parseFloat.
  destruct (Js.trimStart s) as [|c r]; [reflexivity|].
  destruct (Js.digit_of c) eqn:Hd; [discriminate|].
  intros H. apply negb_true_iff in H.
  apply orb_false_iff in H as [H HI].
  apply orb_false_iff in H as [H Hdot].
  apply orb_false_iff in H as [Hplus Hminus].
  apply Ascii.eqb_neq in HI, Hdot, Hplus, Hminus.
  assert (Hsign : Js.read_sign (String c r) = (false, String c r)).
  { unfold Js.read_sign.
    destruct c as [[] [] [] [] [] [] [] []]; try reflexivity;
      exfalso; (now apply Hplus) || (now apply Hminus). }
  rewrite Hsign.
  assert (Hinf : Js.startsWith "Infinity" (String c r) = false).
  { cbn [Js.startsWith].
    replace ("I" =? c)%char with false; [reflexivity|].
    symmetry. apply Ascii.eqb_neq. congruence. }
  rewrite Hinf. simpl. rewrite Hd.
  destruct c as [[] [] [] [] [] [] [] []]; try reflexivity. now elim Hdot.
Qed.

Lemma unparsable_fails (v : JsValue) :
  unparsable rt v -> fails_numeric_parsing rt v = true.
Proof.
  intros [| |s Hs|v' Hv]; try reflexivity; [|assumption].
  unfold fails_numeric_parsing, parsed. simpl.
  now rewrite (parseFloat_non_numeric s Hs).
Qed.

(** C7. When the numeric field of a row is null, absent, a string that
    starts no number, or anything else that [parseFloat] turns into NaN, the
    entry of that row in the data series is 0. *)
Theorem unparsable_field_gives_zero
    (n : CubeQueryResponse -> ChartData) (key : string)
    (response : CubeQueryResponse) (i : nat) (row : CubeDataRow)
    (Hn : In (n, key) (row_by_row rt))
    (Hrow : nth_error (rows_of response) i = Some row)
    (Hfail : unparsable rt (row_get row key)) :
  map (fun ds => nth_error (series ds) i) (datasets (n response))
  = [Some (VNumber 0%float)].
Proof.
  apply unparsable_fails in Hfail. unfold fails_numeric_parsing, parsed in Hfail.
  assert (Hrows : no_rows response = false).
  { destruct (no_rows response) eqn:E; [|reflexivity].
    rewrite (no_rows_true _ E) in Hrow. now destruct i. }
  unfold row_by_row in Hn. simpl in Hn.
  destruct Hn as [Hn|[Hn|[Hn|[Hn|[Hn|[]]]]]]; injection Hn as <- <-;
    unfold processSalesOverTimeData, processCustomerSegmentsData, processOrderSizeData,
      processTopBrandsData, processOrderStatusData;
    rewrite Hrows; simpl;
    rewrite nth_error_map, Hrow; simpl;
    now rewrite (or_number_nan _ Hfail).
Qed.

End ParsingFacts.

(** The witness of C7: a revenue of ["n/a"], a null and a missing field. *)
Lemma unparsable_field_gives_zero_witness :
  let rows : list Cube.CubeDataRow :=
    [ [("sales.parts_brand", VString "Brand#11"); ("sales.total_sales_amount", VString "n/a")];
      [("sales.parts_brand", VString "Brand#12"); ("sales.total_sales_amount", VNull)];
      [("sales.parts_brand", VString "Brand#13")] ] in
  map (fun ds => nth_error (Cube.series ds) 0)
      (Cube.datasets (Dashboard.processTopBrandsData example_runtime (example_response rows)))
  = [Some (VNumber 0%float)]
  /\ map (fun ds => nth_error (Cube.series ds) 1)
      (Cube.datasets (Dashboard.processTopBrandsData example_runtime (example_response rows)))
  = [Some (VNumber 0%float)].
Proof.
  split.
  - apply (unparsable_field_gives_zero example_runtime _ "sales.total_sales_amount" _ 0
             [("sales.parts_brand", VString "Brand#11"); ("sales.total_sales_amount", VString "n/a")]).
    + simpl. tauto.
    + reflexivity.
    + apply unparsable_string. reflexivity.
  - apply (unparsable_field_gives_zero example_runtime _ "sales.total_sales_amount" _ 1
             [("sales.parts_brand", VString "Brand#12"); ("sales.total_sales_amount", VNull)]).
    + simpl. tauto.
    + reflexivity.
    + apply unparsable_null.
Defined.

(** The witness of C6: a response whose [data] is the empty array. *)
Lemma empty_response_gives_empty_series_witness :
  Forall (fun n => Cube.labels (n (example_response [])) = []
                   /\ map Cube.series (Cube.datasets (n (example_response []))) = [[]])
         (normalizers example_runtime).
Proof.
  apply (empty_response_gives_empty_series example_runtime (example_response [])).
  reflexivity.
Defined.

(** C3, at rows with three distinct regions of which one is named
    [__proto__]: the by-region normalizer returns two labels and a series
    of two entries. The row of [__proto__] is lost: [regionTotals] is a
    plain object, for which that key names the accessor of Object.prototype
    and the assignment of a number writes no property. *)
Theorem proto_region_gets_no_label :
  let chart :=
    Dashboard.processSalesByRegionData example_runtime (example_response proto_rows) in
  List.length (nodup string_dec (map (region_label example_runtime) proto_rows)) = 3
  /\ Cube.labels chart = [VString "AMERICA"; VString "EUROPE"]
  /\ map Cube.series (Cube.datasets chart) = [[VNumber 100.5%float; VNumber 50%float]].
Proof. vm_compute. repeat split. Qed.

(** ** The by-region scenario *)

(** With the keys the scenario writes, [region] and [total], and with the
    keys of a response to the query it names, the normalizer finds neither
    field: it yields the one label ["undefined"] and the one entry 0. *)
Lemma scenario_keys_not_read (rt : Runtime) (keys : string * string) :
  In keys [("region", "total"); ("sales.region", "sales.total_sales_amount")] ->
  let chart :=
    Dashboard.processSalesByRegionData rt
      {| Cube.query := scenario_query;
         Cube.data := Some (scenario_rows (fst keys) (snd keys)) |} in
  Cube.labels chart = [VString "undefined"]
  /\ map Cube.series (Cube.datasets chart) = [[VNumber 0%float]].
Proof.
  intros [<-|[<-|[]]]; vm_compute; split; reflexivity.
Qed.

(** C8, as stated: the rows with the keys [region] and [total] do not
    normalize to the labels AMERICA, EUROPE and the series 150.5, 200.25. *)
Lemma scenario_as_written_fails :
  ~ (forall rt : Runtime,
       let chart :=
         Dashboard.processSalesByRegionData rt
           {| Cube.query := scenario_query;
              Cube.data := Some (scenario_rows "region" "total") |} in
       Cube.labels chart = [VString "AMERICA"; VString "EUROPE"]
       /\ map Cube.series (Cube.datasets chart) = [[VNumber 150.5%float; VNumber 200.25%float]]).
Proof.
  intros H. destruct (H example_runtime) as [Hlabels _].
  vm_compute in Hlabels. discriminate Hlabels.
Qed.

(** C8, amended: with the two fields under the keys the by-region normalizer
    reads, [customer_behavior.region] and [customer_behavior.total_revenue],
    the three rows normalize to the labels AMERICA, EUROPE and the single
    series 150.5, 200.25, whatever the query of the response. *)
Theorem scenario_normalizes (rt : Runtime) (q : Cube.CubeQuery) :
  let chart :=
    Dashboard.processSalesByRegionData rt
      {| Cube.query := q;
         Cube.data :=
           Some (scenario_rows "customer_behavior.region" "customer_behavior.total_revenue") |} in
  Cube.labels chart = [VString "AMERICA"; VString "EUROPE"]
  /\ map Cube.series (Cube.datasets chart) = [[VNumber 150.5%float; VNumber 200.25%float]].
Proof.
  vm_compute. split; reflexivity.
Qed.

(** ** The Cube API client *)

Section CubeApiFacts.

Import Cube CubeApi.

Lemma length_positive (s : string) : (0 <? String.length s)%nat = true <-> s <> "".
Proof.
  destruct s; simpl; split; intros H;
    reflexivity || discriminate || (now elim H).
Qed.

Lemma isConfigured_true (this : CubeApiService) :
  isConfigured this = true
  <-> apiUrl this <> "" /\ token this <> ""
      /\ apiUrl this <> "YOUR_CUBE_ENDPOINT_HERE"
      /\ token this <> "YOUR_BEARER_TOKEN_HERE".
Proof.
  unfold isConfigured.
  rewrite !andb_true_iff, !negb_true_iff, !String.eqb_neq, !length_positive.
  tauto.
Qed.

Lemma query_not_configured (this : CubeApiService) (net : AxiosRequest -> AxiosOutcome)
    (q : CubeQuery) :
  isConfigured this = false <-> query this net q = (Throw not_configured, []).
Proof.
  unfold query. destruct (isConfigured this); simpl; split; intros H;
    try reflexivity; discriminate H.
Qed.

(** C10. The client is configured exactly when the endpoint and the token
    are both non-empty and neither is its placeholder; [query] throws its
    not-configured error, sending nothing, exactly when the client is not
    configured; so a token left at the placeholder is refused like an empty
    one. *)
Theorem configured_iff_set_and_not_placeholder
    (this : CubeApiService) (net : AxiosRequest -> AxiosOutcome) (q : CubeQuery) :
  (isConfigured this = true
   <-> apiUrl this <> "" /\ token this <> ""
       /\ apiUrl this <> "YOUR_CUBE_ENDPOINT_HERE"
       /\ token this <> "YOUR_BEARER_TOKEN_HERE")
  /\ (isConfigured this = false <-> query this net q = (Throw not_configured, []))
  /\ query (setToken this "YOUR_BEARER_TOKEN_HERE") net q = (Throw not_configured, [])
  /\ query (setToken this "") net q = (Throw not_configured, []).
Proof.
  split; [apply isConfigured_true|].
  split; [apply query_not_configured|].
  split; apply query_not_configured; unfold isConfigured; simpl;
    now rewrite ?andb_false_r.
Qed.

(** C5. With no credential, the token being empty or still the placeholder,
    [query] throws the not-configured error, which counts as
    [Unauthenticated], and sends no request, whatever the query and the
    network. *)
Theorem query_without_credential_fails_fast
    (this : CubeApiService) (net : AxiosRequest -> AxiosOutcome) (q : CubeQuery)
    (Hcredential : token this = "" \/ token this = "YOUR_BEARER_TOKEN_HERE") :
  query this net q = (Throw not_configured, [])
  /\ condition_of not_configured = Some Unauthenticated.
Proof.
  split; [|reflexivity].
  apply query_not_configured.
  destruct (isConfigured this) eqn:E; [|reflexivity].
  apply isConfigured_true in E. destruct Hcredential; tauto.
Qed.

(** The conditions of the five messages that the catch clause composes. *)
Lemma axios_error_condition (error : AxiosError) :
  condition_of (axios_error_thrown error) = Some (expected_condition error).
Proof.
  unfold axios_error_thrown, expected_condition, status_is.
  destruct (response error) as [r|]; [|reflexivity].
  destruct (status r =? 401)%Z; [reflexivity|].
  destruct (status r =? 403)%Z; [reflexivity|].
  destruct (status r =? 400)%Z; [reflexivity|].
  destruct (status r =? 500)%Z; reflexivity.
Qed.

(** C4, amended. No failure of a query is swallowed: a client that is not
    configured throws the not-configured error, sending nothing, and a
    configured client sends one request and throws when that request is
    rejected. An Axios error is thrown as an [Error] whose message marks
    the condition that belongs to it: for a response with status 401
    [Unauthenticated], 403 [Forbidden], 400 [MalformedRequest], 500
    [RemoteFault], and for any other status as well as for an error
    without a response, such as a time-out, [TransportFailure]. An error
    that is not an Axios error is thrown again as it is, whatever its
    message. *)
Theorem query_failures_surface
    (this : CubeApiService) (net : AxiosRequest -> AxiosOutcome) (q : CubeQuery) :
  (isConfigured this = false
   /\ query this net q = (Throw not_configured, [])
   /\ condition_of not_configured = Some Unauthenticated)
  \/ (isConfigured this = true
      /\ snd (query this net q) = [request_of this q]
      /\ match net (request_of this q) with
         | Fulfilled _ body => fst (query this net q) = Return body
         | RejectedAxios error =>
             exists m : string,
               fst (query this net q) = Throw (ErrorObject m)
               /\ condition_of (ErrorObject m) = Some (expected_condition error)
         | RejectedOther e => fst (query this net q) = Throw e
         end).
Proof.
  destruct (isConfigured this) eqn:Hconfigured; [right|left].
  2: { split; [reflexivity|]. split; [now apply query_not_configured|reflexivity]. }
  split; [reflexivity|].
  unfold query. rewrite Hconfigured. simpl. split; [reflexivity|].
  destruct (net (request_of this q)) as [st body|error|e]; simpl; try reflexivity.
  pose proof (axios_error_condition error) as Hc.
  destruct (axios_error_thrown error) as [m|v] eqn:Hm.
  - exists m. split; [reflexivity|exact Hc].
  - discriminate Hc.
Qed.

End CubeApiFacts.

(** The witness of C5: the client as constructed when the environment sets
    an endpoint and no token. *)
Lemma query_without_credential_fails_fast_witness :
  let this := CubeApi.constructor (Some "https://example.cubecloud.dev/cubejs-api/v1") None in
  CubeApi.token this = "YOUR_BEARER_TOKEN_HERE"
  /\ CubeApi.query this (always (CubeApi.Fulfilled 200 (example_response [])))
       (CubeApi.salesByRegionQuery [])
     = (CubeApi.Throw CubeApi.not_configured, []).
Proof.
  split; [reflexivity|].
  apply (query_without_credential_fails_fast
           (CubeApi.constructor (Some "https://example.cubecloud.dev/cubejs-api/v1") None)).
  right. reflexivity.
Defined.

(** The witness of C4: a request that times out. *)
Lemma query_failures_surface_witness :
  let timeout :=
    CubeApi.RejectedAxios
      {| CubeApi.message := "timeout of 10000ms exceeded"; CubeApi.response := None |} in
  CubeApi.isConfigured example_api = true
  /\ exists m : string,
       fst (CubeApi.query example_api (always timeout) (CubeApi.salesByRegionQuery []))
       = CubeApi.Throw (CubeApi.ErrorObject m)
       /\ condition_of (CubeApi.ErrorObject m) = Some TransportFailure.
Proof.
  split; [reflexivity|].
  destruct (query_failures_surface example_api
              (always (CubeApi.RejectedAxios
                         {| CubeApi.message := "timeout of 10000ms exceeded";
                            CubeApi.response := None |}))
              (CubeApi.salesByRegionQuery [])) as [[Hoff _]|(_ & _ & H)];
    [discriminate Hoff|].
  simpl in H. destruct H as (m & Hq & Hc).
  exists m. split; [exact Hq|exact Hc].
Defined.

(** Statuses 401 and 403 and a time-out reach the caller as three different
    errors. *)
Lemma three_failures_three_errors :
  map (fun error => condition_of (CubeApi.axios_error_thrown error))
      [ rejected 401 "401" "Unauthorized" "Invalid token";
        rejected 403 "403" "Forbidden" "Forbidden";
        {| CubeApi.message := "timeout of 10000ms exceeded"; CubeApi.response := None |} ]
  = [Some Unauthenticated; Some Forbidden; Some TransportFailure].
Proof. reflexivity. Qed.

(** A status other than 400, 401, 403 and 500 is reported under the same
    condition as a time-out: here 503, a failure of the server. *)
Lemma other_statuses_surface_like_timeouts :
  condition_of
    (CubeApi.axios_error_thrown
       (rejected 503 "503" "Service Unavailable" "Service Unavailable"))
  = Some TransportFailure.
Proof. reflexivity. Qed.

(** C4, as stated: not every failure of a query reaches the caller as one of
    the five conditions. When [axios.get] rejects with an error that is not
    an Axios error (here the exception of [XMLHttpRequest.open] for an
    endpoint that is no URL), [query] throws it again unchanged. *)
Lemma rethrown_error_has_no_condition :
  ~ (forall (this : CubeApi.CubeApiService)
            (net : CubeApi.AxiosRequest -> CubeApi.AxiosOutcome)
            (q : Cube.CubeQuery) (e : CubeApi.JsThrown),
       fst (CubeApi.query this net q) = CubeApi.Throw e ->
       exists c : Failure, condition_of e = Some c).
Proof.
  intros H.
  destruct (H {| CubeApi.apiUrl := "http://["; CubeApi.token := "eyJhbGciOiJIUzI1NiJ9" |}
              (always (CubeApi.RejectedOther
                         (CubeApi.ErrorObject
                            "Failed to execute 'open' on 'XMLHttpRequest': Invalid URL")))
              (CubeApi.salesByRegionQuery []) _ eq_refl) as [c Hc].
  discriminate Hc.
Qed.

(** An error that is not an Axios error keeps its own message, which may
    happen to read as one of the marks. *)
Lemma rethrown_error_may_carry_a_mark :
  let e := CubeApi.ErrorObject "API Error: boom" in
  fst (CubeApi.query example_api (always (CubeApi.RejectedOther e))
         (CubeApi.salesByRegionQuery []))
  = CubeApi.Throw e
  /\ condition_of e = Some TransportFailure.
Proof. split; reflexivity. Qed.

(** ** The filter bar *)

Section FilterBarFacts.

Import Cube FilterBar.

(** After [updateFilters] the ref holds the serialized filter list of the
    current selection, whether or not a notification went out. *)
Lemma updateFilters_ref (st : State) :
  prevFiltersRef (fst (updateFilters st))
  = JSON_stringify (build_filters (selectedRegions st) (selectedSegments st)).
Proof.
  unfold updateFilters.
  destruct (String.eqb_spec
              (JSON_stringify (build_filters (selectedRegions st) (selectedSegments st)))
              (prevFiltersRef st)) as [Heq|Hne]; simpl; [now rewrite Heq|reflexivity].
Qed.

Lemma updateFilters_selection (st : State) :
  selectedRegions (fst (updateFilters st)) = selectedRegions st
  /\ selectedSegments (fst (updateFilters st)) = selectedSegments st.
Proof.
  unfold updateFilters.
  destruct (negb _); simpl; split; reflexivity.
Qed.

(** A notification carries the filter list just built, and that list is not
    the one whose serialization the ref holds. *)
Lemma updateFilters_notifies (st : State) (last f : list CubeFilter) :
  prevFiltersRef st = JSON_stringify last ->
  snd (updateFilters st) = Some f ->
  f = build_filters (selectedRegions st) (selectedSegments st) /\ f <> last.
Proof.
  unfold updateFilters. intros Hlast.
  destruct (String.eqb_spec
              (JSON_stringify (build_filters (selectedRegions st) (selectedSegments st)))
              (prevFiltersRef st)) as [Heq|Hne]; simpl; intros Hf; [discriminate|].
  injection Hf as <-. split; [reflexivity|].
  intros Heq. apply Hne. now rewrite Heq, Hlast.
Qed.

Lemma updateFilters_silent (st : State) :
  prevFiltersRef st
  = JSON_stringify (build_filters (selectedRegions st) (selectedSegments st)) ->
  updateFilters st = (st, None).
Proof.
  intros H. unfold updateFilters. cbv zeta.
  rewrite <- H, String.eqb_refl. reflexivity.
Qed.

(** Over any sequence of selections, no notification repeats the one sent
    before it. *)
Lemma notifications_after (selections : list (list string * list string)) :
  forall (fb : State) (last : list CubeFilter),
    prevFiltersRef fb = JSON_stringify last ->
    adjacent_differ (last :: notifications fb selections).
Proof.
  induction selections as [|[regions segments] rest IH]; intros fb last Hlast;
    [exact I|].
  cbn [notifications].
  pose proof (updateFilters_ref (select regions segments fb)) as Href.
  pose proof (updateFilters_notifies (select regions segments fb) last) as Hnew.
  destruct (updateFilters (select regions segments fb)) as [fb1 [f|]] eqn:E;
    cbn [fst snd] in *.
  - destruct (Hnew f Hlast eq_refl) as [-> Hne]. split.
    + intros Heq. now apply Hne.
    + now apply IH.
  - apply IH. rewrite <- Hlast.
    unfold updateFilters in E.
    destruct (negb _) in E; [discriminate|]. now injection E as <-.
Qed.

Lemma notifications_never_repeat (selections : list (list string * list string)) :
  adjacent_differ (notifications initial selections).
Proof.
  destruct selections as [|[regions segments] rest]; [exact I|].
  cbn [notifications].
  pose proof (updateFilters_ref (select regions segments initial)) as Href.
  destruct (updateFilters (select regions segments initial)) as [fb1 [f|]] eqn:E;
    cbn [fst] in Href.
  - apply notifications_after.
    unfold updateFilters in E. destruct (negb _) in E; [|discriminate].
    injection E as <- <-. reflexivity.
  - unfold updateFilters in E. cbn in E. discriminate.
Qed.

(** The first run of [updateFilters] always notifies: the ref starts as the
    empty string, which is the serialization of no filter list. *)
Lemma first_update_notifies (regions segments : list string) :
  snd (updateFilters (select regions segments initial))
  = Some (build_filters regions segments).
Proof. reflexivity. Qed.

(** The filter list is built from the selections as they are: two
    selections give the same list only when they are the same, values in
    the same order and with the same repetitions. *)
Lemma build_filters_inj (r s r' s' : list string) :
  build_filters r s = build_filters r' s' -> r = r' /\ s = s'.
Proof.
  unfold build_filters.
  destruct r as [|a r], s as [|b s], r' as [|a' r'], s' as [|b' s']; simpl;
    intros H; split; congruence.
Qed.

(** C9, amended. When two successive selections give equal filter lists as
    [updateFilters] builds them, the region filter before the segment
    filter and the values of each in the order and with the repetitions of
    the selection, the second sends no notification: the dashboard keeps
    its state and no request goes out, so no second refresh starts. A
    notification goes out only with a filter list that differs from the
    one notified before it: when the ref holds the serialization of the
    last list notified, and over any sequence of selections from the
    initial state. Two selections build equal lists only when they are the
    same selection; the list is not deduplicated or put in order. *)
Theorem unchanged_filter_list_starts_no_refresh
    (rt : Runtime) (api : CubeApi.CubeApiService)
    (fb : State) (db : Dashboard.State)
    (regions segments regions' segments' : list string)
    (Hsame : build_filters regions' segments' = build_filters regions segments) :
  (let app1 := fst (selection_changed rt api regions segments (fb, db)) in
   selection_changed rt api regions' segments' app1
   = (select regions' segments' (fst app1), snd app1, []))
  /\ (forall last f : list CubeFilter,
        prevFiltersRef fb = JSON_stringify last ->
        snd (updateFilters (select regions segments fb)) = Some f ->
        f = build_filters regions segments /\ f <> last)
  /\ (forall selections, adjacent_differ (notifications initial selections))
  /\ (regions' = regions /\ segments' = segments).
Proof.
  split; [|split; [|split; [apply notifications_never_repeat|]]].
  - unfold selection_changed. cbn [fst snd].
    pose proof (updateFilters_ref (select regions segments fb)) as Href.
    simpl selectedRegions in Href. simpl selectedSegments in Href.
    destruct (updateFilters (select regions segments fb)) as [fb1 [f|]];
      [destruct (Dashboard.step rt api (Dashboard.FiltersChange f) db) as [db1 sent]|];
      cbn [fst snd] in *;
      (rewrite updateFilters_silent; [reflexivity|]);
      cbn [select selectedRegions selectedSegments prevFiltersRef];
      now rewrite Href, Hsame.
  - intros last f Hlast Hf.
    apply (updateFilters_notifies (select regions segments fb) last f Hlast Hf).
  - now apply build_filters_inj.
Qed.

End FilterBarFacts.

(** The witness of C9: AMERICA and EUROPE are selected, which notifies their
    filter and starts the refresh; the select then reports the same two
    values once more, as a string that the handler splits, and nothing
    happens. *)
Lemma unchanged_filter_list_starts_no_refresh_witness :
  let app1 :=
    fst (selection_changed example_runtime example_api ["AMERICA"; "EUROPE"] []
           (FilterBar.initial, Dashboard.initial)) in
  Dashboard.loadingRef (snd app1) = true
  /\ selection_changed example_runtime example_api
       (FilterBar.selection_of (FilterBar.AsString "AMERICA,EUROPE")) [] app1
     = (select ["AMERICA"; "EUROPE"] [] (fst app1), snd app1, []).
Proof.
  split; [reflexivity|].
  apply (unchanged_filter_list_starts_no_refresh example_runtime example_api
           FilterBar.initial Dashboard.initial
           ["AMERICA"; "EUROPE"] [] ["AMERICA"; "EUROPE"] []).
  reflexivity.
Defined.

(** ** The refresh cycle of the dashboard *)

Section DashboardFacts.

Import Cube Dashboard.

Variable rt : Runtime.
Variable api : CubeApi.CubeApiService.

Lemma widget_eqb_eq (a b : Widget) : widget_eqb a b = true <-> a = b.
Proof. destruct a, b; simpl; split; intros H; congruence. Qed.

Lemma widget_eqb_refl (a : Widget) : widget_eqb a a = true.
Proof. now apply widget_eqb_eq. Qed.

Lemma widget_eqb_neq (a b : Widget) : a <> b -> widget_eqb a b = false.
Proof.
  intros Hne. destruct (widget_eqb a b) eqn:E; [|reflexivity].
  now apply widget_eqb_eq in E.
Qed.

Lemma value_of_cons (l : list (Widget * CubeQueryResponse)) (w x : Widget)
    (r : CubeQueryResponse) :
  value_of ((w, r) :: l) x = if widget_eqb w x then Some r else value_of l x.
Proof. reflexivity. Qed.

Lemma all_values_inv (l : list (Widget * CubeQueryResponse)) (r : Responses) :
  all_values l = Some r ->
  forall w, value_of l w
            = Some (match w with
                    | SalesOverTime => salesOverTimeResponse r
                    | SalesByRegion => salesByRegionResponse r
                    | CustomerSegments => customerSegmentsResponse r
                    | OrderSize => orderSizeResponse r
                    | TopBrands => topBrandsResponse r
                    | OrderStatus => orderStatusResponse r
                    end).
Proof.
  unfold all_values.
  destruct (value_of l SalesOverTime) eqn:E1; [|discriminate].
  destruct (value_of l SalesByRegion) eqn:E2; [|discriminate].
  destruct (value_of l CustomerSegments) eqn:E3; [|discriminate].
  destruct (value_of l OrderSize) eqn:E4; [|discriminate].
  destruct (value_of l TopBrands) eqn:E5; [|discriminate].
  destruct (value_of l OrderStatus) eqn:E6; [|discriminate].
  intros H w. injection H as <-. now destruct w.
Qed.

Lemma all_values_missing (l : list (Widget * CubeQueryResponse)) :
  all_values l = None -> exists w, value_of l w = None.
Proof.
  unfold all_values.
  destruct (value_of l SalesOverTime) eqn:E1; [|now exists SalesOverTime].
  destruct (value_of l SalesByRegion) eqn:E2; [|now exists SalesByRegion].
  destruct (value_of l CustomerSegments) eqn:E3; [|now exists CustomerSegments].
  destruct (value_of l OrderSize) eqn:E4; [|now exists OrderSize].
  destruct (value_of l TopBrands) eqn:E5; [|now exists TopBrands].
  destruct (value_of l OrderStatus) eqn:E6; [discriminate|now exists OrderStatus].
Qed.

(** The guard of [loadDashboardData]: while a refresh is running, a call
    returns at once. *)
Lemma loadDashboardData_skips (st : State) :
  loadingRef st = true -> loadDashboardData api st = (st, []).
Proof. unfold loadDashboardData. now intros ->. Qed.

Lemma loadDashboardData_starts (st : State) :
  loadingRef st = false ->
  CubeApi.isConfigured api = true ->
  loadDashboardData api st
  = (with_progress true None true (Some {| id := started st; fulfilled := [] |})
       (S (started st)) st,
     map (fun w => CubeApi.request_of api (fetch_query w (filters st))) widgets).
Proof. unfold loadDashboardData. now intros -> ->. Qed.

(** Each request of a refresh is the one [CubeApi.query] sends for the
    fetch's query. *)
Lemma refresh_requests_are_queries (net : CubeApi.AxiosRequest -> CubeApi.AxiosOutcome)
    (fs : list CubeFilter) (w : Widget) :
  CubeApi.isConfigured api = true ->
  snd (CubeApi.query api net (fetch_query w fs)) = [CubeApi.request_of api (fetch_query w fs)].
Proof. unfold CubeApi.query. now intros ->. Qed.

Lemma fetch_settled_idle (cycle : nat) (w : Widget) (outcome : CubeApi.AxiosOutcome)
    (st : State) :
  pending st = None -> fetch_settled rt cycle w outcome st = st.
Proof. unfold fetch_settled. now intros ->. Qed.

Lemma fetch_settled_fulfilled (st : State) (cycle : nat)
    (done : list (Widget * CubeQueryResponse)) (w : Widget) (status : Z)
    (body : CubeQueryResponse) :
  pending st = Some {| id := cycle; fulfilled := done |} ->
  value_of done w = None ->
  fetch_settled rt cycle w (CubeApi.Fulfilled status body) st
  = match all_values ((w, body) :: done) with
    | Some r => apply_responses rt r st
    | None =>
        with_progress (loading st) (error st) (loadingRef st)
          (Some {| id := cycle; fulfilled := (w, body) :: done |}) (started st) st
    end.
Proof.
  intros Hp Hw. unfold fetch_settled. rewrite Hp. cbn [id fulfilled].
  now rewrite Nat.eqb_refl, Hw.
Qed.

Lemma run_settlements_idle (cycle : nat) (outcome : Widget -> CubeApi.AxiosOutcome)
    (ws : list Widget) (st : State) :
  pending st = None -> run rt api (settlements cycle outcome ws) st = (st, []).
Proof.
  intros Hp. induction ws as [|w ws IH]; simpl; [reflexivity|].
  rewrite (fetch_settled_idle _ _ _ _ Hp).
  now rewrite IH.
Qed.

(** Once the fetches that are still out have all been answered, in whatever
    order, the responses of this refresh are applied. *)
Lemma run_settlements_complete (cycle : nat) (resp : Widget -> CubeQueryResponse)
    (status : Widget -> Z) (ws : list Widget) :
  forall (done : list (Widget * CubeQueryResponse)) (st : State),
    pending st = Some {| id := cycle; fulfilled := done |} ->
    NoDup ws ->
    (forall w, In w ws -> value_of done w = None) ->
    (forall w r, value_of done w = Some r -> r = resp w) ->
    (forall w, In w ws \/ value_of done w <> None) ->
    ws <> [] ->
    run rt api (settlements cycle (fun w => CubeApi.Fulfilled (status w) (resp w)) ws) st
    = (apply_responses rt (responses_of resp) st, []).
Proof.
  induction ws as [|w ws IH]; intros done st Hp Hnd Hfresh Hcons Hcover Hne;
    [congruence|].
  inversion Hnd as [|? ? Hnotin Hnd']; subst.
  assert (Hcons' : forall x r, value_of ((w, resp w) :: done) x = Some r -> r = resp x).
  { intros x r. rewrite value_of_cons.
    destruct (widget_eqb w x) eqn:E; [|apply Hcons].
    apply widget_eqb_eq in E. subst x. congruence. }
  simpl.
  rewrite (fetch_settled_fulfilled st cycle done w (status w) (resp w) Hp
             (Hfresh w (or_introl eq_refl))).
  destruct (all_values ((w, resp w) :: done)) as [r|] eqn:E.
  - assert (Hr : r = responses_of resp).
    { pose proof (all_values_inv _ _ E) as Hv.
      destruct r as [r1 r2 r3 r4 r5 r6]. unfold responses_of. simpl in Hv.
      f_equal; [apply (Hcons' SalesOverTime) | apply (Hcons' SalesByRegion)
               | apply (Hcons' CustomerSegments) | apply (Hcons' OrderSize)
               | apply (Hcons' TopBrands) | apply (Hcons' OrderStatus)];
        apply Hv. }
    subst r.
    now rewrite run_settlements_idle.
  - destruct (all_values_missing _ E) as [x Hx].
    rewrite value_of_cons in Hx.
    destruct (widget_eqb w x) eqn:Ewx; [discriminate|].
    assert (Hin : In x ws).
    { destruct (Hcover x) as [[->|Hin]|Hsome]; [|assumption|contradiction].
      now rewrite widget_eqb_refl in Ewx. }
    rewrite (IH ((w, resp w) :: done)); try assumption; try reflexivity.
    + intros y Hy. rewrite value_of_cons, widget_eqb_neq; [now apply Hfresh; right|].
      intros ->. contradiction.
    + intros y. rewrite value_of_cons.
      destruct (widget_eqb w y) eqn:Ewy; [right; discriminate|].
      destruct (Hcover y) as [[->|Hy]|Hsome]; [|now left|now right].
      now rewrite widget_eqb_refl in Ewy.
    + intros ->. contradiction.
Qed.

Lemma all_values_none (l : list (Widget * CubeQueryResponse)) (y : Widget) :
  value_of l y = None -> all_values l = None.
Proof.
  intros Hy. destruct (all_values l) as [r|] eqn:E; [|reflexivity].
  pose proof (all_values_inv l r E y) as Hv. congruence.
Qed.

(** While a fetch of the refresh is still out, the answers of the others
    are only collected: the state changes in its pending [Promise.all] and
    nowhere else. *)
Lemma run_settlements_partial (cycle : nat) (resp : Widget -> CubeQueryResponse)
    (status : Widget -> Z) (y : Widget) (ws : list Widget) :
  forall (done : list (Widget * CubeQueryResponse)) (st : State),
    pending st = Some {| id := cycle; fulfilled := done |} ->
    NoDup ws ->
    (forall w, In w ws -> value_of done w = None) ->
    value_of done y = None ->
    ~ In y ws ->
    exists done',
      run rt api (settlements cycle (fun w => CubeApi.Fulfilled (status w) (resp w)) ws) st
      = (with_progress (loading st) (error st) (loadingRef st)
           (Some {| id := cycle; fulfilled := done' |}) (started st) st, [])
      /\ value_of done' y = None.
Proof.
  induction ws as [|w ws IH]; intros done st Hp Hnd Hfresh Hy Hnotin.
  - exists done. split; [|exact Hy]. simpl. destruct st. simpl in Hp. now subst.
  - inversion Hnd as [|? ? Hw Hnd']; subst.
    assert (Hyw : widget_eqb w y = false).
    { apply widget_eqb_neq. intros ->. apply Hnotin. now left. }
    assert (Hy' : value_of ((w, resp w) :: done) y = None).
    { now rewrite value_of_cons, Hyw. }
    simpl.
    rewrite (fetch_settled_fulfilled st cycle done w (status w) (resp w) Hp
               (Hfresh w (or_introl eq_refl))).
    rewrite (all_values_none _ y Hy').
    destruct (IH ((w, resp w) :: done)
                (with_progress (loading st) (error st) (loadingRef st)
                   (Some {| id := cycle; fulfilled := (w, resp w) :: done |})
                   (started st) st))
      as (done' & Hrun & Hdone'); try assumption; try reflexivity.
    + intros x Hx. rewrite value_of_cons, widget_eqb_neq; [apply Hfresh; now right|].
      intros ->. contradiction.
    + intros Hin. apply Hnotin. now right.
    + exists done'. split; [|exact Hdone']. now rewrite Hrun.
Qed.

Lemma widgets_NoDup : NoDup widgets.
Proof.
  unfold widgets. repeat constructor; simpl; intuition discriminate.
Qed.

Lemma widgets_all (w : Widget) : In w widgets.
Proof. destruct w; simpl; tauto. Qed.

Lemma charts_applied (resp : Widget -> CubeQueryResponse) (st : State) (w : Widget) :
  chart_of w (apply_responses rt (responses_of resp) st) = Some (normalizer_of rt w (resp w)).
Proof. now destruct w. Qed.

(** *** At most one refresh at a time *)

Lemma fetch_settled_cases (cycle : nat) (w : Widget) (outcome : CubeApi.AxiosOutcome)
    (st : State) :
  fetch_settled rt cycle w outcome st = st
  \/ (exists err, fetch_settled rt cycle w outcome st = catch_error err st)
  \/ (exists r, fetch_settled rt cycle w outcome st = apply_responses rt r st)
  \/ (exists p arrived,
        pending st = Some p
        /\ fetch_settled rt cycle w outcome st
           = with_progress (loading st) (error st) (loadingRef st)
               (Some {| id := id p; fulfilled := arrived |}) (started st) st).
Proof.
  unfold fetch_settled.
  destruct (pending st) as [p|]; [|now left].
  destruct (negb (id p =? cycle)%nat); [now left|].
  destruct (value_of (fulfilled p) w); [now left|].
  destruct (CubeApi.settle outcome) as [response|err].
  - destruct (all_values ((w, response) :: fulfilled p)) as [r|].
    + right. right. left. now exists r.
    + right. right. right. now exists p, ((w, response) :: fulfilled p).
  - right. left. now exists err.
Qed.

Lemma loadDashboardData_consistent (st : State) :
  consistent st -> consistent (fst (loadDashboardData api st)).
Proof.
  unfold loadDashboardData. intros H.
  destruct (loadingRef st) eqn:Eref; [exact H|].
  destruct (CubeApi.isConfigured api); unfold consistent in *; simpl.
  - split; [reflexivity|lia].
  - destruct (pending st) as [p|]; [|reflexivity].
    destruct H as [Href _]. congruence.
Qed.

Lemma step_consistent (e : Event) (st : State) :
  consistent st -> consistent (fst (step rt api e st)).
Proof.
  intros H. destruct e as [|newFilters| |cycle w outcome]; simpl.
  - now apply loadDashboardData_consistent.
  - now apply loadDashboardData_consistent.
  - now apply loadDashboardData_consistent.
  - destruct (fetch_settled_cases cycle w outcome st)
      as [->|[[err ->]|[[r ->]|(p & arrived & Hp & ->)]]];
      try assumption; try reflexivity.
    unfold consistent in *. simpl. now rewrite Hp in H.
Qed.

Lemma run_consistent (events : list Event) (st : State) :
  consistent st -> consistent (fst (run rt api events st)).
Proof.
  revert st. induction events as [|e events IH]; intros st H; simpl; [exact H|].
  pose proof (step_consistent e st H) as H1.
  destruct (step rt api e st) as [st1 sent1]. simpl in H1.
  specialize (IH st1 H1).
  now destruct (run rt api events st1) as [st2 sent2].
Qed.

(** An answer to a refresh that is over changes nothing, and the refresh
    stays over whatever happens next. *)
Lemma fetch_settled_retired (cycle : nat) (w : Widget) (outcome : CubeApi.AxiosOutcome)
    (st : State) :
  retired cycle st -> fetch_settled rt cycle w outcome st = st.
Proof.
  intros [_ H]. unfold fetch_settled.
  destruct (pending st) as [p|]; [|reflexivity].
  specialize (H p eq_refl). apply Nat.eqb_neq in H. now rewrite H.
Qed.

Lemma loadDashboardData_retired (cycle : nat) (st : State) :
  retired cycle st -> retired cycle (fst (loadDashboardData api st)).
Proof.
  unfold loadDashboardData. intros [Hlt Hp].
  destruct (loadingRef st); [now split|].
  destruct (CubeApi.isConfigured api); unfold retired; simpl.
  - split; [lia|]. intros p Heq. injection Heq as <-. simpl. lia.
  - now split.
Qed.

Lemma step_retired (cycle : nat) (e : Event) (st : State) :
  retired cycle st -> retired cycle (fst (step rt api e st)).
Proof.
  intros H. destruct e as [|newFilters| |cycle' w outcome]; simpl.
  - now apply loadDashboardData_retired.
  - now apply loadDashboardData_retired.
  - now apply loadDashboardData_retired.
  - destruct (fetch_settled_cases cycle' w outcome st)
      as [->|[[err ->]|[[r ->]|(p & arrived & Hp & ->)]]];
      try assumption; destruct H as [Hlt Hid]; unfold retired; simpl;
      (split; [exact Hlt|]); try discriminate.
    intros p' Heq. injection Heq as <-. simpl. now apply Hid.
Qed.

Lemma run_retired (cycle : nat) (events : list Event) (st : State) :
  retired cycle st -> retired cycle (fst (run rt api events st)).
Proof.
  revert st. induction events as [|e events IH]; intros st H; simpl; [exact H|].
  pose proof (step_retired cycle e st H) as H1.
  destruct (step rt api e st) as [st1 sent1]. simpl in H1.
  specialize (IH st1 H1).
  now destruct (run rt api events st1) as [st2 sent2].
Qed.

(** X13. The answers of a refresh that failed are never applied: whatever
    events follow the failure, an answer to that refresh leaves the state as
    it is. *)
Lemma failed_refresh_is_never_applied
    (st : State) (p : Cycle) (w : Widget) (outcome : CubeApi.AxiosOutcome)
    (err : CubeApi.JsThrown) (events : list Event)
    (w' : Widget) (outcome' : CubeApi.AxiosOutcome) :
  consistent st ->
  pending st = Some p ->
  value_of (fulfilled p) w = None ->
  CubeApi.settle outcome = CubeApi.Throw err ->
  let later := fst (run rt api events (fetch_settled rt (id p) w outcome st)) in
  fetch_settled rt (id p) w' outcome' later = later.
Proof.
  intros Hc Hp Hw Hfail later.
  apply fetch_settled_retired, run_retired.
  unfold fetch_settled. rewrite Hp, Nat.eqb_refl, Hw, Hfail. simpl.
  unfold consistent in Hc. rewrite Hp in Hc. destruct Hc as [_ Hlt].
  split; [exact Hlt|]. discriminate.
Qed.

End DashboardFacts.

Section RefreshCycle.

Import Cube Dashboard.

Variable rt : Runtime.
Variable api : CubeApi.CubeApiService.

(** C1, amended. Let selection A start a refresh and selection B arrive
    before A's fetches have resolved. The call for B then returns at the
    [loadingRef] guard: it records B as the current filters and sends no
    request. When A's six fetches are answered, in whatever order, it is
    A's responses that are normalized into the six chart cells, while the
    filters remain B's; nothing is fetched for B. *)
Theorem newer_selection_is_skipped_while_loading
    (st : State) (A B : list CubeFilter)
    (resp : Widget -> CubeQueryResponse) (status : Widget -> Z) (order : list Widget)
    (Hconfigured : CubeApi.isConfigured api = true)
    (Hidle : loadingRef st = false)
    (Horder : Permutation order widgets) :
  let on_A := step rt api (FiltersChange A) st in
  let on_B := step rt api (FiltersChange B) (fst on_A) in
  let answered :=
    run rt api
      (settlements (started st) (fun w => CubeApi.Fulfilled (status w) (resp w)) order)
      (fst on_B) in
  snd on_A = map (fun w => CubeApi.request_of api (fetch_query w A)) widgets
  /\ on_B = (setFilters B (fst on_A), [])
  /\ snd answered = []
  /\ (forall w, chart_of w (fst answered) = Some (normalizer_of rt w (resp w)))
  /\ filters (fst answered) = B
  /\ loading (fst answered) = false
  /\ loadingRef (fst answered) = false
  /\ pending (fst answered) = None.
Proof.
  intros on_A on_B answered.
  assert (HA : on_A
               = (with_progress true None true
                    (Some {| id := started st; fulfilled := [] |}) (S (started st))
                    (setFilters A st),
                  map (fun w => CubeApi.request_of api (fetch_query w A)) widgets)).
  { unfold on_A, step. now rewrite loadDashboardData_starts. }
  assert (HB : on_B = (setFilters B (fst on_A), [])).
  { unfold on_B, step. rewrite loadDashboardData_skips; [reflexivity|].
    now rewrite HA. }
  assert (Hrun : answered
                 = (apply_responses rt (responses_of resp) (fst on_B), [])).
  { unfold answered.
    apply (run_settlements_complete rt api (started st) resp status order []).
    - now rewrite HB, HA.
    - apply (Permutation_NoDup (Permutation_sym Horder)), widgets_NoDup.
    - reflexivity.
    - discriminate.
    - intros w. left. apply (Permutation_in _ (Permutation_sym Horder)), widgets_all.
    - intros ->. apply Permutation_nil in Horder. discriminate. }
  rewrite Hrun, HB, HA. cbn [fst snd].
  do 3 (split; [reflexivity|]).
  split; [intros w; apply charts_applied|].
  do 3 (split; [reflexivity|]). reflexivity.
Qed.

(** C2, amended. When a fetch of a refresh fails, the refresh fails as a
    whole. Let a refresh start from an idle state, let any of the sibling
    fetches be answered, in whatever order, and let one fetch then fail.
    The answers of the siblings are not applied: the six chart cells are
    what they were before the refresh, both when the siblings have answered
    and after the failure, and no answer that comes later changes the
    state. The message of the failure becomes the one error of the
    dashboard, which, unless the message is empty, is rendered as an alert
    in place of all six widgets; [loading] and [loadingRef] are reset. *)
Theorem failed_fetch_fails_the_whole_refresh
    (st : State) (resp : Widget -> CubeQueryResponse) (status : Widget -> Z)
    (siblings : list Widget) (w : Widget) (outcome : CubeApi.AxiosOutcome)
    (err : CubeApi.JsThrown)
    (Hconfigured : CubeApi.isConfigured api = true)
    (Hidle : loadingRef st = false)
    (Hsiblings : NoDup siblings)
    (Hw : ~ In w siblings)
    (Hfail : CubeApi.settle outcome = CubeApi.Throw err) :
  let begun := fst (loadDashboardData api st) in
  let answered :=
    fst (run rt api
           (settlements (started st) (fun x => CubeApi.Fulfilled (status x) (resp x)) siblings)
           begun) in
  let failed := fetch_settled rt (started st) w outcome answered in
  charts answered = charts st
  /\ charts failed = charts st
  /\ error failed = Some (error_message err)
  /\ loading failed = false
  /\ loadingRef failed = false
  /\ pending failed = None
  /\ (forall cycle w' outcome', fetch_settled rt cycle w' outcome' failed = failed)
  /\ (error_message err <> "" -> render failed = ErrorAlert (error_message err)).
Proof.
  intros begun answered failed.
  assert (Hbegun : begun
                   = with_progress true None true
                       (Some {| id := started st; fulfilled := [] |}) (S (started st)) st).
  { unfold begun. now rewrite loadDashboardData_starts. }
  destruct (run_settlements_partial rt api (started st) resp status w siblings [] begun)
    as (done & Hrun & Hdone); try assumption; try reflexivity.
  { now rewrite Hbegun. }
  assert (Hanswered : answered
                      = with_progress true None true
                          (Some {| id := started st; fulfilled := done |})
                          (S (started st)) st).
  { unfold answered. rewrite Hrun, Hbegun. reflexivity. }
  assert (Hf : failed = catch_error err answered).
  { unfold failed, fetch_settled. rewrite Hanswered. cbn [pending with_progress id fulfilled].
    now rewrite Nat.eqb_refl, Hdone, Hfail. }
  rewrite Hf, Hanswered. do 6 (split; [reflexivity|]). split.
  - intros cycle w' outcome'. now apply fetch_settled_idle.
  - intros Hmsg. unfold render, catch_error. simpl.
    fold (error_message err). unfold Js.truthy_string.
    apply String.eqb_neq in Hmsg. now rewrite Hmsg.
Qed.

End RefreshCycle.

(** The witness of C1: from the initial state, AMERICA is selected, then
    EUROPE, and the six answers for AMERICA arrive last fetch first. *)
Lemma newer_selection_is_skipped_while_loading_witness :
  let on_A :=
    Dashboard.step example_runtime example_api (Dashboard.FiltersChange filters_A)
      Dashboard.initial in
  let on_B :=
    Dashboard.step example_runtime example_api (Dashboard.FiltersChange filters_B) (fst on_A) in
  let answered :=
    Dashboard.run example_runtime example_api
      (settlements 0 (fun w => CubeApi.Fulfilled 200 (example_body w)) (rev Dashboard.widgets))
      (fst on_B) in
  snd on_B = []
  /\ Dashboard.filters (fst answered) = filters_B
  /\ chart_of Dashboard.SalesByRegion (fst answered)
     = Some (Dashboard.processSalesByRegionData example_runtime
               (example_body Dashboard.SalesByRegion)).
Proof.
  destruct (newer_selection_is_skipped_while_loading example_runtime example_api
              Dashboard.initial filters_A filters_B example_body (fun _ => 200%Z)
              (rev Dashboard.widgets) eq_refl eq_refl
              (Permutation_sym (Permutation_rev Dashboard.widgets)))
    as (_ & HB & _ & Hcharts & Hfilters & _).
  split; [now rewrite HB|].
  split; [exact Hfilters|].
  exact (Hcharts Dashboard.SalesByRegion).
Defined.

(** C1, as stated: were stale answers discarded, the answers to A's fetches,
    arriving after B was selected, would leave the chart cells as they
    were. They do not: the cells take A's data. *)
Lemma stale_results_reach_the_charts :
  ~ (forall (rt : Runtime) (api : CubeApi.CubeApiService)
            (A B : list Cube.CubeFilter)
            (resp : Dashboard.Widget -> Cube.CubeQueryResponse),
       CubeApi.isConfigured api = true ->
       let on_A := Dashboard.step rt api (Dashboard.FiltersChange A) Dashboard.initial in
       let on_B := Dashboard.step rt api (Dashboard.FiltersChange B) (fst on_A) in
       let answered :=
         Dashboard.run rt api (settlements 0 (ok resp) Dashboard.widgets) (fst on_B) in
       charts (fst answered) = charts (fst on_B)).
Proof.
  intros H.
  specialize (H example_runtime example_api filters_A filters_B example_body eq_refl).
  vm_compute in H. discriminate H.
Qed.

(** The witness of C2: the refresh started at mount; five fetches have been
    answered when the first one comes back with status 500. *)
Lemma failed_fetch_fails_the_whole_refresh_witness :
  let mounted :=
    fst (Dashboard.step example_runtime example_api Dashboard.Mounted Dashboard.initial) in
  let five :=
    fst (Dashboard.run example_runtime example_api
           (settlements 0 (ok example_body) (tl Dashboard.widgets)) mounted) in
  let status_500 :=
    CubeApi.RejectedAxios (rejected 500 "500" "Internal Server Error" "Internal Server Error") in
  let failed :=
    Dashboard.fetch_settled example_runtime 0 Dashboard.SalesOverTime status_500 five in
  charts five = (None, None, None, None, None, None)
  /\ charts failed = (None, None, None, None, None, None)
  /\ Dashboard.render failed
     = Dashboard.ErrorAlert ("Server Error: " ++ error_body "Internal Server Error").
Proof.
  destruct (failed_fetch_fails_the_whole_refresh example_runtime example_api
              Dashboard.initial example_body (fun _ => 200%Z) (tl Dashboard.widgets)
              Dashboard.SalesOverTime
              (CubeApi.RejectedAxios
                 (rejected 500 "500" "Internal Server Error" "Internal Server Error"))
              (CubeApi.ErrorObject ("Server Error: " ++ error_body "Internal Server Error"))
              eq_refl eq_refl)
    as (Hfive & Hcharts & _ & _ & _ & _ & _ & Hrender).
  - unfold Dashboard.widgets. simpl.
    repeat (constructor; [simpl; intuition discriminate|]). constructor.
  - simpl. intuition discriminate.
  - reflexivity.
  - split; [exact Hfive|]. split; [exact Hcharts|].
    apply Hrender. discriminate.
Defined.

(** C2, as stated: were a failure confined to its widget, the five sibling
    charts would show their answers and no error alert would be rendered.
    Here the first fetch fails after its five siblings were answered: no
    chart cell is set, and the dashboard renders the alert. *)
Lemma one_failure_blanks_every_widget :
  ~ (forall (rt : Runtime) (api : CubeApi.CubeApiService)
            (resp : Dashboard.Widget -> Cube.CubeQueryResponse)
            (failure : CubeApi.AxiosError),
       CubeApi.isConfigured api = true ->
       let mounted := fst (Dashboard.step rt api Dashboard.Mounted Dashboard.initial) in
       let outcome w :=
         match w with
         | Dashboard.SalesOverTime => CubeApi.RejectedAxios failure
         | _ => CubeApi.Fulfilled 200 (resp w)
         end in
       let settled :=
         fst (Dashboard.run rt api (settlements 0 outcome (rev Dashboard.widgets)) mounted) in
       (forall w, w <> Dashboard.SalesOverTime ->
                  chart_of w settled = Some (normalizer_of rt w (resp w)))
       /\ (forall e, Dashboard.render settled <> Dashboard.ErrorAlert e)).
Proof.
  intros H.
  destruct (H example_runtime example_api example_body
              (rejected 500 "500" "Internal Server Error" "Internal Server Error")
              eq_refl) as [Hsiblings _].
  specialize (Hsiblings Dashboard.SalesByRegion).
  vm_compute in Hsiblings.
  assert (Hne : Dashboard.SalesByRegion <> Dashboard.SalesOverTime) by discriminate.
  discriminate (Hsiblings Hne).
Qed.

(** C9, as stated: were the change detected on the canonical filter list, a
    selection that only puts the values of the one before it in another
    order would start no second refresh. It does: AMERICA and EUROPE are
    selected and the refresh for them is answered; the select then reports
    EUROPE and AMERICA (here as a string, which the handler splits), which
    notifies a new filter list and sends six requests. *)
Lemma reordered_selection_starts_a_refresh :
  ~ (forall (rt : Runtime) (api : CubeApi.CubeApiService)
            (regions segments regions' segments' : list string)
            (resp : Dashboard.Widget -> Cube.CubeQueryResponse),
       canonical_filter_list regions' segments' = canonical_filter_list regions segments ->
       let app1 :=
         fst (selection_changed rt api regions segments
                (FilterBar.initial, Dashboard.initial)) in
       let idle :=
         fst (Dashboard.run rt api (settlements 0 (ok resp) Dashboard.widgets) (snd app1)) in
       snd (selection_changed rt api regions' segments' (fst app1, idle)) = []).
Proof.
  intros H.
  specialize (H example_runtime example_api
                ["AMERICA"; "EUROPE"] []
                (FilterBar.selection_of (FilterBar.AsString "EUROPE,AMERICA")) []
                example_body eq_refl).
  vm_compute in H. discriminate H.
Qed.

(** ** Further properties of the refresh cycle *)

Section RefreshInvariants.

Import Cube Dashboard.

Variable rt : Runtime.
Variable api : CubeApi.CubeApiService.

Lemma loadDashboardData_charts (st : State) :
  charts (fst (loadDashboardData api st)) = charts st.
Proof.
  unfold loadDashboardData.
  destruct (loadingRef st); [reflexivity|].
  destruct (negb (CubeApi.isConfigured api)); reflexivity.
Qed.

Lemma chart_of_charts (st st' : State) :
  charts st' = charts st -> forall w, chart_of w st' = chart_of w st.
Proof.
  unfold charts. intros Heq w. injection Heq as E1 E2 E3 E4 E5 E6.
  now destruct w.
Qed.

(** What holds of the cells keeps holding when the cells stay as they are
    and more events come. *)
Lemma loaded_or_not_kept (hist more : list Event) (st st' : State) :
  charts st' = charts st ->
  never_loaded st \/ loaded_by_one_refresh rt hist st ->
  never_loaded st' \/ loaded_by_one_refresh rt (hist ++ more)%list st'.
Proof.
  intros Heq [Hn|(cycle & resp & H)].
  - left. intros w. rewrite (chart_of_charts st st' Heq). apply Hn.
  - right. exists cycle, resp. intros w. destruct (H w) as [Hw [status Hin]].
    split; [now rewrite (chart_of_charts st st' Heq)|].
    exists status. apply in_or_app. now left.
Qed.

Lemma collected_kept (hist more : list Event) (st st' : State) :
  pending st' = pending st ->
  collected_from hist st -> collected_from (hist ++ more)%list st'.
Proof.
  intros Heq H p w r Hp Hv. rewrite Heq in Hp.
  destruct (H p w r Hp Hv) as [status Hin].
  exists status. apply in_or_app. now left.
Qed.

Lemma loadDashboardData_collected (hist more : list Event) (st : State) :
  collected_from hist st ->
  collected_from (hist ++ more)%list (fst (loadDashboardData api st)).
Proof.
  intros H. unfold loadDashboardData.
  destruct (loadingRef st); [now apply (collected_kept hist more st)|].
  destruct (negb (CubeApi.isConfigured api)).
  - now apply (collected_kept hist more st).
  - intros p w r Hp Hv. simpl in Hp. injection Hp as <-. discriminate Hv.
Qed.

Lemma chart_of_applied (r : Responses) (st : State) (w : Widget) :
  chart_of w (apply_responses rt r st) = Some (normalizer_of rt w (response_of r w)).
Proof. now destruct w. Qed.

(** One event keeps the cells all empty or all of one refresh, and the
    collected answers those of the pending refresh. *)
Lemma step_loaded_or_not (hist : list Event) (e : Event) (st : State) :
  never_loaded st \/ loaded_by_one_refresh rt hist st ->
  collected_from hist st ->
  (never_loaded (fst (step rt api e st))
   \/ loaded_by_one_refresh rt (hist ++ [e])%list (fst (step rt api e st)))
  /\ collected_from (hist ++ [e])%list (fst (step rt api e st)).
Proof.
  intros H Hc. destruct e as [|newFilters| |cycle w outcome]; simpl.
  - split; [|now apply loadDashboardData_collected].
    apply (loaded_or_not_kept hist _ st); [apply loadDashboardData_charts|exact H].
  - split.
    + apply (loaded_or_not_kept hist _ st); [|exact H].
      now rewrite loadDashboardData_charts.
    + apply loadDashboardData_collected.
      intros p w r Hp Hv. exact (Hc p w r Hp Hv).
  - split; [|now apply loadDashboardData_collected].
    apply (loaded_or_not_kept hist _ st); [apply loadDashboardData_charts|exact H].
  - assert (Hsame : (never_loaded st
                     \/ loaded_by_one_refresh rt
                          (hist ++ [FetchSettled cycle w outcome])%list st)
                    /\ collected_from (hist ++ [FetchSettled cycle w outcome])%list st).
    { split; [now apply (loaded_or_not_kept hist _ st)|now apply (collected_kept hist _ st)]. }
    unfold fetch_settled.
    destruct (pending st) as [p|] eqn:Hp; [|exact Hsame].
    destruct (Nat.eqb_spec (id p) cycle) as [Hid|Hid]; simpl; [|exact Hsame].
    destruct (value_of (fulfilled p) w) eqn:Hw; [exact Hsame|].
    assert (Hfailed : forall err,
               (never_loaded (catch_error err st)
                \/ loaded_by_one_refresh rt
                     (hist ++ [FetchSettled cycle w outcome])%list (catch_error err st))
               /\ collected_from (hist ++ [FetchSettled cycle w outcome])%list
                    (catch_error err st)).
    { intros err. split; [now apply (loaded_or_not_kept hist _ st)|].
      intros p' w' r' Hp'. discriminate Hp'. }
    destruct outcome as [status body|error|err]; simpl; try apply Hfailed.
    assert (Harrived : forall x r,
               value_of ((w, body) :: fulfilled p) x = Some r ->
               exists status',
                 In (FetchSettled (id p) x (CubeApi.Fulfilled status' r))
                    (hist ++ [FetchSettled cycle w (CubeApi.Fulfilled status body)])%list).
    { intros x r. rewrite value_of_cons.
      destruct (widget_eqb w x) eqn:Ewx.
      - apply widget_eqb_eq in Ewx. subst x. intros [= <-].
        exists status. apply in_or_app. right. left. now rewrite Hid.
      - intros Hx. destruct (Hc p x r Hp Hx) as [status' Hin].
        exists status'. apply in_or_app. now left. }
    destruct (all_values ((w, body) :: fulfilled p)) as [r|] eqn:E.
    + split.
      * right. exists (id p), (response_of r). intros x.
        split; [apply chart_of_applied|].
        apply Harrived. apply (all_values_inv _ _ E x).
      * intros p' w' r' Hp'. discriminate Hp'.
    + split.
      * now apply (loaded_or_not_kept hist _ st).
      * intros p' x r' Hp' Hx. simpl in Hp'. injection Hp' as <-.
        now apply Harrived.
Qed.

Lemma run_loaded_or_not (events : list Event) :
  forall (hist : list Event) (st : State),
    never_loaded st \/ loaded_by_one_refresh rt hist st ->
    collected_from hist st ->
    never_loaded (fst (run rt api events st))
    \/ loaded_by_one_refresh rt (hist ++ events)%list (fst (run rt api events st)).
Proof.
  induction events as [|e events IH]; intros hist st H Hc; simpl.
  - now rewrite app_nil_r.
  - destruct (step_loaded_or_not hist e st H Hc) as [H1 Hc1].
    destruct (step rt api e st) as [st1 sent1]. simpl in H1, Hc1.
    specialize (IH (hist ++ [e])%list st1 H1 Hc1).
    rewrite <- app_assoc in IH. simpl in IH.
    now destruct (run rt api events st1) as [st2 sent2].
Qed.

(** X1. From the initial state, whatever the events, the six chart cells
    are either all still empty or all filled from the answers to one and
    the same refresh: there is one refresh whose six fetches were fulfilled
    among the events, and each cell is the normalization of the response
    that its widget's fetch of that refresh brought. No run leaves charts
    of one refresh beside charts of another, or beside empty cells. *)
Theorem charts_are_all_or_nothing (events : list Event) :
  let final := fst (run rt api events initial) in
  never_loaded final \/ loaded_by_one_refresh rt events final.
Proof.
  intros final.
  apply (run_loaded_or_not events [] initial).
  - left. intros w. now destruct w.
  - intros p w r Hp. discriminate Hp.
Qed.

Lemma step_requests (e : Event) (st : State) :
  consistent st ->
  (snd (step rt api e st) = [] /\ started (fst (step rt api e st)) = started st)
  \/ (pending st = None
      /\ List.length (snd (step rt api e st)) = 6
      /\ started (fst (step rt api e st)) = S (started st)).
Proof.
  intros Hc.
  assert (Hload : forall st0, pending st0 = pending st -> loadingRef st0 = loadingRef st ->
                              started st0 = started st ->
            (snd (loadDashboardData api st0) = []
             /\ started (fst (loadDashboardData api st0)) = started st)
            \/ (pending st = None
                /\ List.length (snd (loadDashboardData api st0)) = 6
                /\ started (fst (loadDashboardData api st0)) = S (started st))).
  { intros st0 Hp Hr Hs. unfold loadDashboardData.
    destruct (loadingRef st0) eqn:Eref; [now left|].
    destruct (CubeApi.isConfigured api); simpl.
    - right. split; [|now rewrite Hs].
      unfold consistent in Hc. destruct (pending st); [|reflexivity].
      destruct Hc as [Hc _]. congruence.
    - now left. }
  destruct e as [|newFilters| |cycle w outcome]; simpl.
  - now apply Hload.
  - now apply Hload.
  - now apply Hload.
  - left. split; [reflexivity|].
    destruct (fetch_settled_cases rt cycle w outcome st)
      as [->|[[err ->]|[[r ->]|(p & arrived & Hp & ->)]]]; reflexivity.
Qed.

Lemma run_requests (events : list Event) :
  forall st, consistent st ->
    List.length (snd (run rt api events st)) + 6 * started st
    = 6 * started (fst (run rt api events st)).
Proof.
  induction events as [|e events IH]; intros st Hc; simpl; [reflexivity|].
  pose proof (step_consistent rt api e st Hc) as Hc1.
  pose proof (step_requests e st Hc) as Hs.
  destruct (step rt api e st) as [st1 sent1]. simpl in Hc1, Hs.
  specialize (IH st1 Hc1).
  destruct (run rt api events st1) as [st2 sent2]. simpl in *.
  rewrite length_app.
  destruct Hs as [[-> Hs]|(_ & Hl & Hs)]; simpl in *; lia.
Qed.

(** X2. At most one refresh runs at a time. From the initial state,
    whatever the events: a [Promise.all] is awaited exactly while
    [loadingRef] is set; while one is awaited no event sends a request;
    and the requests sent so far are exactly six for each refresh started. *)
Theorem one_refresh_at_a_time (events : list Event) :
  let final := fst (run rt api events initial) in
  consistent final
  /\ (forall e, pending final <> None -> snd (step rt api e final) = [])
  /\ List.length (snd (run rt api events initial)) = 6 * started final.
Proof.
  intros final.
  assert (Hc : consistent final).
  { apply run_consistent. reflexivity. }
  split; [exact Hc|]. split.
  - intros e Hp.
    destruct (step_requests e final Hc) as [[Hs _]|(Hnone & _)];
      [exact Hs|contradiction].
  - pose proof (run_requests events initial eq_refl) as H.
    fold final in H. simpl in H. lia.
Qed.

Lemma run_unconfigured (events : list Event) :
  CubeApi.isConfigured api = false ->
  forall st, snd (run rt api events st) = [].
Proof.
  intros Hoff.
  assert (Hload : forall st, snd (loadDashboardData api st) = []).
  { intros st. unfold loadDashboardData. rewrite Hoff.
    now destruct (loadingRef st). }
  induction events as [|e events IH]; intros st; simpl; [reflexivity|].
  assert (Hs : snd (step rt api e st) = []).
  { destruct e; simpl; try apply Hload; reflexivity. }
  destruct (step rt api e st) as [st1 sent1]. simpl in Hs. subst sent1.
  specialize (IH st1).
  destruct (run rt api events st1) as [st2 sent2]. simpl in *. exact IH.
Qed.

(** X3. With a client that is not configured the dashboard never sends a
    request, whatever the events and the state; at mount it stops loading
    and renders the configuration message as its alert. *)
Theorem unconfigured_dashboard_sends_nothing (events : list Event) (st : State)
    (Hoff : CubeApi.isConfigured api = false) :
  snd (run rt api events st) = []
  /\ render (fst (step rt api Mounted initial))
     = ErrorAlert "Please configure your Cube API endpoint and token in the .env file."
  /\ loading (fst (step rt api Mounted initial)) = false.
Proof.
  split; [now apply run_unconfigured|].
  unfold step, loadDashboardData. simpl. rewrite Hoff. split; reflexivity.
Qed.

(** X4. What a normalizer returns is always drawn as a chart: with
    [isLoading] off, the chart components show the placeholder "No data
    available" for a null [data] only, never for a response, not even one
    without rows. *)
Theorem normalized_charts_are_drawn (w : Widget) (response : CubeQueryResponse) :
  chart_view (Some (normalizer_of rt w response)) false
  = Chart (normalizer_of rt w response)
  /\ chart_view None false = NoDataAvailable.
Proof.
  split; [|reflexivity].
  unfold chart_view.
  destruct w; simpl;
    unfold processSalesOverTimeData, processSalesByRegionData, processCustomerSegmentsData,
      processOrderSizeData, processTopBrandsData, processOrderStatusData;
    destruct (no_rows response); reflexivity.
Qed.

Lemma axios_message_not_empty (error : CubeApi.AxiosError) :
  error_message (CubeApi.axios_error_thrown error) <> "".
Proof.
  unfold CubeApi.axios_error_thrown.
  destruct (CubeApi.status_is error 401); [discriminate|].
  destruct (CubeApi.status_is error 403); [discriminate|].
  destruct (CubeApi.status_is error 400); [discriminate|].
  destruct (CubeApi.status_is error 500); discriminate.
Qed.

(** X5. When a fetch of the running refresh is rejected with an Axios error,
    whatever its status or lack of response, the dashboard renders the error
    alert with the message [query] composed for it: that message is never
    empty, so the alert never fails to show. *)
Theorem axios_failure_renders_the_alert
    (st : State) (p : Cycle) (w : Widget) (error : CubeApi.AxiosError)
    (Hpending : pending st = Some p)
    (Hout : value_of (fulfilled p) w = None) :
  render (fetch_settled rt (id p) w (CubeApi.RejectedAxios error) st)
  = ErrorAlert (error_message (CubeApi.axios_error_thrown error)).
Proof.
  unfold fetch_settled. rewrite Hpending, Nat.eqb_refl, Hout. simpl.
  unfold render, catch_error. simpl.
  fold (error_message (CubeApi.axios_error_thrown error)).
  pose proof (axios_message_not_empty error) as Hne.
  apply String.eqb_neq in Hne. unfold Js.truthy_string. now rewrite Hne.
Qed.

End RefreshInvariants.

(** X3 at a client constructed from an empty environment: three events,
    no request. *)
Lemma unconfigured_dashboard_sends_nothing_witness :
  snd (Dashboard.run example_runtime (CubeApi.constructor None None)
         [Dashboard.Mounted; Dashboard.FiltersChange filters_A; Dashboard.RefreshClick]
         Dashboard.initial)
  = [].
Proof.
  apply (unconfigured_dashboard_sends_nothing example_runtime (CubeApi.constructor None None)
           [Dashboard.Mounted; Dashboard.FiltersChange filters_A; Dashboard.RefreshClick]
           Dashboard.initial eq_refl).
Defined.

(** X5 at the refresh started at mount, whose first fetch times out. *)
Lemma axios_failure_renders_the_alert_witness :
  let mounted :=
    fst (Dashboard.step example_runtime example_api Dashboard.Mounted Dashboard.initial) in
  let timeout :=
    {| CubeApi.message := "timeout of 10000ms exceeded"; CubeApi.response := None |} in
  Dashboard.render
    (Dashboard.fetch_settled example_runtime 0 Dashboard.SalesOverTime
       (CubeApi.RejectedAxios timeout) mounted)
  = Dashboard.ErrorAlert "API Error: timeout of 10000ms exceeded".
Proof.
  apply (axios_failure_renders_the_alert example_runtime
           (fst (Dashboard.step example_runtime example_api Dashboard.Mounted Dashboard.initial))
           {| Dashboard.id := 0; Dashboard.fulfilled := [] |}
           Dashboard.SalesOverTime
           {| CubeApi.message := "timeout of 10000ms exceeded"; CubeApi.response := None |}
           eq_refl eq_refl).
Defined.

(** X13 at work: the refresh started at mount
    fails, a second one is started by the Refresh button, and a late answer
    to the first changes nothing. *)
Lemma failed_refresh_is_never_applied_witness :
  let mounted :=
    fst (Dashboard.step example_runtime example_api Dashboard.Mounted Dashboard.initial) in
  let timeout :=
    CubeApi.RejectedAxios
      {| CubeApi.message := "timeout of 10000ms exceeded"; CubeApi.response := None |} in
  let later :=
    fst (Dashboard.run example_runtime example_api [Dashboard.RefreshClick]
           (Dashboard.fetch_settled example_runtime 0 Dashboard.SalesOverTime timeout mounted)) in
  Dashboard.pending later = Some {| Dashboard.id := 1; Dashboard.fulfilled := [] |}
  /\ Dashboard.fetch_settled example_runtime 0 Dashboard.SalesByRegion
       (CubeApi.Fulfilled 200 (example_body Dashboard.SalesByRegion)) later
     = later.
Proof.
  split; [reflexivity|].
  apply (failed_refresh_is_never_applied example_runtime example_api
           (fst (Dashboard.step example_runtime example_api Dashboard.Mounted Dashboard.initial))
           {| Dashboard.id := 0; Dashboard.fulfilled := [] |}
           Dashboard.SalesOverTime
           (CubeApi.RejectedAxios
              {| CubeApi.message := "timeout of 10000ms exceeded"; CubeApi.response := None |})
           (CubeApi.ErrorObject "API Error: timeout of 10000ms exceeded")
           [Dashboard.RefreshClick]
           Dashboard.SalesByRegion
           (CubeApi.Fulfilled 200 (example_body Dashboard.SalesByRegion))).
  - split; [reflexivity|apply Nat.lt_0_succ].
  - reflexivity.
  - reflexivity.
  - reflexivity.
Defined.

(** ** Strings *)

Section StringFacts.

Lemma string_app_assoc (a b c : string) : (a ++ b) ++ c = a ++ (b ++ c).
Proof. induction a as [|x a IH]; simpl; [reflexivity|now rewrite IH]. Qed.

Lemma string_app_nil_r (a : string) : a ++ "" = a.
Proof. induction a as [|x a IH]; simpl; [reflexivity|now rewrite IH]. Qed.

Lemma string_app_inv_head (p a b : string) : p ++ a = p ++ b -> a = b.
Proof.
  induction p as [|x p IH]; simpl; intros H; [exact H|].
  injection H as H. now apply IH.
Qed.

End StringFacts.

(** ** The totals by region *)

Section RegionTotals.

Import Cube Dashboard.

Variable rt : Runtime.

Lemma own_put_same (o : JsObject.t) (k : string) (v : JsValue) :
  JsObject.own (JsObject.put o k v) k = Some v.
Proof.
  induction o as [|[k0 v0] o IH]; simpl.
  - now rewrite String.eqb_refl.
  - destruct (String.eqb_spec k0 k) as [->|Hne]; simpl.
    + now rewrite String.eqb_refl.
    + apply String.eqb_neq in Hne. now rewrite Hne.
Qed.

Lemma own_put_other (o : JsObject.t) (k k' : string) (v : JsValue) :
  k <> k' -> JsObject.own (JsObject.put o k v) k' = JsObject.own o k'.
Proof.
  intros Hne. induction o as [|[k0 v0] o IH]; simpl.
  - apply String.eqb_neq in Hne. now rewrite Hne.
  - destruct (String.eqb_spec k0 k) as [->|Hne0]; simpl.
    + apply String.eqb_neq in Hne. now rewrite Hne.
    + now rewrite IH.
Qed.

Lemma own_set_same (o : JsObject.t) (k : string) (v : JsValue) :
  k <> "__proto__" -> JsObject.own (JsObject.set o k v) k = Some v.
Proof.
  intros Hne. unfold JsObject.set. apply String.eqb_neq in Hne. rewrite Hne.
  apply own_put_same.
Qed.

Lemma own_set_other (o : JsObject.t) (k k' : string) (v : JsValue) :
  k <> k' -> JsObject.own (JsObject.set o k v) k' = JsObject.own o k'.
Proof.
  intros Hne. unfold JsObject.set.
  destruct (k =? "__proto__"); [reflexivity|now apply own_put_other].
Qed.

Lemma inherited_false (k : string) :
  inherited k = false -> k <> "__proto__" /\ JsObject.is_method k = false.
Proof.
  unfold inherited. intros H. apply orb_false_iff in H as [Hp Hm].
  split; [now apply String.eqb_neq|exact Hm].
Qed.

Lemma is_method_not_proto (k : string) : JsObject.is_method k = true -> k <> "__proto__".
Proof. intros H ->. discriminate H. Qed.

(** One turn of the [forEach], seen from a key that Object.prototype does
    not answer for and whose property, if any, holds a number. *)
Lemma add_region_own (o : JsObject.t) (row : CubeDataRow) (k : string)
    (total : option float) :
  inherited k = false ->
  JsObject.own o k = option_map VNumber total ->
  JsObject.own (add_region rt o row) k
  = option_map VNumber
      (if region_label rt row =? k
       then Some (add_amount total (region_amount rt row))
       else total).
Proof.
  intros Hk Hown. destruct (inherited_false k Hk) as [Hproto Hmethod].
  unfold add_region. fold (region_label rt row). fold (region_amount rt row). cbv zeta.
  destruct (String.eqb_spec (region_label rt row) k) as [->|Hne].
  - unfold JsObject.get. rewrite Hown.
    apply String.eqb_neq in Hproto.
    destruct total as [t|]; simpl.
    + destruct (Js.truthy_number t); simpl; apply own_set_same;
        now apply String.eqb_neq.
    + rewrite Hproto, Hmethod. simpl. apply own_set_same. now apply String.eqb_neq.
  - destruct (JsObject.truthy (JsObject.get o (region_label rt row)));
      now rewrite own_set_other.
Qed.

Lemma regionTotals_own (rows : list CubeDataRow) (k : string) :
  inherited k = false ->
  forall (o : JsObject.t) (total : option float),
    JsObject.own o k = option_map VNumber total ->
    JsObject.own (fold_left (add_region rt) rows o) k
    = option_map VNumber (running_total rt k rows total).
Proof.
  intros Hk. induction rows as [|row rows IH]; intros o total Hown; simpl; [exact Hown|].
  apply IH. now apply add_region_own.
Qed.

(** The same turn, seen from the name of a function of Object.prototype:
    the property, once written, holds a string that starts with the source
    text of that function. *)
Lemma add_region_method (o : JsObject.t) (row : CubeDataRow) (k : string) :
  JsObject.is_method k = true ->
  Function_toString rt k <> "" ->
  (JsObject.own o k = None
   \/ exists s, JsObject.own o k = Some (VString (Function_toString rt k ++ s))) ->
  JsObject.own (add_region rt o row) k = None
  \/ exists s, JsObject.own (add_region rt o row) k
               = Some (VString (Function_toString rt k ++ s)).
Proof.
  intros Hm Hf Hown. pose proof (is_method_not_proto k Hm) as Hproto.
  unfold add_region. fold (region_label rt row). fold (region_amount rt row). cbv zeta.
  destruct (String.eqb_spec (region_label rt row) k) as [->|Hne].
  - right. unfold JsObject.get.
    destruct Hown as [Hown|[s Hown]]; rewrite Hown.
    + apply String.eqb_neq in Hproto. rewrite Hproto, Hm. simpl.
      rewrite own_set_same by now apply String.eqb_neq. now eexists.
    + assert (Ht : Js.truthy_string (Function_toString rt k ++ s) = true).
      { unfold Js.truthy_string. destruct (Function_toString rt k); [now elim Hf|reflexivity]. }
      simpl. rewrite Ht. simpl. rewrite own_set_same by exact Hproto.
      exists (s ++ Number_toString rt (region_amount rt row)).
      now rewrite string_app_assoc.
  - destruct (JsObject.truthy (JsObject.get o (region_label rt row)));
      now rewrite own_set_other.
Qed.

Lemma regionTotals_method (rows : list CubeDataRow) (k : string) :
  JsObject.is_method k = true ->
  Function_toString rt k <> "" ->
  forall o : JsObject.t,
    (JsObject.own o k = None
     \/ exists s, JsObject.own o k = Some (VString (Function_toString rt k ++ s))) ->
    JsObject.own (fold_left (add_region rt) rows o) k = None
    \/ exists s, JsObject.own (fold_left (add_region rt) rows o) k
                 = Some (VString (Function_toString rt k ++ s)).
Proof.
  intros Hm Hf. induction rows as [|row rows IH]; intros o Hown; simpl; [exact Hown|].
  apply IH. now apply add_region_method.
Qed.

Lemma insert_index_perm (e : Z * (string * JsValue)) (l : list (Z * (string * JsValue))) :
  Permutation (JsObject.insert_index e l) (e :: l).
Proof.
  induction l as [|e' l IH]; simpl; [reflexivity|].
  destruct (fst e <=? fst e')%Z; [reflexivity|].
  rewrite IH. apply perm_swap.
Qed.

(** Listing an object's properties reorders them and loses none. *)
Lemma own_entries_perm (o : JsObject.t) : Permutation (JsObject.own_entries o) o.
Proof.
  unfold JsObject.own_entries.
  induction o as [|e o IH]; simpl; [reflexivity|].
  unfold JsObject.is_name at 1.
  destruct (JsObject.array_index (fst e)) as [i|]; simpl.
  - rewrite (Permutation_map snd (insert_index_perm (i, e) (JsObject.index_entries o))).
    simpl. now rewrite IH.
  - rewrite <- Permutation_middle. now rewrite IH.
Qed.

Lemma own_of_entry (o : JsObject.t) (k : string) (v : JsValue) :
  NoDup (map fst o) -> In (k, v) o -> JsObject.own o k = Some v.
Proof.
  induction o as [|[k0 v0] o IH]; simpl; intros Hnd Hin; [contradiction|].
  inversion Hnd as [|? ? Hnotin Hnd']; subst.
  destruct Hin as [Heq|Hin].
  - injection Heq as -> ->. now rewrite String.eqb_refl.
  - destruct (String.eqb_spec k0 k) as [->|Hne]; [|now apply IH].
    elim Hnotin. apply (in_map fst) in Hin. exact Hin.
Qed.

Lemma VString_injective (a b : string) : VString a = VString b -> a = b.
Proof. now intros [= ->]. Qed.

Lemma NoDup_map_VString (l : list string) : NoDup l -> NoDup (map VString l).
Proof.
  induction 1 as [|k l Hnotin Hnd IH]; simpl; constructor; [|exact IH].
  rewrite in_map_iff. intros (k' & Heq & Hin).
  apply VString_injective in Heq. now subst k'.
Qed.

Lemma combine_keys_values (l : list (string * JsValue)) :
  combine (map VString (map fst l)) (map snd l)
  = map (fun e => (VString (fst e), snd e)) l.
Proof. induction l as [|e l IH]; simpl; [reflexivity|now rewrite IH]. Qed.

(** X6. The chart by region has every region label of the rows exactly
    once, except a label [__proto__], which it never has. Against a label
    that names no member of Object.prototype stands the running total of
    that label's amounts in row order, where a running total of 0 or NaN is
    replaced by the next amount instead of being added to; against a label
    that names a function of Object.prototype stands a string that starts
    with the source text of that function. *)
Theorem by_region_totals (response : CubeQueryResponse) :
  let chart := processSalesByRegionData rt response in
  NoDup (labels chart)
  /\ (forall k, In (VString k) (labels chart)
                <-> In k (map (region_label rt) (rows_of response)) /\ k <> "__proto__")
  /\ (forall ds k v,
        In ds (datasets chart) ->
        In (VString k, v) (combine (labels chart) (series ds)) ->
        (inherited k = false ->
         exists total,
           v = VNumber total
           /\ running_total rt k (rows_of response) None = Some total)
        /\ (JsObject.is_method k = true ->
            Function_toString rt k <> "" ->
            exists s, v = VString (Function_toString rt k ++ s))).
Proof.
  unfold processSalesByRegionData.
  destruct (no_rows response) eqn:E; cbn zeta.
  - rewrite (no_rows_true _ E). simpl.
    split; [constructor|]. split; [tauto|].
    intros ds k v [<-|[]] [].
  - set (o := fold_left (add_region rt) (rows_of response) []).
    assert (Hnd : NoDup (map fst o)).
    { apply regionTotals_NoDup. constructor. }
    assert (Hperm : Permutation (JsObject.keys o) (map fst o)).
    { unfold JsObject.keys. apply Permutation_map, own_entries_perm. }
    assert (Hkeys : forall k, In k (region_keys rt (rows_of response))
                              <-> In k (map (region_label rt) (rows_of response))
                                  /\ k <> "__proto__").
    { intros k. unfold region_keys. rewrite filter_In, negb_true_iff, String.eqb_neq.
      tauto. }
    cbn [labels datasets].
    split; [|split].
    + apply NoDup_map_VString.
      apply (Permutation_NoDup (Permutation_sym Hperm) Hnd).
    + intros k. rewrite <- Hkeys, in_map_iff. split.
      * intros (k' & Heq & Hin). apply VString_injective in Heq. subst k'.
        apply (Permutation_in _ Hperm) in Hin.
        unfold o in Hin. rewrite regionTotals_In in Hin. simpl in Hin. tauto.
      * intros Hin. exists k. split; [reflexivity|].
        apply (Permutation_in _ (Permutation_sym Hperm)).
        unfold o. rewrite regionTotals_In. now right.
    + intros ds k v [<-|[]]. cbn [series].
      unfold JsObject.keys, JsObject.values.
      rewrite combine_keys_values, in_map_iff.
      intros ([k' v'] & Heq & Hin). simpl in Heq. injection Heq as -> ->.
      apply (Permutation_in _ (own_entries_perm o)) in Hin.
      pose proof (own_of_entry o k v Hnd Hin) as Hown.
      split.
      * intros Hk. unfold o in Hown.
        rewrite (regionTotals_own (rows_of response) k Hk [] None eq_refl) in Hown.
        destruct (running_total rt k (rows_of response) None) as [total|];
          [|discriminate].
        injection Hown as <-. now exists total.
      * intros Hm Hf. unfold o in Hown.
        destruct (regionTotals_method (rows_of response) k Hm Hf [] (or_introl eq_refl))
          as [Hnone|[s Hs]]; [congruence|].
        rewrite Hs in Hown. injection Hown as <-. now exists s.
Qed.

End RegionTotals.

(** ** Change detection in the filter bar *)

Section SerializationFacts.

Import Cube FilterBar.

Lemma unescape_escape (c : ascii) (x : string) :
  unescape_head (escape_char c ++ x) = Some (c, x).
Proof. destruct c as [[] [] [] [] [] [] [] []]; reflexivity. Qed.

Lemma unescape_dquote (x : string) : unescape_head (dquote ++ x) = None.
Proof. reflexivity. Qed.

(** An escaped string followed by its closing quote can be read back in one
    way only. *)
Lemma escape_inj (s1 : string) :
  forall (s2 x y : string),
    escape s1 ++ dquote ++ x = escape s2 ++ dquote ++ y -> s1 = s2 /\ x = y.
Proof.
  induction s1 as [|c1 s1 IH]; intros [|c2 s2] x y H; cbn [escape] in H.
  - split; [reflexivity|]. now apply (string_app_inv_head dquote).
  - rewrite string_app_assoc in H. apply (f_equal unescape_head) in H.
    change ("" ++ dquote ++ x) with (dquote ++ x) in H.
    rewrite unescape_dquote, unescape_escape in H. discriminate.
  - rewrite string_app_assoc in H. apply (f_equal unescape_head) in H.
    change ("" ++ dquote ++ y) with (dquote ++ y) in H.
    rewrite unescape_dquote, unescape_escape in H. discriminate.
  - rewrite !string_app_assoc in H. apply (f_equal unescape_head) in H.
    rewrite !unescape_escape in H. injection H as -> H.
    destruct (IH s2 x y H) as [-> ->]. now split.
Qed.

Lemma quote_app (s x : string) : quote s ++ x = dquote ++ (escape s ++ (dquote ++ x)).
Proof. unfold quote. now rewrite !string_app_assoc. Qed.

Lemma quote_inj (s1 s2 x y : string) :
  quote s1 ++ x = quote s2 ++ y -> s1 = s2 /\ x = y.
Proof.
  rewrite !quote_app. intros H.
  apply string_app_inv_head in H. now apply escape_inj.
Qed.

Lemma quote_head (s x y : string) : quote s ++ x <> "]" ++ y.
Proof. rewrite quote_app. discriminate. Qed.

Section Arrays.

Variable A : Type.
Variable enc : A -> string.
Hypothesis enc_inj : forall a b x y, enc a ++ x = enc b ++ y -> a = b /\ x = y.
Hypothesis enc_head : forall a x y, enc a ++ x <> "]" ++ y.

Lemma join_cons (a : A) (l : list A) (x : string) :
  join (map enc (a :: l)) ++ x
  = enc a ++ match l with
             | [] => x
             | _ :: _ => "," ++ (join (map enc l) ++ x)
             end.
Proof.
  destruct l as [|b l]; [reflexivity|].
  cbn [map join]. now rewrite !string_app_assoc.
Qed.

Lemma join_inj (l1 : list A) :
  forall (l2 : list A) (x y : string),
    l1 <> [] -> l2 <> [] ->
    join (map enc l1) ++ "]" ++ x = join (map enc l2) ++ "]" ++ y ->
    l1 = l2 /\ x = y.
Proof.
  induction l1 as [|a l1 IH]; intros [|b l2] x y H1 H2 H; try congruence.
  rewrite !join_cons in H. apply enc_inj in H as [-> H].
  destruct l1 as [|a1 l1], l2 as [|b1 l2].
  - injection H as ->. now split.
  - discriminate H.
  - discriminate H.
  - injection H as H.
    destruct (IH (b1 :: l2) x y) as [Heq ->]; try discriminate; [exact H|].
    now rewrite Heq.
Qed.

Lemma stringify_array_inj (l1 l2 : list A) (x y : string) :
  stringify_array (map enc l1) ++ x = stringify_array (map enc l2) ++ y ->
  l1 = l2 /\ x = y.
Proof.
  unfold stringify_array. rewrite !string_app_assoc. intros H.
  apply (string_app_inv_head "[") in H.
  destruct l1 as [|a l1], l2 as [|b l2].
  - cbn in H. injection H as ->. now split.
  - exfalso. rewrite join_cons in H. symmetry in H.
    now apply enc_head in H.
  - exfalso. rewrite join_cons in H. now apply enc_head in H.
  - apply join_inj; try discriminate. exact H.
Qed.

End Arrays.

Lemma stringify_filter_app (f : CubeFilter) (x : string) :
  stringify_filter f ++ x
  = ("{" ++ quote "member" ++ ":")
      ++ (quote (member f)
            ++ (("," ++ quote "operator" ++ ":")
                  ++ (quote (operator f)
                        ++ (("," ++ quote "values" ++ ":")
                              ++ (stringify_array (map quote (values f)) ++ ("}" ++ x)))))).
Proof. unfold stringify_filter. now rewrite !string_app_assoc. Qed.

Lemma stringify_filter_inj (f1 f2 : CubeFilter) (x y : string) :
  stringify_filter f1 ++ x = stringify_filter f2 ++ y -> f1 = f2 /\ x = y.
Proof.
  rewrite !stringify_filter_app. intros H.
  apply string_app_inv_head in H. apply quote_inj in H as [Hm H].
  apply string_app_inv_head in H. apply quote_inj in H as [Ho H].
  apply string_app_inv_head in H.
  apply (stringify_array_inj string quote quote_inj quote_head) in H as [Hv H].
  apply (string_app_inv_head "}") in H.
  split; [|exact H].
  destruct f1, f2. simpl in *. congruence.
Qed.

Lemma stringify_filter_head (f : CubeFilter) (x y : string) :
  stringify_filter f ++ x <> "]" ++ y.
Proof. rewrite stringify_filter_app. discriminate. Qed.

(** Two filter lists with the same serialization are the same list. *)
Lemma JSON_stringify_inj (l1 l2 : list CubeFilter) :
  JSON_stringify l1 = JSON_stringify l2 -> l1 = l2.
Proof.
  unfold JSON_stringify. intros H.
  apply (stringify_array_inj CubeFilter stringify_filter
           stringify_filter_inj stringify_filter_head l1 l2 "" "").
  now rewrite !string_app_nil_r.
Qed.

End SerializationFacts.

Section ChangeDetection.

Import Cube FilterBar.

Lemma JSON_stringify_eqb (l1 l2 : list CubeFilter) :
  (JSON_stringify l1 =? JSON_stringify l2) = true <-> l1 = l2.
Proof.
  rewrite String.eqb_eq. split; [apply JSON_stringify_inj|now intros ->].
Qed.

Lemma updateFilters_compares (st : State) :
  snd (updateFilters st) = None
  <-> (JSON_stringify (build_filters (selectedRegions st) (selectedSegments st))
       =? prevFiltersRef st) = true.
Proof.
  unfold updateFilters. cbv zeta.
  destruct (JSON_stringify (build_filters (selectedRegions st) (selectedSegments st))
            =? prevFiltersRef st); simpl.
  - split; reflexivity.
  - split; discriminate.
Qed.

(** X7. Change detection by serialization is exact: when the ref holds the
    serialization of the filter list last built, [updateFilters] stays
    silent if and only if the list it builds now equals that list; quoting
    and escaping make [JSON.stringify] one to one on filter lists. *)
Theorem change_detection_is_exact (st : State) (last : list CubeFilter)
    (Hlast : prevFiltersRef st = JSON_stringify last) :
  snd (updateFilters st) = None
  <-> build_filters (selectedRegions st) (selectedSegments st) = last.
Proof.
  rewrite (updateFilters_compares st). rewrite Hlast. apply JSON_stringify_eqb.
Qed.

(** X8. Of two successive selections the second is notified if and only if
    it differs from the first, in the regions or in the segments: a
    selection that is repeated is never notified, and no change of
    selection goes unnoticed. *)
Theorem selection_change_is_notified
    (fb : State) (regions segments regions' segments' : list string) :
  let fb1 := fst (updateFilters (select regions segments fb)) in
  snd (updateFilters (select regions' segments' fb1)) = None
  <-> regions' = regions /\ segments' = segments.
Proof.
  intros fb1.
  assert (Href : prevFiltersRef (select regions' segments' fb1)
                 = JSON_stringify (build_filters regions segments)).
  { apply (updateFilters_ref (select regions segments fb)). }
  rewrite updateFilters_compares, Href, JSON_stringify_eqb. simpl.
  split.
  - apply build_filters_inj.
  - now intros [-> ->].
Qed.

Lemma selection_of_clean (value : SelectValue) : ~ In "" (selection_of value).
Proof.
  unfold selection_of.
  destruct (existsb (String.eqb "") (new_value value)) eqn:E; [intros []|].
  intros Hin.
  assert (Hex : existsb (String.eqb "") (new_value value) = true).
  { apply existsb_exists. exists "". split; [exact Hin|reflexivity]. }
  congruence.
Qed.

Lemma build_filters_selective (r s : list string) :
  ~ In "" r -> ~ In "" s -> Forall selective (build_filters r s).
Proof.
  intros Hr Hs. unfold build_filters.
  apply Forall_app. split.
  - destruct r as [|a r]; simpl; [constructor|].
    constructor; [|constructor]. unfold selective. cbn [member operator values].
    split; [now left|]. split; [reflexivity|]. split; [discriminate|exact Hr].
  - destruct s as [|b s]; simpl; [constructor|].
    constructor; [|constructor]. unfold selective. cbn [member operator values].
    split; [now right|]. split; [reflexivity|]. split; [discriminate|exact Hs].
Qed.

Lemma updateFilters_content (st : State) (f : list CubeFilter) :
  snd (updateFilters st) = Some f ->
  f = build_filters (selectedRegions st) (selectedSegments st).
Proof.
  unfold updateFilters. destruct (negb _); simpl; intros H; [|discriminate].
  now injection H as <-.
Qed.

Lemma change_clean (c : Change) (fb : State) :
  ~ In "" (selectedRegions fb) -> ~ In "" (selectedSegments fb) ->
  (~ In "" (selectedRegions (fst (change c fb)))
   /\ ~ In "" (selectedSegments (fst (change c fb))))
  /\ (forall f, snd (change c fb) = Some f -> Forall selective f).
Proof.
  intros Hr Hs.
  destruct c as [value|value]; simpl; unfold handleRegionChange, handleSegmentChange.
  - split.
    + destruct (updateFilters_selection
                  {| selectedRegions := selection_of value;
                     selectedSegments := selectedSegments fb;
                     prevFiltersRef := prevFiltersRef fb |}) as [-> ->].
      simpl. split; [apply selection_of_clean|exact Hs].
    + intros f Hf. apply updateFilters_content in Hf. subst f. simpl.
      apply build_filters_selective; [apply selection_of_clean|exact Hs].
  - split.
    + destruct (updateFilters_selection
                  {| selectedRegions := selectedRegions fb;
                     selectedSegments := selection_of value;
                     prevFiltersRef := prevFiltersRef fb |}) as [-> ->].
      simpl. split; [exact Hr|apply selection_of_clean].
    + intros f Hf. apply updateFilters_content in Hf. subst f. simpl.
      apply build_filters_selective; [exact Hr|apply selection_of_clean].
Qed.

(** X9. Whatever the changes of the two selects, every filter the bar
    notifies is on the region or on the segment, has the operator
    [equals], and has at least one value, none of them the empty string:
    an event that includes "All" clears the selection, and an empty
    selection gives no filter at all. *)
Theorem notified_filters_are_selective (cs : list Change) :
  Forall (Forall selective) (changes initial cs).
Proof.
  assert (H : forall fb, ~ In "" (selectedRegions fb) -> ~ In "" (selectedSegments fb) ->
                         Forall (Forall selective) (changes fb cs)).
  { induction cs as [|c cs IH]; intros fb Hr Hs; cbn [changes]; [constructor|].
    destruct (change_clean c fb Hr Hs) as [[Hr1 Hs1] Hf].
    destruct (change c fb) as [fb1 [f|]]; cbn [fst snd] in *.
    - constructor; [now apply Hf|now apply IH].
    - now apply IH. }
  apply H; intros [].
Qed.

End ChangeDetection.

(** X7 at the state after "AMERICA" was selected and notified, with the
    same selection made again. *)
Lemma change_detection_is_exact_witness :
  let st := fst (FilterBar.updateFilters (select ["AMERICA"] [] FilterBar.initial)) in
  snd (FilterBar.updateFilters st) = None.
Proof.
  apply (change_detection_is_exact
           (fst (FilterBar.updateFilters (select ["AMERICA"] [] FilterBar.initial)))
           filters_A).
  - reflexivity.
  - reflexivity.
Defined.

(** ** The options of the filter bar *)

Section FilterOptionsFacts.

Import Cube JsLib FilterOptions.

Variable rt : Runtime.
Variable before : string -> string -> bool.

Lemma same_value_zero_refl (v : JsValue) : same_value_zero v v = true.
Proof.
  destruct v as [s|x| |]; simpl; try reflexivity.
  - apply String.eqb_refl.
  - unfold PrimFloat.is_nan. now destruct (PrimFloat.eqb x x).
Qed.

Lemma unique_In (l : list JsValue) :
  forall seen v, In v (unique l seen) -> In v l.
Proof.
  induction l as [|a l IH]; intros seen v; simpl; [tauto|].
  destruct (existsb (same_value_zero a) seen).
  - intros H. right. now apply (IH seen).
  - intros [->|H]; [now left|]. right. now apply (IH (a :: seen)).
Qed.

Lemma unique_fresh (l : list JsValue) :
  forall seen v, In v (unique l seen) -> existsb (same_value_zero v) seen = false.
Proof.
  induction l as [|a l IH]; intros seen v; simpl; [tauto|].
  destruct (existsb (same_value_zero a) seen) eqn:E.
  - apply IH.
  - intros [<-|H]; [exact E|].
    specialize (IH (a :: seen) v H). simpl in IH.
    now apply orb_false_iff in IH.
Qed.

Lemma unique_NoDup (l : list JsValue) : forall seen, NoDup (unique l seen).
Proof.
  induction l as [|a l IH]; intros seen; simpl; [constructor|].
  destruct (existsb (same_value_zero a) seen); [apply IH|].
  constructor; [|apply IH].
  intros Hin. apply unique_fresh in Hin. simpl in Hin.
  now rewrite same_value_zero_refl in Hin.
Qed.

Lemma unique_complete (l : list JsValue) :
  forall seen v, In v l ->
    (exists u, In u seen /\ same_value_zero v u = true)
    \/ (exists u, In u (unique l seen) /\ same_value_zero v u = true).
Proof.
  induction l as [|a l IH]; intros seen v; simpl; [tauto|].
  destruct (existsb (same_value_zero a) seen) eqn:E; intros [->|Hin].
  - left. apply existsb_exists in E. exact E.
  - now apply IH.
  - right. exists v. split; [now left|apply same_value_zero_refl].
  - destruct (IH (a :: seen) v Hin) as [(u & [<-|Hu] & Hs)|(u & Hu & Hs)].
    + right. exists a. split; [now left|exact Hs].
    + left. now exists u.
    + right. exists u. split; [now right|exact Hs].
Qed.

Lemma insert_perm (v : JsValue) (l : list JsValue) :
  Permutation (insert rt before v l) (v :: l).
Proof.
  induction l as [|y l IH]; simpl; [reflexivity|].
  destruct (sorts_before rt before y v); [|reflexivity].
  rewrite IH. apply perm_swap.
Qed.

Lemma sort_perm (l : list JsValue) : Permutation (sort rt before l) l.
Proof.
  induction l as [|v l IH]; simpl; [reflexivity|].
  rewrite insert_perm. now rewrite IH.
Qed.

Lemma options_perm (values : list JsValue) :
  Permutation (options rt before values) (unique values []).
Proof. apply sort_perm. Qed.

Lemma column_rows (key : string) (response : CubeQueryResponse)
    (rows : list CubeDataRow) :
  data response = Some rows ->
  column key response = Some (filter truthy (map (fun row => row_get row key) rows)).
Proof. unfold column. now intros ->. Qed.

Lemma options_of_column (key : string) (rows : list CubeDataRow) :
  options_of key rows
    (options rt before (filter truthy (map (fun row => row_get row key) rows))).
Proof.
  set (values := filter truthy (map (fun row => row_get row key) rows)).
  pose proof (options_perm values) as Hperm.
  split; [|split].
  - apply (Permutation_NoDup (Permutation_sym Hperm)), unique_NoDup.
  - intros v Hin. apply (Permutation_in _ Hperm) in Hin.
    apply unique_In in Hin. unfold values in Hin.
    apply filter_In in Hin as [Hin Ht]. split; [exact Ht|].
    apply in_map_iff in Hin as (row & Heq & Hrow). now exists row.
  - intros row Hrow Ht.
    assert (Hin : In (row_get row key) values).
    { unfold values. apply filter_In. split; [|exact Ht].
      apply in_map_iff. now exists row. }
    destruct (unique_complete values [] _ Hin) as [(u & [] & _)|(u & Hu & Hs)].
    exists u. split; [|exact Hs].
    now apply (Permutation_in _ (Permutation_sym Hperm)).
Qed.

(** X10. When both queries are answered with rows, each list of options
    holds no value twice, holds only truthy fields of the rows, and holds
    every truthy field of the rows; in particular no option is the empty
    string, the value that stands for "All", and [loading] is turned off. *)
Theorem loaded_options_are_clean
    (r s : CubeQueryResponse) (regionRows segmentRows : list CubeDataRow) (st : State)
    (Hr : data r = Some regionRows) (Hs : data s = Some segmentRows) :
  let st' := loaded rt before (CubeApi.Return r) (CubeApi.Return s) st in
  options_of "sales.region" regionRows (availableRegions st')
  /\ options_of "customer_behavior.customers_segment" segmentRows (availableSegments st')
  /\ ~ In (VString "") (availableRegions st')
  /\ ~ In (VString "") (availableSegments st')
  /\ loading st' = false.
Proof.
  unfold loaded.
  rewrite (column_rows _ r _ Hr), (column_rows _ s _ Hs). cbn zeta.
  cbn [availableRegions availableSegments loading].
  pose proof (options_of_column "sales.region" regionRows) as H1.
  pose proof (options_of_column "customer_behavior.customers_segment" segmentRows) as H2.
  split; [exact H1|]. split; [exact H2|].
  split; [|split; [|reflexivity]].
  - intros Hin. destruct H1 as (_ & Hsound & _).
    destruct (Hsound _ Hin) as [Ht _]. discriminate Ht.
  - intros Hin. destruct H2 as (_ & Hsound & _).
    destruct (Hsound _ Hin) as [Ht _]. discriminate Ht.
Qed.

(** X11. The options are loaded as a whole or not at all: when either
    query throws, or either answer has no [data] array, both lists stay as
    they were, and [loading] is turned off all the same. *)
Theorem failed_options_load_changes_nothing
    (regionsResponse segmentsResponse : CubeApi.Completion CubeQueryResponse) (st : State)
    (Hfail : (exists e, regionsResponse = CubeApi.Throw e)
             \/ (exists e, segmentsResponse = CubeApi.Throw e)
             \/ (exists r, regionsResponse = CubeApi.Return r /\ data r = None)
             \/ (exists s, segmentsResponse = CubeApi.Return s /\ data s = None)) :
  let st' := loaded rt before regionsResponse segmentsResponse st in
  availableRegions st' = availableRegions st
  /\ availableSegments st' = availableSegments st
  /\ loading st' = false.
Proof.
  unfold loaded, column.
  destruct Hfail as [[e ->]|[[e ->]|[(r & -> & Hr)|(s & -> & Hs)]]].
  - repeat split.
  - destruct regionsResponse; repeat split.
  - rewrite Hr. destruct segmentsResponse; repeat split.
  - rewrite Hs. destruct regionsResponse as [r|e]; [|repeat split].
    destruct (data r); repeat split.
Qed.

Lemma sorts_before_asym :
  (forall a b, before a b = true -> before b a = false) ->
  forall a b, sorts_before rt before a b = true -> sorts_before rt before b a = false.
Proof.
  intros Hasym a b. unfold sorts_before.
  destruct a, b; try discriminate; try reflexivity; apply Hasym.
Qed.

Lemma insert_in_order (v : JsValue) (l : list JsValue) :
  (forall a b, before a b = true -> before b a = false) ->
  in_order rt before l -> in_order rt before (insert rt before v l).
Proof.
  intros Hasym. unfold in_order.
  induction l as [|y l IH]; intros Hs; simpl.
  - repeat constructor.
  - destruct (sorts_before rt before y v) eqn:E.
    + inversion Hs as [|? ? Hs' Hhd]; subst.
      constructor; [now apply IH|].
      destruct l as [|z l]; simpl.
      * constructor. now apply sorts_before_asym.
      * destruct (sorts_before rt before z v).
        -- constructor. now inversion Hhd.
        -- constructor. now apply sorts_before_asym.
    + constructor; [exact Hs|]. now constructor.
Qed.

(** X12. The options come in sorted order: as long as the order of strings
    is not contradictory (of two strings at most one sorts before the
    other), no option sorts before the option in front of it. *)
Theorem options_are_in_order (values : list JsValue)
    (Hasym : forall a b, before a b = true -> before b a = false) :
  in_order rt before (options rt before values).
Proof.
  unfold options. induction (unique values []) as [|v l IH]; simpl.
  - constructor.
  - now apply insert_in_order.
Qed.

End FilterOptionsFacts.

Lemma bytes_before_asym (a : string) :
  forall b, bytes_before a b = true -> bytes_before b a = false.
Proof.
  induction a as [|x a IH]; intros [|y b]; simpl; try discriminate; try reflexivity.
  rewrite (N.compare_antisym (Js.code x) (Js.code y)).
  destruct (Js.code x ?= Js.code y)%N; simpl; try discriminate; try reflexivity.
  apply IH.
Qed.

(** X10 at two answers: regions with a repetition, an empty string and a
    null; segments in reverse order. *)
Lemma loaded_options_are_clean_witness :
  let regions :=
    example_response
      [ [("sales.region", VString "EUROPE")]; [("sales.region", VString "AMERICA")];
        [("sales.region", VString "")]; [("sales.region", VNull)];
        [("sales.region", VString "EUROPE")] ] in
  let segments :=
    example_response
      [ [("customer_behavior.customers_segment", VString "MACHINERY")];
        [("customer_behavior.customers_segment", VString "BUILDING")] ] in
  let st' :=
    FilterOptions.loaded example_runtime bytes_before
      (CubeApi.Return regions) (CubeApi.Return segments) FilterOptions.initial in
  ~ In (VString "") (FilterOptions.availableRegions st')
  /\ FilterOptions.availableRegions st' = [VString "AMERICA"; VString "EUROPE"]
  /\ FilterOptions.availableSegments st' = [VString "BUILDING"; VString "MACHINERY"].
Proof.
  split; [|split; reflexivity].
  apply (loaded_options_are_clean example_runtime bytes_before
           (example_response
              [ [("sales.region", VString "EUROPE")]; [("sales.region", VString "AMERICA")];
                [("sales.region", VString "")]; [("sales.region", VNull)];
                [("sales.region", VString "EUROPE")] ])
           (example_response
              [ [("customer_behavior.customers_segment", VString "MACHINERY")];
                [("customer_behavior.customers_segment", VString "BUILDING")] ])
           _ _ FilterOptions.initial eq_refl eq_refl).
Defined.

(** X11 at a client that is not configured: both queries throw, nothing is
    sent, and the lists stay empty. *)
Lemma failed_options_load_changes_nothing_witness :
  FilterOptions.loadFilterOptions example_runtime bytes_before (CubeApi.constructor None None)
    (always (CubeApi.Fulfilled 200 (example_response []))) FilterOptions.initial
  = ({| FilterOptions.availableRegions := [];
        FilterOptions.availableSegments := [];
        FilterOptions.loading := false |}, []).
Proof.
  unfold FilterOptions.loadFilterOptions. simpl CubeApi.query. cbv iota beta.
  destruct (failed_options_load_changes_nothing example_runtime bytes_before
              (CubeApi.Throw CubeApi.not_configured) (CubeApi.Throw CubeApi.not_configured)
              FilterOptions.initial
              (or_introl (ex_intro _ CubeApi.not_configured eq_refl)))
    as (H1 & H2 & H3).
  destruct (FilterOptions.loaded example_runtime bytes_before
              (CubeApi.Throw CubeApi.not_configured) (CubeApi.Throw CubeApi.not_configured)
              FilterOptions.initial) as [regions segments loading].
  simpl in H1, H2, H3. now subst.
Defined.

(** X12 with the strings compared byte by byte. *)
Lemma options_are_in_order_witness :
  in_order example_runtime bytes_before
    (FilterOptions.options example_runtime bytes_before
       [VString "EUROPE"; VString "AMERICA"; VString "ASIA"; VString "EUROPE"]).
Proof.
  apply (options_are_in_order example_runtime bytes_before).
  intros a b. apply bytes_before_asym.
Defined.

(** ** The styling of the charts *)

Section ChartStyling.

Import Cube.




Variable rt : Runtime.

(** X15. The line and bar charts draw every normalized response with the
    labels, the series and the colours its normalizer gave it: the fallback
    colours of the component are never used for the dashboard's charts. *)
Theorem sales_chart_keeps_the_normalizer_colours
    (w : Dashboard.Widget) (response : CubeQueryResponse)
    (type : Charts.SalesChart.ChartType) :
  let chart := normalizer_of rt w response in
  exists styled,
    Charts.SalesChart.enhancedData type (Some chart)
    = Some {| Charts.labels := labels chart; Charts.datasets := styled |}
    /\ map Charts.label styled = map label (datasets chart)
    /\ map Charts.data styled = map series (datasets chart)
    /\ map Charts.backgroundColor styled = map backgroundColor (datasets chart).
Proof.
  intros chart. eexists. split; [reflexivity|].
  split; [now rewrite map_map|].
  split; [now rewrite map_map|].
  rewrite map_map. subst chart.
  destruct w; simpl;
    unfold Dashboard.processSalesOverTimeData, Dashboard.processSalesByRegionData,
      Dashboard.processCustomerSegmentsData, Dashboard.processOrderSizeData,
      Dashboard.processTopBrandsData, Dashboard.processOrderStatusData;
    destruct (Dashboard.no_rows response); reflexivity.
Qed.

End ChartStyling.

(** ** The KPI cards *)

Section KpiFacts.

Import Cube MetricsCard KPICards.

(** A number is above 0, below 0, equal to 0 (plus or minus) or NaN, and
    only one of these. *)
Lemma compare_with_zero (x : float) :
  (PrimFloat.ltb 0 x = true /\ PrimFloat.ltb x 0 = false
   /\ PrimFloat.eqb x 0 = false /\ PrimFloat.is_nan x = false)
  \/ (PrimFloat.ltb 0 x = false /\ PrimFloat.ltb x 0 = true
      /\ PrimFloat.eqb x 0 = false /\ PrimFloat.is_nan x = false)
  \/ (PrimFloat.ltb 0 x = false /\ PrimFloat.ltb x 0 = false
      /\ PrimFloat.eqb x 0 = true /\ PrimFloat.is_nan x = false)
  \/ (PrimFloat.ltb 0 x = false /\ PrimFloat.ltb x 0 = false
      /\ PrimFloat.eqb x 0 = false /\ PrimFloat.is_nan x = true).
Proof.
  unfold PrimFloat.is_nan.
  rewrite !FloatAxioms.ltb_spec, !FloatAxioms.eqb_spec.
  replace (Prim2SF 0) with (S754_zero false) by reflexivity.
  destruct (Prim2SF x) as [s|s| |s m e]; unfold SFltb, SFeqb; simpl;
    try destruct s; simpl; rewrite ?Z.compare_refl, ?Pos.compare_cont_refl; simpl; tauto.
Qed.

(** X16. On a metric card the trend icon, the colour of the chip and the
    sign written before the change follow the change: above 0 it gets the
    upward arrow, the colour of success and a plus sign; below 0 the
    downward arrow, the colour of an error and no sign; a change of 0 or
    NaN has no icon, the default colour and no sign, and so has a card
    without a change. Every change is one of these. *)
Theorem trend_icon_and_colour_agree (change : option float) :
  match change with
  | None => getTrendIcon change = None /\ getTrendColor change = "default"
  | Some x =>
      (PrimFloat.ltb 0 x = true ->
       getTrendIcon change = Some TrendingUp
       /\ getTrendColor change = "success"
       /\ sign_prefix x = "+")
      /\ (PrimFloat.ltb x 0 = true ->
          getTrendIcon change = Some TrendingDown
          /\ getTrendColor change = "error"
          /\ sign_prefix x = "")
      /\ (PrimFloat.eqb x 0 = true \/ PrimFloat.is_nan x = true ->
          getTrendIcon change = None
          /\ getTrendColor change = "default"
          /\ sign_prefix x = "")
      /\ (PrimFloat.ltb 0 x = true \/ PrimFloat.ltb x 0 = true
          \/ PrimFloat.eqb x 0 = true \/ PrimFloat.is_nan x = true)
  end.
Proof.
  destruct change as [x|]; [|split; reflexivity].
  unfold getTrendIcon, getTrendColor, sign_prefix.
  destruct (compare_with_zero x) as [H|[H|[H|H]]];
    destruct H as (H1 & H2 & H3 & H4); rewrite H1, H2, H3, H4;
    intuition discriminate.
Qed.

Variable rt : Runtime.
Variable api : CubeApi.CubeApiService.

Lemma step_keeps_error (e : Event) (st : State) :
  error st = Some "Failed to load KPIs" ->
  error (step rt api e st) = Some "Failed to load KPIs".
Proof.
  intros H. destruct e as [filters|outcome]; simpl.
  - unfold fetchKPIs. now destruct (negb (CubeApi.isConfigured api)).
  - unfold resumed. destruct (CubeApi.settle outcome) as [response|err]; [|reflexivity].
    now destruct (Cube.data response).
Qed.

Lemma run_keeps_error (events : list Event) :
  forall st, error st = Some "Failed to load KPIs" ->
             error (run rt api events st) = Some "Failed to load KPIs".
Proof.
  induction events as [|e events IH]; intros st H; [exact H|].
  apply IH, step_keeps_error, H.
Qed.

Lemma failing_step_sets_error (e : Event) (st : State) :
  kpi_fetch_fails api e -> error (step rt api e st) = Some "Failed to load KPIs".
Proof.
  intros [filters Hoff|outcome err Herr|status response Hdata]; simpl.
  - unfold fetchKPIs. now rewrite Hoff.
  - unfold resumed. now rewrite Herr.
  - unfold resumed. simpl. now rewrite Hdata.
Qed.

(** X17. An error of the KPI cards is never cleared: once a fetch has failed
    (the client is not configured, the request is rejected, or the answer
    has no [data]), the cards show ["Failed to load KPIs"] whatever happens
    afterwards, later filters and successful answers included. *)
Theorem kpi_error_is_never_cleared
    (before after : list Event) (e : Event) (st : State)
    (Hfail : kpi_fetch_fails api e) :
  render (run rt api (before ++ e :: after)%list st) = ErrorText "Failed to load KPIs".
Proof.
  unfold run. rewrite fold_left_app. simpl.
  fold (run rt api before st).
  fold (run rt api after (step rt api e (run rt api before st))).
  unfold render.
  now rewrite (run_keeps_error after _ (failing_step_sets_error e _ Hfail)).
Qed.

Lemma field_falsy (row : CubeDataRow) (key : string) :
  JsLib.truthy (row_get row key) = false -> field rt row key = "0".
Proof. unfold field, JsLib.or_value. now intros ->. Qed.

(** X18. A measure that is missing from the answer shows as 0: when the
    answer has no row, or its first row holds no value, a null, an empty
    string, a zero or a NaN for each of the three measures, the three cards
    show the number 0 and the loading state ends. *)
Theorem kpi_missing_values_show_zero
    (status : Z) (response : CubeQueryResponse) (rows : list CubeDataRow) (st : State)
    (Hdata : Cube.data response = Some rows)
    (Hmissing : forall key, In key kpi_measures ->
                  JsLib.truthy (row_get (hd [] rows) key) = false) :
  let st' := resumed rt (CubeApi.Fulfilled status response) st in
  map value (KPICards.data st') = [VNumber 0; VNumber 0; VNumber 0]
  /\ map title (KPICards.data st')
     = ["Order Count (LTM)"; "Revenue (LTM)"; "Avg Order Value (LTM)"]
  /\ loading st' = false
  /\ error st' = error st.
Proof.
  intros st'. subst st'. unfold resumed. simpl CubeApi.settle. cbv iota beta.
  rewrite Hdata.
  assert (Hrow : match rows with row :: _ => row | [] => [] end = hd [] rows)
    by now destruct rows.
  rewrite Hrow. simpl.
  rewrite !field_falsy by (apply Hmissing; simpl; tauto).
  repeat split.
Qed.

Lemma parseInt_non_numeric (s : string) :
  starts_non_numeric s = true -> JsLib.parseInt s = PrimFloat.nan.
Proof.
  unfold starts_non_numeric, JsLib.parseInt.
  destruct (Js.trimStart s) as [|c r]; [reflexivity|].
  destruct (Js.digit_of c) eqn:Hd; [discriminate|].
  intros H. apply negb_true_iff in H.
  apply orb_false_iff in H as [H _].
  apply orb_false_iff in H as [H _].
  apply orb_false_iff in H as [Hplus Hminus].
  apply Ascii.eqb_neq in Hplus, Hminus.
  assert (Hsign : Js.read_sign (String c r) = (false, String c r)).
  { unfold Js.read_sign.
    destruct c as [[] [] [] [] [] [] [] []]; try reflexivity;
      exfalso; (now apply Hplus) || (now apply Hminus). }
  rewrite Hsign.
  assert (H0 : forall p, Js.startsWith (String "0" p) (String c r) = false).
  { intros p. cbn [Js.startsWith].
    replace ("0" =? c)%char with false; [reflexivity|].
    symmetry. apply Ascii.eqb_neq. intros <-. discriminate. }
  rewrite !H0. simpl. now rewrite Hd.
Qed.

(** X19. A measure that is unreadable shows as NaN, not as 0: when the value
    of a measure in the first row is a non-empty string that starts no
    number, the value of its card is NaN (the normalizers of the charts put
    0 there). *)
Theorem kpi_unreadable_value_shows_nan
    (row : CubeDataRow) (i : nat) (key s : string)
    (Hkey : nth_error kpi_measures i = Some key)
    (Hvalue : row_get row key = VString s)
    (Hs : s <> "")
    (Hbad : starts_non_numeric s = true) :
  exists card x,
    nth_error (cards rt row) i = Some card
    /\ value card = VNumber x
    /\ PrimFloat.is_nan x = true.
Proof.
  assert (Hfield : field rt row key = s).
  { unfold field, JsLib.or_value. rewrite Hvalue. simpl.
    unfold Js.truthy_string. now destruct s. }
  destruct i as [|[|[|i]]]; simpl in Hkey.
  - injection Hkey as <-. eexists. eexists. split; [reflexivity|]. simpl.
    rewrite Hfield, (parseInt_non_numeric s Hbad). split; reflexivity.
  - injection Hkey as <-. eexists. eexists. split; [reflexivity|]. simpl.
    rewrite Hfield, (parseFloat_non_numeric s Hbad). split; reflexivity.
  - injection Hkey as <-. eexists. eexists. split; [reflexivity|]. simpl.
    rewrite Hfield, (parseFloat_non_numeric s Hbad). split; reflexivity.
  - now destruct i.
Qed.

End KpiFacts.

(** X17 at a timeout followed by a successful answer. *)
Lemma kpi_error_is_never_cleared_witness :
  KPICards.render
    (KPICards.run example_runtime example_api
       [ KPICards.Filters [];
         KPICards.Settled
           (CubeApi.RejectedAxios
              {| CubeApi.message := "timeout of 10000ms exceeded";
                 CubeApi.response := None |});
         KPICards.Filters filters_A;
         KPICards.Settled
           (CubeApi.Fulfilled 200
              (example_response
                 [[("customer_behavior.count", VString "15000")]])) ]
       KPICards.initial)
  = KPICards.ErrorText "Failed to load KPIs".
Proof.
  apply (kpi_error_is_never_cleared example_runtime example_api
           [KPICards.Filters []]
           [ KPICards.Filters filters_A;
             KPICards.Settled
               (CubeApi.Fulfilled 200
                  (example_response
                     [[("customer_behavior.count", VString "15000")]])) ]
           (KPICards.Settled
              (CubeApi.RejectedAxios
                 {| CubeApi.message := "timeout of 10000ms exceeded";
                    CubeApi.response := None |}))
           KPICards.initial).
  apply (kpi_rejected _ _ (CubeApi.ErrorObject "API Error: timeout of 10000ms exceeded")).
  reflexivity.
Defined.

(** X18 at an answer whose only row holds a null and an empty string. *)
Lemma kpi_missing_values_show_zero_witness :
  let response :=
    example_response
      [[("customer_behavior.count", VNull); ("customer_behavior.total_revenue", VString "")]] in
  map MetricsCard.value
      (KPICards.data
         (KPICards.resumed example_runtime (CubeApi.Fulfilled 200 response) KPICards.initial))
  = [VNumber 0; VNumber 0; VNumber 0].
Proof.
  apply (kpi_missing_values_show_zero example_runtime 200
           (example_response
              [[("customer_behavior.count", VNull);
                ("customer_behavior.total_revenue", VString "")]])
           [[("customer_behavior.count", VNull);
             ("customer_behavior.total_revenue", VString "")]]
           KPICards.initial eq_refl).
  intros key [<-|[<-|[<-|[]]]]; reflexivity.
Defined.

(** X19 at a count of ["n/a"]. *)
Lemma kpi_unreadable_value_shows_nan_witness :
  exists card x,
    nth_error (KPICards.cards example_runtime [("customer_behavior.count", VString "n/a")]) 0
    = Some card
    /\ MetricsCard.value card = VNumber x
    /\ PrimFloat.is_nan x = true.
Proof.
  apply (kpi_unreadable_value_shows_nan example_runtime
           [("customer_behavior.count", VString "n/a")] 0 "customer_behavior.count" "n/a").
  - reflexivity.
  - reflexivity.
  - discriminate.
  - reflexivity.
Defined.

(** ** Signing in *)

Section SignIn.

Import AuthServer.

Lemma find_user_some (username : JsValue) (u : WorkshopUser) :
  find_user username = Some u ->
  In u WORKSHOP_USERS /\ username = VString (email u).
Proof.
  unfold find_user. intros H. apply find_some in H as [Hin Heq].
  split; [exact Hin|].
  destruct username as [s| | |]; try discriminate.
  simpl in Heq. apply String.eqb_eq in Heq. now subst.
Qed.

Lemma find_user_none (username : JsValue) (u : WorkshopUser) :
  find_user username = None -> In u WORKSHOP_USERS -> username <> VString (email u).
Proof.
  unfold find_user. intros H Hin ->.
  apply (find_none _ _ H) in Hin. simpl in Hin.
  now rewrite String.eqb_refl in Hin.
Qed.

Lemma emails_identify (u u' : WorkshopUser) :
  In u WORKSHOP_USERS -> In u' WORKSHOP_USERS -> email u = email u' -> u = u'.
Proof.
  unfold WORKSHOP_USERS. simpl.
  intros [<-|[<-|[<-|[<-|[<-|[]]]]]] [<-|[<-|[<-|[<-|[<-|[]]]]]]; simpl;
    intros H; try reflexivity; discriminate.
Qed.

Lemma passwords_are_password (u : WorkshopUser) :
  In u WORKSHOP_USERS -> password u = "password".
Proof.
  unfold WORKSHOP_USERS. simpl.
  now intros [<-|[<-|[<-|[<-|[<-|[]]]]]].
Qed.

Variable jwt_sign : string -> option string -> string -> option string.
Variable CUBEJS_API_SECRET : option string.

(** The three ways [login] answers a request with a parsed body. *)
Lemma login_cases (username password : JsValue) :
  let response := login jwt_sign CUBEJS_API_SECRET (Parsed username password) in
  ((forall u, ~ registered username password u)
   /\ response = {| status := 401; body := ErrorBody "Invalid credentials" |})
  \/ (exists u, registered username password u
        /\ response =
           match jwt_sign (email u) CUBEJS_API_SECRET "30d" with
           | Some token =>
               {| status := 200; body := LoginBody (email u) (name u) (role u) token |}
           | None => {| status := 500; body := OtherBody |}
           end).
Proof.
  intros response. subst response. unfold login.
  destruct (find_user username) as [user|] eqn:Hfind.
  - destruct (find_user_some _ _ Hfind) as [Hin ->].
    rewrite (passwords_are_password user Hin).
    destruct (strict_equal "password" password) eqn:Hpw; simpl.
    + right. exists user. split.
      * split; [exact Hin|]. split; [reflexivity|].
        destruct password as [p| | |]; try discriminate.
        unfold strict_equal in Hpw. apply String.eqb_eq in Hpw. now subst.
      * now destruct (jwt_sign (email user) CUBEJS_API_SECRET "30d").
    + left. split; [|reflexivity].
      intros u (_ & _ & ->). simpl in Hpw. discriminate.
  - left. split; [|reflexivity].
    intros u (Hin & Hu & _). exact (find_user_none _ _ Hfind Hin Hu).
Qed.

(** X20. The auth server accepts exactly the workshop credentials: the
    answer is 200 only for a parsed body with the e-mail address of one of
    the five workshop users and the password ["password"], both given as
    strings; it then carries that user's address, name and role and a token
    signed for the address as [user_id] with a validity of 30 days. A
    parsed body with anything else gets the same 401 ["Invalid
    credentials"], whether the user is unknown or the password wrong, and
    no other request gets it. The answer is 500 when the request brought no
    parsed body, or when signing throws. *)
Theorem server_accepts_exactly_the_workshop_credentials (req_body : RequestBody) :
  let response := login jwt_sign CUBEJS_API_SECRET req_body in
  (status response = 200%Z <->
     exists username password u token,
       req_body = Parsed username password
       /\ registered username password u
       /\ jwt_sign (email u) CUBEJS_API_SECRET "30d" = Some token
       /\ body response = LoginBody (email u) (name u) (role u) token)
  /\ (response = {| status := 401; body := ErrorBody "Invalid credentials" |} <->
        exists username password,
          req_body = Parsed username password
          /\ forall u, ~ registered username password u)
  /\ (status response = 500%Z <->
        req_body = NotParsed
        \/ exists username password u,
             req_body = Parsed username password
             /\ registered username password u
             /\ jwt_sign (email u) CUBEJS_API_SECRET "30d" = None).
Proof.
  intros response. destruct req_body as [username password|].
  2: { subst response. simpl. split; [|split].
       - split; [discriminate|]. intros (? & ? & ? & ? & H & _). discriminate H.
       - split; [discriminate|]. intros (? & ? & H & _). discriminate H.
       - split; [now left|reflexivity]. }
  assert (Hsame : forall u u', registered username password u ->
                               registered username password u' -> u = u').
  { intros u u' (Hin & Hname & _) (Hin' & Hname' & _).
    rewrite Hname in Hname'. injection Hname' as Hname'.
    now apply emails_identify. }
  destruct (login_cases username password) as [[Hno Hr]|(u & Hu & Hr)];
    fold response in Hr; rewrite Hr.
  - split; [|split].
    + split; [discriminate|].
      intros (username' & password' & u & token & [= <- <-] & Hu & _). now elim (Hno u).
    + split; [intros _; now exists username, password|reflexivity].
    + split; [discriminate|].
      intros [H|(username' & password' & u & [= <- <-] & Hu & _)];
        [discriminate H|now elim (Hno u)].
  - destruct (jwt_sign (email u) CUBEJS_API_SECRET "30d") as [token|] eqn:Hsign.
    + split; [|split].
      * split; [|reflexivity]. intros _. exists username, password, u, token.
        split; [reflexivity|]. split; [exact Hu|]. split; [exact Hsign|reflexivity].
      * split; [discriminate|].
        intros (username' & password' & [= <- <-] & Hno). now elim (Hno u).
      * split; [discriminate|].
        intros [H|(username' & password' & u' & [= <- <-] & Hu' & Hnone)];
          [discriminate H|].
        rewrite (Hsame u u' Hu Hu') in Hsign. congruence.
    + split; [|split].
      * split; [discriminate|].
        intros (username' & password' & u' & token & [= <- <-] & Hu' & Hsome & _).
        rewrite (Hsame u u' Hu Hu') in Hsign. congruence.
      * split; [discriminate|].
        intros (username' & password' & [= <- <-] & Hno). now elim (Hno u).
      * split; [|reflexivity]. intros _. right. now exists username, password, u.
Qed.

(** X21. Signing in through the form succeeds exactly for the workshop
    credentials: when the name and the password typed are those of a
    workshop user and the server can sign, the application is signed in as
    that user, the session is stored, the API client carries the token the
    server signed and the form shows no error; when the server cannot sign,
    or the credentials are not those of a workshop user, the application
    state is unchanged and the form shows a message, ["Invalid username or
    password"] for wrong credentials. *)
Theorem sign_in_succeeds_exactly_for_workshop_credentials
    (form : LoginForm.State) (auth : AuthContext.State) :
  let result := LoginForm.submit jwt_sign CUBEJS_API_SECRET form auth in
  let credentials u :=
    registered (VString (LoginForm.username form)) (VString (LoginForm.password form)) u in
  ((forall u, ~ credentials u)
   /\ snd result = auth
   /\ LoginForm.error (fst result) = "Invalid username or password")
  \/ (exists u,
        credentials u
        /\ match jwt_sign (email u) CUBEJS_API_SECRET "30d" with
           | Some token =>
               AuthContext.user (snd result) = Some (session_of u token)
               /\ AuthContext.isAuthenticated (snd result) = true
               /\ AuthContext.workshop_user (snd result)
                  = Some (AuthContext.Session (session_of u token))
               /\ CubeApi.token (AuthContext.cubeApi (snd result)) = token
               /\ LoginForm.error (fst result) = ""
           | None =>
               snd result = auth
               /\ LoginForm.error (fst result) = "Login failed. Please try again."
           end).
Proof.
  intros result credentials. subst result credentials.
  unfold LoginForm.submit, LoginForm.handleSubmit.
  destruct (login_cases (VString (LoginForm.username form)) (VString (LoginForm.password form)))
    as [[Hno Hr]|(u & Hu & Hr)]; cbv zeta in Hr; rewrite Hr.
  - left. split; [exact Hno|]. split; reflexivity.
  - right. exists u. split; [exact Hu|].
    destruct (jwt_sign (email u) CUBEJS_API_SECRET "30d") as [token|]; simpl.
    + repeat split.
    + split; reflexivity.
Qed.

End SignIn.

Section Sessions.

Import AuthContext.

Lemma auth_run_client (events : list AuthEvent) :
  forall st,
    CubeApi.token (cubeApi (auth_run events st))
    = last_token events (CubeApi.token (cubeApi st))
    /\ CubeApi.apiUrl (cubeApi (auth_run events st)) = CubeApi.apiUrl (cubeApi st).
Proof.
  induction events as [|e events IH]; intros st; [split; reflexivity|].
  unfold auth_run, last_token. cbn [fold_left].
  destruct (IH (auth_step st e)) as [Ht Hu]. unfold auth_run, last_token in Ht, Hu.
  rewrite Ht, Hu. now destruct e.
Qed.

(** X22. Signing out does not take the token back from the API client:
    whatever sign-ins and sign-outs came before, after a sign-out the
    application is signed out and the stored session is gone, yet the
    client still holds the token of the last sign-in, and a request it
    sends carries that token to the same endpoint. *)
Theorem sign_out_leaves_the_token_in_the_client
    (events : list AuthEvent) (st : State) (query : Cube.CubeQuery) :
  let st' := auth_run (events ++ [SignOut])%list st in
  isAuthenticated st' = false
  /\ workshop_user st' = None
  /\ CubeApi.request_of (cubeApi st') query
     = {| CubeApi.url := CubeApi.apiUrl (cubeApi st) ++ "/load";
          CubeApi.query_param := query;
          CubeApi.Authorization := last_token events (CubeApi.token (cubeApi st)) |}.
Proof.
  intros st'. subst st'. unfold auth_run. rewrite fold_left_app. simpl.
  fold (auth_run events st).
  split; [reflexivity|]. split; [reflexivity|].
  destruct (auth_run_client events st) as [Ht Hu].
  unfold CubeApi.request_of. now rewrite Ht, Hu.
Qed.

(** X23. A session survives a reload of the page: after a sign-in with a
    non-empty token, loading the page again restores the same user, signed
    in, with the token in a client otherwise built from the environment;
    after a sign-out the page loads signed out with the token of the
    environment; and a stored session that cannot be parsed is removed,
    leaving the page signed out. *)
Theorem session_survives_a_reload
    (env_url env_token : option string)
    (email name role token text : string) (st : State)
    (Htoken : token <> "") (Htext : text <> "") :
  let userData :=
    {| AuthContext.email := email; AuthContext.name := name;
       AuthContext.role := role; AuthContext.token := token |} in
  let again := page_load env_url env_token (workshop_user (login email name role token st)) in
  let left := page_load env_url env_token (workshop_user (logout st)) in
  let broken := page_load env_url env_token (Some (Unparsable text)) in
  (user again = Some userData
   /\ isAuthenticated again = true
   /\ workshop_user again = Some (Session userData)
   /\ cubeApi again = CubeApi.setToken (CubeApi.constructor env_url env_token) token)
  /\ (isAuthenticated left = false
      /\ cubeApi left = CubeApi.constructor env_url env_token)
  /\ (isAuthenticated broken = false
      /\ workshop_user broken = None).
Proof.
  intros userData again left broken. subst userData again left broken.
  unfold page_load, restore. simpl.
  assert (Ht : Js.truthy_string token = true).
  { unfold Js.truthy_string. destruct token; [now elim Htoken|reflexivity]. }
  assert (Hx : Js.truthy_string text = true).
  { unfold Js.truthy_string. destruct text; [now elim Htext|reflexivity]. }
  rewrite Ht, Hx. simpl. repeat split.
Qed.

End Sessions.

(** X21 at the administrator with the right and with a wrong password. *)
Lemma sign_in_example :
  let right := {| LoginForm.username := "admin@tpch.com";
                  LoginForm.password := "password";
                  LoginForm.error := "" |} in
  let wrong := {| LoginForm.username := "admin@tpch.com";
                  LoginForm.password := "Password";
                  LoginForm.error := "" |} in
  AuthContext.isAuthenticated
    (snd (LoginForm.submit example_sign (Some "secret") right example_auth)) = true
  /\ CubeApi.token
       (AuthContext.cubeApi
          (snd (LoginForm.submit example_sign (Some "secret") right example_auth)))
     = "jwt:admin@tpch.com:30d"
  /\ LoginForm.submit example_sign (Some "secret") wrong example_auth
     = ({| LoginForm.username := "admin@tpch.com";
           LoginForm.password := "Password";
           LoginForm.error := "Invalid username or password" |}, example_auth)
  /\ LoginForm.submit example_sign None right example_auth
     = ({| LoginForm.username := "admin@tpch.com";
           LoginForm.password := "password";
           LoginForm.error := "Login failed. Please try again." |}, example_auth).
Proof. repeat split. Qed.

(** X23 at a session of the administrator. *)
Lemma session_survives_a_reload_witness :
  AuthContext.user
    (AuthContext.page_load None None
       (AuthContext.workshop_user
          (AuthContext.login "admin@tpch.com" "Admin User" "global_admin" "eyJ0eXAi"
             example_auth)))
  = Some {| AuthContext.email := "admin@tpch.com"; AuthContext.name := "Admin User";
            AuthContext.role := "global_admin"; AuthContext.token := "eyJ0eXAi" |}.
Proof.
  apply (session_survives_a_reload None None
           "admin@tpch.com" "Admin User" "global_admin" "eyJ0eXAi" "{" example_auth);
    discriminate.
Defined.
